(** * RabidArchiver2: the manifest store and the full-text index

    A shallow embedding of the Go packages [scan] (the scanner that writes
    the [files] table) and [db] (the manifest queries, the stub helper query
    and the Bleve indexer), with theorems about upserts, status updates,
    statistics, directory listings, index maintenance and search scoping.

    Conventions of the embedding:
    - Go [string]s are byte strings ([string] of [ascii]); where the code
      or a library reads them as UTF-8 the decoding is spelled out, Go's for
      [strings.ToLower] and SQLite's for LIKE;
    - the Unicode case tables of the Go release are a parameter
      ([golib.CaseTables]);
    - [int64] values that the code only stores and copies are [Z];
    - [time.Time] is a [Z] (an instant);
    - a SQL column that may hold NULL is an [option];
    - an [error] result is an [option error] ([None] is Go's [nil]); a
      run-time panic of a call is the outcome [PanicOutOfRange];
    - the SQLite table is a list of rows, the Bleve index a finite map from
      document id to document, created by [NewIndexer] with the mapping of
      [createIndexMapping];
    - SQL statements fail only for the reasons SQLite gives on a sound
      database file (a NULL that does not convert, rowids exhausted, integer
      overflow, a LIKE pattern beyond the length limit); writes to the index
      can also fail because the index is closed or because the storage layer
      refuses them. *)

From stdpp Require Import base strings pretty gmap list sorting.
From Stdlib Require Import ZArith Ascii String Lia ZifyNat.

Local Open Scope Z_scope.

(** ** Errors reported by the libraries and by the code itself *)

Inductive error : Type :=
  | ErrScanNull (column : string)   (* sql: converting NULL to a Go value *)
  | ErrSQLiteFull                   (* AUTOINCREMENT has run out of rowids *)
  | ErrIntegerOverflow              (* SUM() left the int64 range *)
  | ErrNilFile                      (* "cannot index nil file" *)
  | ErrEmptyID                      (* bleve: empty document id *)
  | ErrIndexClosed                  (* bleve: the index has been closed *)
  | ErrIO                           (* bleve: the write did not reach store *)
  | ErrQuerySyntax                  (* bleve: no searcher for the query (the
                                       query string does not parse, or the
                                       field's analyser is not registered) *)
  | ErrLikePattern                  (* "LIKE or GLOB pattern too complex" *)
  | PanicOutOfRange.                (* no error value: the call ends in a
                                       run-time panic (an index or a
                                       capacity out of range) *)

Definition maxInt64 : Z := 9223372036854775807.
Definition minInt64 : Z := -9223372036854775808.

(** ** Bytes *)

(** A byte of a Go string or of a C string, as a number and back. *)
Definition byteOf (c : ascii) : Z := Z.of_N (N_of_ascii c).
Definition ofByte (b : Z) : ascii := ascii_of_N (Z.to_N (b mod 256)).

#[global] Arguments byteOf : simpl never.

(** ** The parts of Go's standard library the code calls *)

Module golib.

Definition isPathSeparator (c : ascii) : bool := Ascii.eqb c "/".

(** [strings.HasSuffix]: [len(s) >= len(suffix) && s[len(s)-len(suffix):] == suffix]. *)
Definition HasSuffix (s suffix : string) : bool :=
  (String.length suffix <=? String.length s)%nat &&
  String.eqb
    (substring (String.length s - String.length suffix) (String.length suffix) s)
    suffix.

(** [filepath.Ext]:
    [for i := len(path)-1; i >= 0 && !IsPathSeparator(path[i]); i-- {
       if path[i] == '.' { return path[i:] } }
     return ""].
    [extLoop path n] runs the loop from index [n-1] downwards. *)
Fixpoint extLoop (path : string) (n : nat) : string :=
  match n with
  | O => EmptyString
  | S i =>
      match String.get i path with
      | Some c =>
          if isPathSeparator c then EmptyString
          else if Ascii.eqb c "." then substring i (String.length path - i) path
          else extLoop path i
      | None => EmptyString
      end
  end.

Definition Ext (path : string) : string := extLoop path (String.length path).

(** [filepath.Base] on a Unix system (no volume names).  [stripSlashes path n]
    is the length left after trailing separators are removed from the first
    [n] bytes; [lastElem path n] is the index just after the last separator
    among the first [n] bytes. *)
Fixpoint stripSlashes (path : string) (n : nat) : nat :=
  match n with
  | O => O
  | S i =>
      match String.get i path with
      | Some c => if isPathSeparator c then stripSlashes path i else n
      | None => n
      end
  end.

Fixpoint lastElem (path : string) (n : nat) : nat :=
  match n with
  | O => O
  | S i =>
      match String.get i path with
      | Some c => if isPathSeparator c then n else lastElem path i
      | None => n
      end
  end.

Definition Base (path : string) : string :=
  if String.eqb path EmptyString then "."%string
  else
    let path1 := substring 0 (stripSlashes path (String.length path)) path in
    let i := lastElem path1 (String.length path1) in
    let path2 := substring i (String.length path1 - i) path1 in
    if String.eqb path2 EmptyString then "/"%string else path2.

(** [fmt.Sprintf("%d", n)] for an [int64]. *)
Definition Sprintf_d (n : Z) : string := pretty n.

(** [strings.HasPrefix]: [len(s) >= len(prefix) && s[:len(prefix)] == prefix]. *)
Definition HasPrefix (s prefix : string) : bool :=
  (String.length prefix <=? String.length s)%nat &&
  String.eqb (substring 0 (String.length prefix) s) prefix.

(** Package [unicode/utf8]. *)
Definition RuneError : Z := 65533.   (* U+FFFD *)
Definition MaxRune : Z := 1114111.   (* U+10FFFF *)
Definition RuneSelf : Z := 128.

(** [utf8.DecodeRuneInString]: the first rune of [s] and its width in
    bytes; a byte that does not start a well-formed, shortest-form encoding
    of a Unicode scalar value is [(RuneError, 1)].  The second byte must lie
    in the range the first byte accepts ([acceptRanges]); the others in
    [0x80, 0xBF]. *)
Definition DecodeRuneInString (s : string) : Z * nat :=
  match s with
  | EmptyString => (RuneError, 0%nat)
  | String c0 t0 =>
      let s0 := byteOf c0 in
      if s0 <? 128 then (s0, 1%nat)
      else if (s0 <? 194) || (244 <? s0) then (RuneError, 1%nat)
      else
        let sz := if s0 <? 224 then 2%nat else if s0 <? 240 then 3%nat
                  else 4%nat in
        let lo := if s0 =? 224 then 160 else if s0 =? 240 then 144 else 128 in
        let hi := if s0 =? 237 then 159 else if s0 =? 244 then 143 else 191 in
        if (String.length s <? sz)%nat then (RuneError, 1%nat)
        else
          match t0 with
          | EmptyString => (RuneError, 1%nat)
          | String c1 t1 =>
              let s1 := byteOf c1 in
              if (s1 <? lo) || (hi <? s1) then (RuneError, 1%nat)
              else if (sz <=? 2)%nat then
                (Z.lor (Z.shiftl (Z.land s0 31) 6) (Z.land s1 63), 2%nat)
              else
                match t1 with
                | EmptyString => (RuneError, 1%nat)
                | String c2 t2 =>
                    let s2 := byteOf c2 in
                    if (s2 <? 128) || (191 <? s2) then (RuneError, 1%nat)
                    else if (sz <=? 3)%nat then
                      (Z.lor (Z.lor (Z.shiftl (Z.land s0 15) 12)
                                    (Z.shiftl (Z.land s1 63) 6))
                             (Z.land s2 63), 3%nat)
                    else
                      match t2 with
                      | EmptyString => (RuneError, 1%nat)
                      | String c3 _ =>
                          let s3 := byteOf c3 in
                          if (s3 <? 128) || (191 <? s3)
                          then (RuneError, 1%nat)
                          else
                            (Z.lor (Z.lor (Z.lor (Z.shiftl (Z.land s0 7) 18)
                                                 (Z.shiftl (Z.land s1 63) 12))
                                          (Z.shiftl (Z.land s2 63) 6))
                                   (Z.land s3 63), 4%nat)
                      end
                end
          end
  end.

(** [utf8.AppendRune] to an empty buffer: the UTF-8 encoding of [r];
    surrogates and values outside the Unicode range are written as U+FFFD. *)
Definition EncodeRune (r : Z) : string :=
  let i := r mod 4294967296 in          (* uint32(r) *)
  if i <=? 127 then String (ofByte r) EmptyString
  else if i <=? 2047 then
    String (ofByte (Z.lor 192 (Z.shiftr r 6)))
      (String (ofByte (Z.lor 128 (Z.land r 63))) EmptyString)
  else
    let r3 := if (MaxRune <? i) || ((55296 <=? i) && (i <=? 57343))
              then RuneError else r in
    if (MaxRune <? i) || ((55296 <=? i) && (i <=? 57343)) || (i <=? 65535)
    then
      String (ofByte (Z.lor 224 (Z.shiftr r3 12)))
        (String (ofByte (Z.lor 128 (Z.land (Z.shiftr r3 6) 63)))
           (String (ofByte (Z.lor 128 (Z.land r3 63))) EmptyString))
    else
      String (ofByte (Z.lor 240 (Z.shiftr r 18)))
        (String (ofByte (Z.lor 128 (Z.land (Z.shiftr r 12) 63)))
           (String (ofByte (Z.lor 128 (Z.land (Z.shiftr r 6) 63)))
              (String (ofByte (Z.lor 128 (Z.land r 63))) EmptyString))).

(** [strings.Map]: the runes of [s], as [for _, c := range s] reads them (a
    byte that is not well-formed UTF-8 is one [RuneError]), each replaced by
    the encoding of [mapping c], or dropped when [mapping c] is negative.
    [skip] counts the bytes still to pass of the rune read last. *)
Fixpoint mapLoop (mapping : Z -> Z) (skip : nat) (s : string) : string :=
  match s with
  | EmptyString => EmptyString
  | String _ t =>
      match skip with
      | S k => mapLoop mapping k t
      | O =>
          let (c, width) := DecodeRuneInString s in
          let r := mapping c in
          (if r <? 0 then EmptyString else EncodeRune r)
          +:+ mapLoop mapping (width - 1) t
      end
  end.

Definition Map (mapping : Z -> Z) (s : string) : string := mapLoop mapping 0 s.

(** [unicode.To(unicode.LowerCase, r)] for a rune above ASCII: the case
    tables ([unicode.CaseRanges]) of the Go release the program is built
    with. *)
Class CaseTables : Type := { To_LowerCase : Z -> Z }.

(** [unicode.ToLower]:
    [if r <= MaxASCII { if 'A' <= r && r <= 'Z' { r += 'a' - 'A' }; return r }
     return To(LowerCase, r)]. *)
Definition unicode_ToLower {U : CaseTables} (r : Z) : Z :=
  if r <=? 127 then (if (65 <=? r) && (r <=? 90) then r + 32 else r)
  else To_LowerCase r.

(** [strings.ToLower].  A string of ASCII bytes only is handled byte by
    byte (the letters A to Z are mapped to a to z, every other byte is
    kept); any other string goes through [Map(unicode.ToLower, s)]. *)
Definition lowerByte (c : ascii) : ascii :=
  let n := N_of_ascii c in
  if (65 <=? n)%N && (n <=? 90)%N then ascii_of_N (n + 32) else c.

Fixpoint lowerASCII (s : string) : string :=
  match s with
  | EmptyString => EmptyString
  | String c r => String (lowerByte c) (lowerASCII r)
  end.

Fixpoint isASCII (s : string) : bool :=
  match s with
  | EmptyString => true
  | String c r => (byteOf c <? RuneSelf) && isASCII r
  end.

Fixpoint hasUpper (s : string) : bool :=
  match s with
  | EmptyString => false
  | String c r => ((65 <=? byteOf c) && (byteOf c <=? 90)) || hasUpper r
  end.

Definition ToLower {U : CaseTables} (s : string) : string :=
  if isASCII s then (if hasUpper s then lowerASCII s else s)
  else Map unicode_ToLower s.

End golib.

(** ** SQLite: the [files] table and the statements run against it *)

Module sqlite.

(** One row of
    [CREATE TABLE files (id INTEGER PRIMARY KEY AUTOINCREMENT,
       path TEXT NOT NULL, relative_path TEXT NOT NULL, size INTEGER NOT NULL,
       mod_time DATETIME NOT NULL, is_dir BOOLEAN NOT NULL, content_type TEXT,
       sha256 TEXT, processed BOOLEAN DEFAULT FALSE, uploaded_url TEXT,
       upload_time DATETIME, summary TEXT, UNIQUE(path))]. *)
Record Row : Type := mkRow {
  id : Z;
  path : string;
  relative_path : string;
  size : Z;
  mod_time : Z;
  is_dir : bool;
  content_type : option string;
  sha256 : option string;
  processed : option bool;
  uploaded_url : option string;
  upload_time : option Z;
  summary : option string
}.

(** The database: the rows of [files] and the AUTOINCREMENT counter that
    SQLite keeps in [sqlite_sequence] (the largest rowid ever handed out). *)
Record Database : Type := mkDatabase {
  files : list Row;
  seq : Z
}.

Definition maxRowid (rows : list Row) : Z :=
  foldr (fun r acc => Z.max (id r) acc) 0 rows.

(** The rowid an AUTOINCREMENT table gives to a row inserted without one. *)
Definition nextRowid (d : Database) : error + Z :=
  let m := Z.max (seq d) (maxRowid (files d)) in
  if m =? maxInt64 then inl ErrSQLiteFull else inr (m + 1).

(** *** LIKE

    The code runs [path LIKE ?] and [content_type LIKE ?] with SQLite's
    built-in [like] function (func.c): it sets no [case_sensitive_like]
    pragma and gives no ESCAPE clause. *)

(** [sqlite3_value_text] hands [likeFunc] a zero-terminated string: what
    follows a zero byte inside the value is not read. *)
Fixpoint cString (s : string) : string :=
  match s with
  | EmptyString => EmptyString
  | String c t => if byteOf c =? 0 then EmptyString else String c (cString t)
  end.

(** [sqlite3Utf8Trans1[c - 0xc0]]: the payload bits of a lead byte. *)
Definition sqlite3Utf8Trans1 (c : Z) : Z :=
  if c <? 224 then Z.land c 31
  else if c <? 240 then Z.land c 15
  else if c <? 248 then Z.land c 7
  else if c <? 252 then Z.land c 3
  else if c <? 254 then Z.land c 1
  else 0.

(** The loop of [sqlite3Utf8Read] over the continuation bytes (those whose
    two top bits are 10): [c = (c<<6) + (0x3f & byte)] on an
    [unsigned int]. *)
Fixpoint readContinuation (c : Z) (z : string) : Z * string :=
  match z with
  | String b z' =>
      if Z.land (byteOf b) 192 =? 128
      then readContinuation
             ((Z.shiftl c 6 + Z.land 63 (byteOf b)) mod 4294967296) z'
      else (c, z)
  | EmptyString => (c, z)
  end.

(** [sqlite3Utf8Read]: the next character of a zero-terminated string and
    the rest of the string; at the end it reads the terminator, 0.  The
    macro [Utf8Read] takes a byte below 0x80 as it is and calls this function
    otherwise, which gives the same result. *)
Definition sqlite3Utf8Read (z : string) : Z * string :=
  match z with
  | EmptyString => (0, EmptyString)
  | String b z' =>
      let c := byteOf b in
      if 192 <=? c then
        let (c1, z1) := readContinuation (sqlite3Utf8Trans1 c) z' in
        (if (c1 <? 128) || (Z.land c1 4294965248 =? 55296)
            || (Z.land c1 4294967294 =? 65534)
         then 65533 else c1, z1)
      else (c, z')
  end.

#[global] Arguments sqlite3Utf8Read : simpl never.

(** [sqlite3Tolower] and [sqlite3Toupper] look at the low byte of their
    argument. *)
Definition sqlite3Tolower (c : Z) : Z :=
  let b := c mod 256 in if (65 <=? b) && (b <=? 90) then b + 32 else b.

Definition sqlite3Toupper (c : Z) : Z :=
  let b := c mod 256 in if (97 <=? b) && (b <=? 122) then c - 32 else c.

Definition matchAll : Z := 37.   (* '%' *)
Definition matchOne : Z := 95.   (* '_' *)

Inductive compareResult : Type :=
  | SQLITE_MATCH
  | SQLITE_NOMATCH
  | SQLITE_NOWILDCARDMATCH.

(** The loop that follows a '%' in the pattern:
    [while( (c=Utf8Read(zPattern)) == matchAll || c == matchOne ){
       if( c==matchOne && sqlite3Utf8Read(&zString)==0 )
         return SQLITE_NOWILDCARDMATCH; }].
    The result is the character [c] that ends the loop with what is left
    of the pattern and of the string; [None] is the [return]. *)
Fixpoint skipWildcards (zPattern zString : string)
  : option (Z * string * string) :=
  match zPattern with
  | EmptyString => Some (0, EmptyString, zString)
  | String b p' =>
      if byteOf b =? matchAll then skipWildcards p' zString
      else if byteOf b =? matchOne then
        let (c2, zString1) := sqlite3Utf8Read zString in
        if c2 =? 0 then None else skipWildcards p' zString1
      else
        let (c, zPattern1) := sqlite3Utf8Read zPattern in
        Some (c, zPattern1, zString)
  end.

(** The two searches for the character [c] that follows a '%' in the
    pattern; [next z] stands for the recursive call
    [patternCompare(zPattern, z, pInfo, matchOther)].  For an ASCII [c]:
    [zStop] holds [c] in upper and in lower case, and
    [while(1){ zString += strcspn(zString, zStop); if( zString[0]==0 ) break;
       zString++; bMatch = patternCompare(...);
       if( bMatch!=SQLITE_NOMATCH ) return bMatch; }]. *)
Fixpoint searchByte (next : string -> option compareResult) (c : Z)
    (z : string) : option compareResult :=
  match z with
  | EmptyString => Some SQLITE_NOWILDCARDMATCH
  | String b z' =>
      if (byteOf b =? sqlite3Toupper c) || (byteOf b =? sqlite3Tolower c)
      then
        match next z' with
        | Some SQLITE_NOMATCH => searchByte next c z'
        | bMatch => bMatch
        end
      else searchByte next c z'
  end.

(** For any other [c]:
    [while( (c2 = Utf8Read(zString))!=0 ){ if( c2!=c ) continue;
       bMatch = patternCompare(...);
       if( bMatch!=SQLITE_NOMATCH ) return bMatch; }];
    [n] bounds the number of rounds. *)
Fixpoint searchCharacter (next : string -> option compareResult) (c : Z)
    (n : nat) (z : string) : option compareResult :=
  match n with
  | O => None
  | S n' =>
      let (c2, z') := sqlite3Utf8Read z in
      if c2 =? 0 then Some SQLITE_NOWILDCARDMATCH
      else if negb (c2 =? c) then searchCharacter next c n' z'
      else
        match next z' with
        | Some SQLITE_NOMATCH => searchCharacter next c n' z'
        | bMatch => bMatch
        end
  end.

(** [patternCompare] with the settings of LIKE ([matchAll] '%', [matchOne]
    '_', [noCase] set) and no ESCAPE character ([matchOther] is 0, which no
    character of the pattern equals).  Each round of the [while] loop and
    each recursive call uses one unit of [fuel]; [None] means the fuel did
    not suffice. *)
Fixpoint patternCompare (fuel : nat) (zPattern zString : string)
  : option compareResult :=
  match fuel with
  | O => None
  | S fuel' =>
      let (c, zPattern1) := sqlite3Utf8Read zPattern in
      if c =? 0 then
        Some (if String.eqb zString "" then SQLITE_MATCH else SQLITE_NOMATCH)
      else if c =? matchAll then
        match skipWildcards zPattern1 zString with
        | None => Some SQLITE_NOWILDCARDMATCH
        | Some (c, zPattern2, zString1) =>
            if c =? 0 then Some SQLITE_MATCH
            else if c <? 128 then
              searchByte (patternCompare fuel' zPattern2) c zString1
            else
              searchCharacter (patternCompare fuel' zPattern2) c
                (S (String.length zString1)) zString1
        end
      else
        let (c2, zString1) := sqlite3Utf8Read zString in
        if (c =? c2)
           || ((sqlite3Tolower c =? sqlite3Tolower c2)
               && (c <? 128) && (c2 <? 128))
           || ((c =? matchOne) && negb (c2 =? 0))
        then patternCompare fuel' zPattern1 zString1
        else Some SQLITE_NOMATCH
  end.

(** [likeFunc] for [zA LIKE zB]: a pattern of more than
    SQLITE_MAX_LIKE_PATTERN_LENGTH (50000) bytes is the error "LIKE or GLOB
    pattern too complex", whatever [zA] is; a NULL operand gives NULL;
    otherwise the result is whether [patternCompare] returns SQLITE_MATCH
    (the fuel suffices: each round reads at least one byte of the
    pattern). *)
Definition patternMatches (zB zA : string) : bool :=
  match patternCompare (S (String.length (cString zB)))
          (cString zB) (cString zA) with
  | Some SQLITE_MATCH => true
  | _ => false
  end.

Definition likeFunc (zB : string) (zA : option string) : error + option bool :=
  if 50000 <? Z.of_nat (String.length zB) then inl ErrLikePattern
  else
    match zA with
    | None => inr None
    | Some a => inr (Some (patternMatches zB a))
    end.

(** A WHERE clause keeps the rows for which its test is true (not false,
    not NULL); an error of the test ends the statement.  [likeFunc] fails
    for the pattern alone, so on the first row tested or on none. *)
Fixpoint selectWhere (test : Row -> error + option bool) (rows : list Row)
  : error + list Row :=
  match rows with
  | [] => inr []
  | r :: rest =>
      match test r with
      | inl e => inl e
      | inr v =>
          match selectWhere test rest with
          | inl e => inl e
          | inr sel =>
              inr (match v with Some true => r :: sel | _ => sel end)
          end
      end
  end.

(** [ORDER BY path] and [ORDER BY id] (BINARY collation, ascending). *)
Definition pathLe (r1 r2 : Row) : Prop := String.le (path r1) (path r2).
Definition idLe (r1 r2 : Row) : Prop := id r1 <= id r2.

#[global] Instance pathLe_dec : RelDecision pathLe.
Proof. intros r1 r2. unfold pathLe. apply _. Defined.
#[global] Instance idLe_dec : RelDecision idLe.
Proof. intros r1 r2. unfold idLe. apply _. Defined.

Definition orderByPath : list Row -> list Row := merge_sort pathLe.
Definition orderById : list Row -> list Row := merge_sort idLe.

(** [SUM(size)]: NULL over no rows; the running integer total raises
    "integer overflow" as soon as it leaves the int64 range. *)
Fixpoint sumFrom (acc : Z) (rows : list Row) : error + Z :=
  match rows with
  | [] => inr acc
  | r :: rest =>
      let t := acc + size r in
      if (t <? minInt64) || (maxInt64 <? t) then inl ErrIntegerOverflow
      else sumFrom t rest
  end.

Definition sumSize (rows : list Row) : error + option Z :=
  match rows with
  | [] => inr None
  | _ => match sumFrom 0 rows with
         | inl e => inl e
         | inr t => inr (Some t)
         end
  end.

Definition count (rows : list Row) : Z := Z.of_nat (List.length rows).

End sqlite.

(** ** Bleve: the index as a finite map, its writes and its queries *)

Module bleve.

(** The queries the code builds. *)
Inductive Query : Type :=
  | MatchAllQuery
  | MatchQuery (text field : string)
  | QueryStringQuery (q : string).

Module SearchRequest.
Record t : Type := mk {
  Q : Query;
  Size : Z;
  From : Z;
  Fields : list string;
  IncludeLocations : bool;
  Sort : list string;
  Highlight : bool
}.
End SearchRequest.

(** What Bleve finds in a document when it walks it by reflection: strings,
    numbers, [time.Time] values and booleans, each under the name of its
    struct field. *)
Inductive Value : Type :=
  | TextValue (s : string)
  | NumberValue (n : Z)
  | TimeValue (t : Z)
  | BoolValue (b : bool).

(** An index mapping, as far as [AnalyzerNameForPath] reads it: for each
    document type the field mappings added at its properties (the type of
    the field and the name of its analyser, empty when it has none), the
    default analyser and the default search field. *)
Module FieldMapping.
Record t : Type := mk {
  Type_ : string;
  Analyzer : string
}.
End FieldMapping.

Module IndexMapping.
Record t : Type := mk {
  TypeMapping : list (string * list (string * FieldMapping.t));
  DefaultAnalyzer : string;
  DefaultField : string
}.
End IndexMapping.

(** [documentMapping.analyzerNameForPath]: the analyser of the field mapping
    at the property named [path], or the empty string. *)
Definition analyzerNameForPath (dm : list (string * FieldMapping.t))
    (path : string) : string :=
  match List.find (fun kv => String.eqb kv.1 path) dm with
  | Some kv => FieldMapping.Analyzer kv.2
  | None => ""
  end.

(** [indexMapping.AnalyzerNameForPath]: the first explicit analyser among
    the document mappings, otherwise the default analyser (the default
    mapping of this program has neither properties nor an analyser of its
    own). *)
Definition AnalyzerNameForPath (im : IndexMapping.t) (path : string) : string :=
  match List.find (fun name => negb (String.eqb name ""))
          (map (fun tm => analyzerNameForPath tm.2 path)
               (IndexMapping.TypeMapping im)) with
  | Some name => name
  | None => IndexMapping.DefaultAnalyzer im
  end.

(** The "keyword" analyser: the whole input is the one term. *)
Definition keyword (text : string) : list string := [text].

Section index.
(** [D] is the type of the stored documents; [walk d] lists the fields
    Bleve finds in [d], by name. *)
Context {D : Type} (walk : D -> list (string * Value)).

(** An index: the stored documents by id, whether it is still open, and
    the outcomes the storage layer will give to the coming writes
    ([true]: the write fails and changes nothing; an exhausted list means
    every further write succeeds). *)
Record Index : Type := mkIndex {
  docs : gmap string D;
  opened : bool;
  faults : list bool
}.

(** A batch is the map of the documents queued so far, by id. *)
Abbreviation Batch := (gmap string D).

(** One atomic write to the store. *)
Definition write (f : gmap string D -> gmap string D) (ix : Index)
  : Index * option error :=
  if negb (opened ix) then (ix, Some ErrIndexClosed)
  else
    match faults ix with
    | true :: rest =>
        ({| docs := docs ix; opened := true; faults := rest |}, Some ErrIO)
    | false :: rest =>
        ({| docs := f (docs ix); opened := true; faults := rest |}, None)
    | [] =>
        ({| docs := f (docs ix); opened := true; faults := [] |}, None)
    end.

(** [index.Index(id, doc)]: writes or replaces the document. *)
Definition Index_Index (id : string) (doc : D) (ix : Index)
  : Index * option error :=
  if String.eqb id "" then (ix, Some ErrEmptyID)
  else write (fun m => <[id := doc]> m) ix.

(** [index.Delete(id)]: deleting an id that is not there is no error. *)
Definition Index_Delete (id : string) (ix : Index) : Index * option error :=
  if String.eqb id "" then (ix, Some ErrEmptyID)
  else write (fun m => delete id m) ix.

Definition NewBatch : Batch := ∅.

(** [batch.Index(id, doc)]: queues the document under its id. *)
Definition Batch_Index (id : string) (doc : D) (b : Batch)
  : Batch * option error :=
  if String.eqb id "" then (b, Some ErrEmptyID)
  else (<[id := doc]> b, None).

Definition Batch_Size (b : Batch) : nat := size b.

(** [index.Batch(b)]: applies the whole batch in one write. *)
Definition Index_Batch (b : Batch) (ix : Index) : Index * option error :=
  write (fun m => b ∪ m) ix.

Definition DocCount (ix : Index) : error + nat :=
  if opened ix then inr (size (docs ix)) else inl ErrIndexClosed.

(** What the engine does with text, which the code leaves to Bleve: the
    "standard" analyser (word segmentation, lower-casing, stop words), the
    terms under which the default, dynamic mapping indexes a value, the
    terms of the fields Bleve adds to a document on its own (such as
    [_id]; the composite [_all] is spelled out below), the query-string
    language, the scores, the ordering of the hits and the highlighted
    fragments. *)
Record Engine : Type := mkEngine {
  float64 : Type;
  standard : string -> list string;
  indexedTerms : Value -> list string;
  internalTerms : string -> D -> list string;
  parseQueryString : string -> option (D -> bool);
  score : Query -> D -> float64;
  fragments : Query -> D -> string -> list string;
  rank : list string -> list (string * D) -> list (string * D)
}.

(** The ordering only permutes the hits. *)
Definition rankPermutes (E : Engine) : Prop :=
  forall sort hits, rank E sort hits ≡ₚ hits.

Definition shareTerm (qs ds : list string) : bool :=
  existsb (fun t => bool_decide (t ∈ ds)) qs.

(** [registry.AnalyzerNamed]: the two analysers the mapping names. *)
Definition AnalyzerNamed (E : Engine) (name : string)
  : option (string -> list string) :=
  if String.eqb name "keyword" then Some keyword
  else if String.eqb name "standard" then Some (standard E)
  else None.

(** The terms the index holds for a document under a field name.  The
    documents of this program have no [Type()] or [BleveType()] method and
    no [_type] field, so their type is the default type, for which the
    mapping has no entry: they are indexed by the default mapping, which is
    dynamic, every field the walk finds under its own name, and all of
    them together in the composite field [_all]. *)
Definition fieldTerms (E : Engine) (d : D) (field : string) : list string :=
  if String.eqb field "_all" then
    List.concat (map (fun kv => indexedTerms E kv.2) (walk d))
  else
    match List.find (fun kv => String.eqb kv.1 field) (walk d) with
    | Some kv => indexedTerms E kv.2
    | None => internalTerms E field d
    end.

(** Which documents a query selects.  A match query takes the default
    search field when it names none, analyses its text with the analyser
    the mapping gives for the field, and selects the documents that hold
    one of the resulting terms under that field (no term: no document). *)
Definition matches (E : Engine) (im : IndexMapping.t) (q : Query)
  : option (D -> bool) :=
  match q with
  | MatchAllQuery => Some (fun _ => true)
  | MatchQuery text fieldVal =>
      let field := if String.eqb fieldVal "" then IndexMapping.DefaultField im
                   else fieldVal in
      match AnalyzerNamed E (AnalyzerNameForPath im field) with
      | Some analyze =>
          Some (fun d => shareTerm (analyze text) (fieldTerms E d field))
      | None => None
      end
  | QueryStringQuery qs => parseQueryString E qs
  end.

Record DocumentMatch (E : Engine) : Type := mkDocumentMatch {
  ID : string;
  Score : float64 E;
  Fields : D;
  Fragments : string -> list string
}.

Definition hitsOf (sel : D -> bool) (ix : Index)
  : list (string * D) :=
  filter (fun kv => sel kv.2 = true) (map_to_list (docs ix)).

(** [index.Search(req)]: select, order, then cut the page
    [From, From + Size).  The collector's store is made with the capacity
    [Size + From + 1] before the searcher is built, and is read from the
    index [From] on after the collection: a negative capacity and a
    negative index are run-time panics. *)
Definition Search (E : Engine) (im : IndexMapping.t) (req : SearchRequest.t)
    (ix : Index) : error + list (DocumentMatch E) :=
  if negb (opened ix) then inl ErrIndexClosed
  else if SearchRequest.Size req + SearchRequest.From req + 1 <? 0
  then inl PanicOutOfRange
  else
    match matches E im (SearchRequest.Q req) with
    | None => inl ErrQuerySyntax
    | Some sel =>
        if SearchRequest.From req <? 0 then inl PanicOutOfRange
        else
          let ordered := rank E (SearchRequest.Sort req) (hitsOf sel ix) in
          let page :=
            take (Z.to_nat (SearchRequest.Size req))
                 (drop (Z.to_nat (SearchRequest.From req)) ordered) in
          inr (map (fun kv =>
                      {| ID := kv.1;
                         Score := score E (SearchRequest.Q req) kv.2;
                         Fields := kv.2;
                         Fragments := fragments E (SearchRequest.Q req) kv.2 |})
                   page)
    end.

End index.

Arguments Index D : clear implicits.
Abbreviation Batch D := (gmap string D).
Arguments Engine D : clear implicits.

End bleve.

(** ** Package [scan]: the scanner's writes to the manifest *)

Module scan.
Import sqlite.

Module FileInfo.
Record t : Type := mk {
  Path : string;
  RelativePath : string;
  Size : Z;
  ModTime : Z;
  IsDir : bool;
  ContentType : string;
  SHA256 : string
}.
End FileInfo.

(** The row that
    [INSERT OR REPLACE INTO files
       (path, relative_path, size, mod_time, is_dir, content_type, sha256)
     VALUES (?, ?, ?, ?, ?, ?, ?)]
    builds: the seven bound values, a fresh rowid, and the column defaults
    for everything the statement does not name. *)
Definition newRow (rowid : Z) (info : FileInfo.t) : Row :=
  {| id := rowid;
     path := FileInfo.Path info;
     relative_path := FileInfo.RelativePath info;
     size := FileInfo.Size info;
     mod_time := FileInfo.ModTime info;
     is_dir := FileInfo.IsDir info;
     content_type := Some (FileInfo.ContentType info);
     sha256 := Some (FileInfo.SHA256 info);
     processed := Some false;
     uploaded_url := None;
     upload_time := None;
     summary := None |}.

(** [saveFileInfo]: the REPLACE conflict resolution deletes the rows that
    collide on [UNIQUE(path)] and then inserts the new row. *)
Definition saveFileInfo (info : FileInfo.t) (d : Database)
  : Database * option error :=
  match nextRowid d with
  | inl e => (d, Some e)
  | inr rowid =>
      let kept :=
        filter (fun r => path r <> FileInfo.Path info) (files d) in
      ({| files := kept ++ [newRow rowid info]; seq := rowid |}, None)
  end.

(** *** Walking the source tree *)

(** What [processFile] returns: [filepath.SkipDir], the error the walk handed
    in, an error of the operating system, or an error of the database. *)
Inductive scanError : Type :=
  | SkipDir
  | WalkError (msg : string)
  | OSError (msg : string)
  | DBError (e : error).

(** [os.FileInfo], as far as the code reads it. *)
Module OSFileInfo.
Record t : Type := mk {
  Size : Z;
  ModTime : Z;
  IsDir : bool
}.
End OSFileInfo.

(** What the scanner asks of the machine: [filepath.Rel], the 512-byte buffer
    after [os.Open] and one [file.Read], [http.DetectContentType], and the
    hex SHA-256 of a file's content.  A [inl] carries the error text. *)
Record Machine : Type := mkMachine {
  Rel : string -> string -> string + string;
  readBuffer : string -> string + string;
  DetectContentType : string -> string;
  fileSHA256 : string -> string + string
}.

(** [detectMIMEType]: the sniffed type, unless it is the generic one and the
    lower-cased extension is in the table. *)
Definition detectMIMEType {U : golib.CaseTables} (M : Machine)
    (buffer extension : string) : string :=
  let contentType := DetectContentType M buffer in
  if String.eqb contentType "application/octet-stream" then
    let ext := golib.ToLower extension in
    if String.eqb ext ".pdf" then "application/pdf"
    else if String.eqb ext ".doc" then "application/msword"
    else if String.eqb ext ".docx" then
      "application/vnd.openxmlformats-officedocument.wordprocessingml.document"
    else if String.eqb ext ".xls" then "application/vnd.ms-excel"
    else if String.eqb ext ".xlsx" then
      "application/vnd.openxmlformats-officedocument.spreadsheetml.sheet"
    else if String.eqb ext ".ppt" then "application/vnd.ms-powerpoint"
    else if String.eqb ext ".pptx" then
      "application/vnd.openxmlformats-officedocument.presentationml.presentation"
    else if String.eqb ext ".heic" then "image/heic"
    else if String.eqb ext ".avif" then "image/avif"
    else contentType
  else contentType.

(** [detectContentType]: open, read the head, sniff. *)
Definition detectContentType {U : golib.CaseTables} (M : Machine) (path : string)
  : string + string :=
  match readBuffer M path with
  | inl e => inl e
  | inr buffer => inr (detectMIMEType M buffer (golib.Ext path))
  end.

Definition calculateSHA256 (M : Machine) (path : string) : string + string :=
  fileSHA256 M path.

(** [processFile], the function [filepath.Walk] calls on every entry:
    [err] is the error the walk met on the entry, if any. *)
Definition processFile {U : golib.CaseTables} (M : Machine)
    (sourcePath path : string)
    (info : OSFileInfo.t) (err : option scanError) (d : Database)
  : Database * option scanError :=
  match err with
  | Some e => (d, Some e)
  | None =>
      if golib.HasPrefix (golib.Base path) "." then
        if OSFileInfo.IsDir info then (d, Some SkipDir) else (d, None)
      else
        match Rel M sourcePath path with
        | inl e => (d, Some (OSError e))
        | inr relPath =>
            let fileInfo :=
              {| FileInfo.Path := path;
                 FileInfo.RelativePath := relPath;
                 FileInfo.Size := OSFileInfo.Size info;
                 FileInfo.ModTime := OSFileInfo.ModTime info;
                 FileInfo.IsDir := OSFileInfo.IsDir info;
                 FileInfo.ContentType := "";
                 FileInfo.SHA256 := "" |} in
            let save (fi : FileInfo.t) : Database * option scanError :=
              match saveFileInfo fi d with
              | (d1, Some e) => (d1, Some (DBError e))
              | (d1, None) => (d1, None)
              end in
            if negb (OSFileInfo.IsDir info) then
              match detectContentType M path with
              | inl e => (d, Some (OSError e))
              | inr contentType =>
                  let fileInfo1 :=
                    {| FileInfo.Path := FileInfo.Path fileInfo;
                       FileInfo.RelativePath := FileInfo.RelativePath fileInfo;
                       FileInfo.Size := FileInfo.Size fileInfo;
                       FileInfo.ModTime := FileInfo.ModTime fileInfo;
                       FileInfo.IsDir := FileInfo.IsDir fileInfo;
                       FileInfo.ContentType := contentType;
                       FileInfo.SHA256 := FileInfo.SHA256 fileInfo |} in
                  if OSFileInfo.Size info <? 1073741824 then
                    match calculateSHA256 M path with
                    | inl e => (d, Some (OSError e))
                    | inr hash =>
                        save {| FileInfo.Path := FileInfo.Path fileInfo1;
                                FileInfo.RelativePath :=
                                  FileInfo.RelativePath fileInfo1;
                                FileInfo.Size := FileInfo.Size fileInfo1;
                                FileInfo.ModTime := FileInfo.ModTime fileInfo1;
                                FileInfo.IsDir := FileInfo.IsDir fileInfo1;
                                FileInfo.ContentType :=
                                  FileInfo.ContentType fileInfo1;
                                FileInfo.SHA256 := hash |}
                    end
                  else save fileInfo1
              end
            else save fileInfo
        end
  end.

End scan.

(** ** Package [db]: manifest queries *)

Module db.
Import sqlite.

Module FileStatus.
Record t : Type := mk {
  ID : Z;
  Path : string;
  RelativePath : string;
  Size : Z;
  ModTime : Z;
  IsDir : bool;
  ContentType : string;
  SHA256 : string;
  Processed : bool;
  UploadedURL : string;
  UploadTime : option Z;      (* sql.NullTime *)
  Summary : string
}.
End FileStatus.

(** [rows.Scan(&file.ID, ..., &file.Summary)]: the columns are converted in
    order; NULL converts only into [sql.NullTime]. *)
Definition scanRow (r : Row) : error + FileStatus.t :=
  match content_type r with
  | None => inl (ErrScanNull "content_type")
  | Some ct =>
    match sha256 r with
    | None => inl (ErrScanNull "sha256")
    | Some h =>
      match processed r with
      | None => inl (ErrScanNull "processed")
      | Some p =>
        match uploaded_url r with
        | None => inl (ErrScanNull "uploaded_url")
        | Some u =>
          match summary r with
          | None => inl (ErrScanNull "summary")
          | Some sm =>
              inr {| FileStatus.ID := id r;
                     FileStatus.Path := path r;
                     FileStatus.RelativePath := relative_path r;
                     FileStatus.Size := size r;
                     FileStatus.ModTime := mod_time r;
                     FileStatus.IsDir := is_dir r;
                     FileStatus.ContentType := ct;
                     FileStatus.SHA256 := h;
                     FileStatus.Processed := p;
                     FileStatus.UploadedURL := u;
                     FileStatus.UploadTime := upload_time r;
                     FileStatus.Summary := sm |}
          end
        end
      end
    end
  end.

(** The loop [for rows.Next() { ... rows.Scan ...; files = append(files, &file) }]
    with its early [return nil, err]. *)
Fixpoint scanAll (rows : list Row) : error + list FileStatus.t :=
  match rows with
  | [] => inr []
  | r :: rest =>
      match scanRow r with
      | inl e => inl e
      | inr f =>
          match scanAll rest with
          | inl e => inl e
          | inr fs => inr (f :: fs)
          end
      end
  end.

(** [GetFileByPath]: [QueryRow ... WHERE path = ?]; no row is [nil, nil]. *)
Definition GetFileByPath (p : string) (d : Database)
  : error + option FileStatus.t :=
  match filter (fun r => path r = p) (files d) with
  | [] => inr None
  | r :: _ =>
      match scanRow r with
      | inl e => inl e
      | inr f => inr (Some f)
      end
  end.

(** [UpdateFileStatus]:
    [UPDATE files SET processed = ?, uploaded_url = ?, upload_time = ?,
     summary = ? WHERE id = ?] with [time.Now()] bound to [upload_time].
    The number of rows changed is dropped ([_, err := Exec(...)]). *)
Definition setStatus (now : Z) (p : bool) (url sm : string) (r : Row) : Row :=
  {| id := id r;
     path := path r;
     relative_path := relative_path r;
     size := size r;
     mod_time := mod_time r;
     is_dir := is_dir r;
     content_type := content_type r;
     sha256 := sha256 r;
     processed := Some p;
     uploaded_url := Some url;
     upload_time := Some now;
     summary := Some sm |}.

Definition UpdateFileStatus (now : Z) (fileID : Z) (p : bool)
    (uploadedURL sm : string) (d : Database) : Database * option error :=
  ({| files :=
        map (fun r => if id r =? fileID then setStatus now p uploadedURL sm r
                      else r) (files d);
      seq := seq d |}, None).

(** [GetStats]: three [COUNT] queries and [SUM(size)], each scanned into an
    [int64]; a NULL does not convert. *)
Definition scanInt64 (v : option Z) : error + Z :=
  match v with
  | None => inl (ErrScanNull "SUM(size)")
  | Some n => inr n
  end.

Definition notDir (r : Row) : bool := negb (is_dir r).
Definition isProcessed (r : Row) : bool :=
  match processed r with Some true => true | _ => false end.

Definition GetStats (d : Database) : error + gmap string Z :=
  let totalFiles := count (filter (fun r => notDir r = true) (files d)) in
  let stats1 := <["totalFiles" := totalFiles]> (∅ : gmap string Z) in
  let totalDirs := count (filter (fun r => is_dir r = true) (files d)) in
  let stats2 := <["totalDirs" := totalDirs]> stats1 in
  let processedFiles :=
    count (filter (fun r => isProcessed r && notDir r = true) (files d)) in
  let stats3 := <["processedFiles" := processedFiles]> stats2 in
  match sumSize (filter (fun r => notDir r = true) (files d)) with
  | inl e => inl e
  | inr v =>
      match scanInt64 v with
      | inl e => inl e
      | inr totalSize => inr (<["totalSize" := totalSize]> stats3)
      end
  end.

(** [GetFilesInDirectory] (stub.go):
    [... WHERE path LIKE ? ORDER BY path] with the pattern
    [directory (+ "/" unless it ends in one) + "%"]. *)
Definition directoryPattern (directory : string) : string :=
  let p := if golib.HasSuffix directory "/" then directory
           else directory +:+ "/" in
  p +:+ "%".

Definition GetFilesInDirectory (directory : string) (d : Database)
  : error + list FileStatus.t :=
  match selectWhere
          (fun r => likeFunc (directoryPattern directory) (Some (path r)))
          (files d) with
  | inl e => inl e
  | inr rows => scanAll (orderByPath rows)
  end.

(** *** The indexer (same package) *)

Module IndexConfig.
Record t : Type := mk {
  IndexDir : string;
  IndexSummaries : bool
}.
End IndexConfig.

Module FileIndex.
Record t : Type := mk {
  ID : string;
  Path : string;
  RelativePath : string;
  Name : string;
  Extension : string;
  Size : Z;
  ModTime : Z;
  IsDir : bool;
  ContentType : string;
  Summary : string;
  UploadedURL : string;
  UpdatedAt : Z
}.
End FileIndex.

Module SearchRequest.
Record t : Type := mk {
  Query : string;
  Limit : Z;
  Offset : Z;
  SortBy : string;
  SortDesc : bool;
  FieldName : string
}.
End SearchRequest.

Module SearchResult.
Record t (float64 : Type) : Type := mk {
  ID : string;
  Path : string;
  Score : float64;
  Snippet : string;
  IsDir : bool;
  Size : Z;
  ModTime : Z;
  Metadata : FileIndex.t
}.
Arguments mk {float64}.
Arguments ID {float64}.
Arguments Path {float64}.
Arguments Score {float64}.
Arguments Snippet {float64}.
Arguments IsDir {float64}.
Arguments Size {float64}.
Arguments ModTime {float64}.
Arguments Metadata {float64}.
End SearchResult.

(** The fields Bleve finds in a [FileIndex] (the struct has no tags, so
    each field goes by its Go name). *)
Definition fieldsOf (d : FileIndex.t) : list (string * bleve.Value) :=
  [ ("ID"%string, bleve.TextValue (FileIndex.ID d));
    ("Path"%string, bleve.TextValue (FileIndex.Path d));
    ("RelativePath"%string, bleve.TextValue (FileIndex.RelativePath d));
    ("Name"%string, bleve.TextValue (FileIndex.Name d));
    ("Extension"%string, bleve.TextValue (FileIndex.Extension d));
    ("Size"%string, bleve.NumberValue (FileIndex.Size d));
    ("ModTime"%string, bleve.TimeValue (FileIndex.ModTime d));
    ("IsDir"%string, bleve.BoolValue (FileIndex.IsDir d));
    ("ContentType"%string, bleve.TextValue (FileIndex.ContentType d));
    ("Summary"%string, bleve.TextValue (FileIndex.Summary d));
    ("UploadedURL"%string, bleve.TextValue (FileIndex.UploadedURL d));
    ("UpdatedAt"%string, bleve.TimeValue (FileIndex.UpdatedAt d)) ].

(** [createIndexMapping], with which [NewIndexer] creates the index: a
    document mapping is added for the type "fileindex". *)
Definition createIndexMapping : bleve.IndexMapping.t :=
  let textFieldMapping :=
    {| bleve.FieldMapping.Type_ := "text";
       bleve.FieldMapping.Analyzer := "standard" |} in
  let keywordFieldMapping :=
    {| bleve.FieldMapping.Type_ := "text";
       bleve.FieldMapping.Analyzer := "keyword" |} in
  let numericFieldMapping :=
    {| bleve.FieldMapping.Type_ := "number";
       bleve.FieldMapping.Analyzer := "" |} in
  let dateTimeFieldMapping :=
    {| bleve.FieldMapping.Type_ := "datetime";
       bleve.FieldMapping.Analyzer := "" |} in
  let booleanFieldMapping :=
    {| bleve.FieldMapping.Type_ := "boolean";
       bleve.FieldMapping.Analyzer := "" |} in
  let documentMapping :=
    [ ("Path"%string, textFieldMapping);
      ("RelativePath"%string, textFieldMapping);
      ("Name"%string, textFieldMapping);
      ("Summary"%string, textFieldMapping);
      ("Extension"%string, keywordFieldMapping);
      ("ContentType"%string, keywordFieldMapping);
      ("Size"%string, numericFieldMapping);
      ("ModTime"%string, dateTimeFieldMapping);
      ("UpdatedAt"%string, dateTimeFieldMapping);
      ("IsDir"%string, booleanFieldMapping) ] in
  {| bleve.IndexMapping.TypeMapping := [("fileindex"%string, documentMapping)];
     bleve.IndexMapping.DefaultAnalyzer := "standard";
     bleve.IndexMapping.DefaultField := "_all" |}.

(** The document both [IndexFile] and [BuildIndex] derive from a record
    (the two places spell out the same statements); [now] is [time.Now()]. *)
Definition fileDocument {U : golib.CaseTables} (cfg : IndexConfig.t) (now : Z)
    (file : FileStatus.t) : FileIndex.t :=
  let name := golib.Base (FileStatus.Path file) in
  let extension := golib.ToLower (golib.Ext (FileStatus.Path file)) in
  let doc :=
    {| FileIndex.ID := golib.Sprintf_d (FileStatus.ID file);
       FileIndex.Path := FileStatus.Path file;
       FileIndex.RelativePath := FileStatus.RelativePath file;
       FileIndex.Name := name;
       FileIndex.Extension := extension;
       FileIndex.Size := FileStatus.Size file;
       FileIndex.ModTime := FileStatus.ModTime file;
       FileIndex.IsDir := FileStatus.IsDir file;
       FileIndex.ContentType := FileStatus.ContentType file;
       FileIndex.Summary := "";
       FileIndex.UploadedURL := FileStatus.UploadedURL file;
       FileIndex.UpdatedAt := now |} in
  if IndexConfig.IndexSummaries cfg
     && negb (String.eqb (FileStatus.Summary file) "")
  then
    {| FileIndex.ID := FileIndex.ID doc;
       FileIndex.Path := FileIndex.Path doc;
       FileIndex.RelativePath := FileIndex.RelativePath doc;
       FileIndex.Name := FileIndex.Name doc;
       FileIndex.Extension := FileIndex.Extension doc;
       FileIndex.Size := FileIndex.Size doc;
       FileIndex.ModTime := FileIndex.ModTime doc;
       FileIndex.IsDir := FileIndex.IsDir doc;
       FileIndex.ContentType := FileIndex.ContentType doc;
       FileIndex.Summary := FileStatus.Summary file;
       FileIndex.UploadedURL := FileIndex.UploadedURL doc;
       FileIndex.UpdatedAt := FileIndex.UpdatedAt doc |}
  else doc.

(** [IndexFile]; a [nil] pointer is [None]. *)
Definition IndexFile {U : golib.CaseTables} (cfg : IndexConfig.t) (now : Z)
    (file : option FileStatus.t) (ix : bleve.Index FileIndex.t)
  : bleve.Index FileIndex.t * option error :=
  match file with
  | None => (ix, Some ErrNilFile)
  | Some f =>
      let doc := fileDocument cfg now f in
      bleve.Index_Index (FileIndex.ID doc) doc ix
  end.

Definition RemoveFile (fileID : Z) (ix : bleve.Index FileIndex.t)
  : bleve.Index FileIndex.t * option error :=
  bleve.Index_Delete (golib.Sprintf_d fileID) ix.

(** [UpdateFile]: an error of the removal whose text contains
    "document not found" is dropped; none of the errors of this model has
    such a text. *)
Definition isDocumentNotFound (e : error) : bool := false.

Definition UpdateFile {U : golib.CaseTables} (cfg : IndexConfig.t) (now : Z)
    (file : FileStatus.t) (ix : bleve.Index FileIndex.t) : bleve.Index FileIndex.t * option error :=
  match RemoveFile (FileStatus.ID file) ix with
  | (ix1, Some e) =>
      if isDocumentNotFound e then IndexFile cfg now (Some file) ix1
      else (ix1, Some e)
  | (ix1, None) => IndexFile cfg now (Some file) ix1
  end.

Definition batchSize : nat := 100.

(** The body of [BuildIndex] after the query: the [for rows.Next()] loop,
    then the final batch.  [now n] is the clock when the row after the
    first [n] is converted.  The result is the index, the returned count
    and the returned error. *)
Fixpoint buildLoop {U : golib.CaseTables} (cfg : IndexConfig.t) (now : nat -> Z)
    (rows : list Row) (ix : bleve.Index FileIndex.t) (batch : bleve.Batch FileIndex.t)
    (count : nat) : bleve.Index FileIndex.t * nat * option error :=
  match rows with
  | [] =>
      if (0 <? bleve.Batch_Size batch)%nat then
        match bleve.Index_Batch batch ix with
        | (ix1, Some e) => (ix1, count, Some e)
        | (ix1, None) => (ix1, count, None)
        end
      else (ix, count, None)
  | r :: rest =>
      match scanRow r with
      | inl e => (ix, count, Some e)
      | inr file =>
          let doc := fileDocument cfg (now count) file in
          match bleve.Batch_Index (FileIndex.ID doc) doc batch with
          | (_, Some e) => (ix, count, Some e)
          | (batch1, None) =>
              let count1 := S count in
              if (count1 mod batchSize =? 0)%nat then
                match bleve.Index_Batch batch1 ix with
                | (ix1, Some e) => (ix1, count1, Some e)
                | (ix1, None) => buildLoop cfg now rest ix1 bleve.NewBatch count1
                end
              else buildLoop cfg now rest ix batch1 count1
          end
      end
  end.

(** [BuildIndex]: [SELECT ... FROM files ORDER BY id], then the loop. *)
Definition BuildIndex {U : golib.CaseTables} (cfg : IndexConfig.t)
    (now : nat -> Z) (d : Database) (ix : bleve.Index FileIndex.t)
  : bleve.Index FileIndex.t * nat * option error :=
  buildLoop cfg now (orderById (files d)) ix bleve.NewBatch 0%nat.

Definition GetDocumentCount (ix : bleve.Index FileIndex.t) : error + nat :=
  bleve.DocCount ix.

(** [Search]: the query the request is turned into ... *)
Definition searchQuery (request : SearchRequest.t) : bleve.Query :=
  if String.eqb (SearchRequest.Query request) "" then bleve.MatchAllQuery
  else if negb (String.eqb (SearchRequest.FieldName request) "") then
    bleve.MatchQuery (SearchRequest.Query request)
                     (SearchRequest.FieldName request)
  else bleve.QueryStringQuery (SearchRequest.Query request).

(** ... the request handed to Bleve ... *)
Definition searchRequest (request : SearchRequest.t) : bleve.SearchRequest.t :=
  let limit := if SearchRequest.Limit request <=? 0 then 10
               else SearchRequest.Limit request in
  {| bleve.SearchRequest.Q := searchQuery request;
     bleve.SearchRequest.Size := limit;
     bleve.SearchRequest.From := SearchRequest.Offset request;
     bleve.SearchRequest.Fields := ["*"%string];
     bleve.SearchRequest.IncludeLocations := true;
     bleve.SearchRequest.Sort :=
       if String.eqb (SearchRequest.SortBy request) "" then []
       else [SearchRequest.SortBy request +:+ ":" +:+
             (if SearchRequest.SortDesc request then "desc" else "asc")];
     bleve.SearchRequest.Highlight := true |}.

(** ... and the result built from each hit. *)
Definition snippetOf (frags : string -> list string) : string :=
  match frags "Summary" with
  | f :: _ => f
  | [] => match frags "Path" with
          | f :: _ => f
          | [] => ""
          end
  end.

Definition Search (E : bleve.Engine FileIndex.t)
    (request : SearchRequest.t) (ix : bleve.Index FileIndex.t)
  : error + list (SearchResult.t (bleve.float64 E)) :=
  match bleve.Search fieldsOf E createIndexMapping (searchRequest request)
          ix with
  | inl e => inl e
  | inr hits =>
      inr (map (fun hit =>
                  let fields := bleve.Fields E hit in
                  {| SearchResult.ID := bleve.ID E hit;
                     SearchResult.Path := FileIndex.Path fields;
                     SearchResult.Score := bleve.Score E hit;
                     SearchResult.Snippet := snippetOf (bleve.Fragments E hit);
                     SearchResult.IsDir := FileIndex.IsDir fields;
                     SearchResult.Size := FileIndex.Size fields;
                     SearchResult.ModTime := FileIndex.ModTime fields;
                     SearchResult.Metadata := fields |})
               hits)
  end.

(** *** The other manifest queries *)

(** [GetUnprocessedFiles]:
    [... WHERE processed = FALSE AND is_dir = FALSE ORDER BY path]; a NULL
    [processed] is not equal to FALSE. *)
Definition isUnprocessed (r : Row) : bool :=
  match processed r with Some false => true | _ => false end.

Definition GetUnprocessedFiles (d : Database) : error + list FileStatus.t :=
  scanAll
    (orderByPath
       (filter (fun r => isUnprocessed r && notDir r = true) (files d))).

(** [GetFilesByType]:
    [... WHERE content_type LIKE ? AND is_dir = FALSE ORDER BY path] with the
    pattern [typePrefix + "%"]: LIKE is tested first, and [is_dir] only for
    the rows it accepts; a NULL [content_type] makes LIKE NULL. *)
Definition hasTypePrefix (typePrefix : string) (r : Row)
  : error + option bool :=
  match likeFunc (typePrefix +:+ "%") (content_type r) with
  | inl e => inl e
  | inr (Some true) => inr (Some (notDir r))
  | inr v => inr v
  end.

Definition GetFilesByType (typePrefix : string) (d : Database)
  : error + list FileStatus.t :=
  match selectWhere (hasTypePrefix typePrefix) (files d) with
  | inl e => inl e
  | inr rows => scanAll (orderByPath rows)
  end.

(** *** Stub files (stub.go) *)

(** The calls the stub code makes to the operating system. *)
Inductive syscall : Type :=
  | OsMkdirAll (dir : string)
  | OsCreate (path : string)
  | FileWriteString (path data : string)
  | EncoderEncode (path version key value : string)
  | FileClose (path : string)
  | OsRemove (path : string).

(** The operating system: the calls made so far with their outcomes, oldest
    first, and the outcome each coming call will get ([Some msg]: it fails
    with that error; an exhausted list means every further call succeeds). *)
Record OS : Type := mkOS {
  calls : list (syscall * option string);
  outcomes : list (option string)
}.

Definition sys (c : syscall) (w : OS) : OS * option string :=
  match outcomes w with
  | o :: rest => ({| calls := calls w ++ [(c, o)]; outcomes := rest |}, o)
  | [] => ({| calls := calls w ++ [(c, None)]; outcomes := [] |}, None)
  end.

Inductive stubError : Type :=
  | UnsupportedStubMode (mode : string)      (* "unsupported stub mode: %s" *)
  | Wrapped (context cause : string)         (* fmt.Errorf(context + ": %w", err) *)
  | QueryFailed (e : error).                 (* from GetFilesInDirectory *)

Definition StubModeWebloc : string := "webloc".
Definition StubModeShortcut : string := "shortcut".
Definition StubModeNone : string := "none".

Module StubResult.
Record t : Type := mk {
  OriginalPath : string;
  StubPath : string;
  URL : string;
  Mode : string;
  Error : option stubError
}.
End StubResult.

Definition nl : string := String (ascii_of_nat 10) EmptyString.
Definition dq : string := String (ascii_of_nat 34) EmptyString.

Definition weblocHeader : string :=
  "<?xml version=" +:+ dq +:+ "1.0" +:+ dq +:+ " encoding=" +:+ dq +:+ "UTF-8"
  +:+ dq +:+ "?>" +:+ nl +:+
  "<!DOCTYPE plist PUBLIC " +:+ dq +:+ "-//Apple//DTD PLIST 1.0//EN" +:+ dq
  +:+ " " +:+ dq +:+ "http://www.apple.com/DTDs/PropertyList-1.0.dtd" +:+ dq
  +:+ ">" +:+ nl.

(** [createWeblocFile]; [Dir] is [filepath.Dir].  The error of writing the
    header is dropped; the deferred [file.Close()] runs on every return after
    the file was created. *)
Definition createWeblocFile (Dir : string -> string) (path url : string)
    (w : OS) : OS * option stubError :=
  match sys (OsMkdirAll (Dir path)) w with
  | (w1, Some e) => (w1, Some (Wrapped "failed to create directory" e))
  | (w1, None) =>
      match sys (OsCreate path) w1 with
      | (w2, Some e) => (w2, Some (Wrapped "failed to create file" e))
      | (w2, None) =>
          let w3 := (sys (FileWriteString path weblocHeader) w2).1 in
          match sys (EncoderEncode path "1.0" "URL" url) w3 with
          | (w4, Some e) =>
              ((sys (FileClose path) w4).1, Some (Wrapped "failed to encode XML" e))
          | (w4, None) => ((sys (FileClose path) w4).1, None)
          end
      end
  end.

(** [createShortcutFile]. *)
Definition createShortcutFile (Dir : string -> string) (path url : string)
    (w : OS) : OS * option stubError :=
  match sys (OsMkdirAll (Dir path)) w with
  | (w1, Some e) => (w1, Some (Wrapped "failed to create directory" e))
  | (w1, None) =>
      match sys (OsCreate path) w1 with
      | (w2, Some e) => (w2, Some (Wrapped "failed to create file" e))
      | (w2, None) =>
          let content := "[InternetShortcut]" +:+ nl +:+ "URL=" +:+ url +:+ nl in
          match sys (FileWriteString path content) w2 with
          | (w3, Some e) =>
              ((sys (FileClose path) w3).1, Some (Wrapped "failed to write to file" e))
          | (w3, None) => ((sys (FileClose path) w3).1, None)
          end
      end
  end.

(** [CreateStub]: the result pointer is [None] for [nil]. *)
Definition CreateStub (Dir : string -> string) (originalPath url mode : string)
    (w : OS) : OS * option StubResult.t * option stubError :=
  let result :=
    {| StubResult.OriginalPath := originalPath;
       StubResult.StubPath := "";
       StubResult.URL := url;
       StubResult.Mode := mode;
       StubResult.Error := None |} in
  if String.eqb mode StubModeNone then (w, Some result, None)
  else
    let finish (stubPath : string) (out : OS * option stubError) :=
      let result1 :=
        {| StubResult.OriginalPath := originalPath;
           StubResult.StubPath := stubPath;
           StubResult.URL := url;
           StubResult.Mode := mode;
           StubResult.Error := out.2 |} in
      (out.1, Some result1, out.2) in
    if String.eqb mode StubModeWebloc then
      let stubPath := originalPath +:+ ".webloc" in
      finish stubPath (createWeblocFile Dir stubPath url w)
    else if String.eqb mode StubModeShortcut then
      let stubPath := originalPath +:+ ".url" in
      finish stubPath (createShortcutFile Dir stubPath url w)
    else (w, None, Some (UnsupportedStubMode mode)).

(** [ReplaceWithStub]: the stub first, then [os.Remove] of the original. *)
Definition ReplaceWithStub (Dir : string -> string)
    (originalPath url mode : string) (w : OS)
  : OS * option StubResult.t * option stubError :=
  match CreateStub Dir originalPath url mode w with
  | (w1, result, Some e) => (w1, result, Some e)
  | (w1, result, None) =>
      if String.eqb mode StubModeNone then (w1, result, None)
      else
        match sys (OsRemove originalPath) w1 with
        | (w2, Some e) =>
            let err := Wrapped "failed to remove original file" e in
            (w2,
             option_map
               (fun r => {| StubResult.OriginalPath := StubResult.OriginalPath r;
                            StubResult.StubPath := StubResult.StubPath r;
                            StubResult.URL := StubResult.URL r;
                            StubResult.Mode := StubResult.Mode r;
                            StubResult.Error := Some err |}) result,
             Some err)
        | (w2, None) => (w2, result, None)
        end
  end.

(** The loop of [CreateStubsForDirectory]:
    [if err != nil && firstErr == nil { firstErr = err } else { count++ }]. *)
Fixpoint stubLoop (Dir : string -> string) (mode : string)
    (fs : list FileStatus.t) (w : OS) (count : nat) (firstErr : option stubError)
  : OS * nat * option stubError :=
  match fs with
  | [] => (w, count, firstErr)
  | file :: rest =>
      if FileStatus.IsDir file || String.eqb (FileStatus.UploadedURL file) ""
      then stubLoop Dir mode rest w count firstErr
      else
        match ReplaceWithStub Dir (FileStatus.Path file)
                (FileStatus.UploadedURL file) mode w with
        | (w1, _, err) =>
            match err, firstErr with
            | Some e, None => stubLoop Dir mode rest w1 count (Some e)
            | _, _ => stubLoop Dir mode rest w1 (S count) firstErr
            end
        end
  end.

Definition CreateStubsForDirectory (Dir : string -> string) (d : Database)
    (directory mode : string) (w : OS) : OS * nat * option stubError :=
  if String.eqb mode StubModeNone then (w, 0%nat, None)
  else
    match GetFilesInDirectory directory d with
    | inl e => (w, 0%nat, Some (QueryFailed e))
    | inr fs => stubLoop Dir mode fs w 0%nat None
    end.

End db.

(** ** Package [main]: the search command's size column *)

Module archiver.

(** The loop of [formatSize]:
    [for n := size / unit; n >= unit; n /= unit { div *= unit; exp++ }],
    run for at most [fuel] rounds ([None] when they do not suffice). *)
Fixpoint sizeLoop (fuel : nat) (n div : Z) (exp : nat) : option (Z * nat) :=
  if n <? 1024 then Some (div, exp)
  else
    match fuel with
    | O => None
    | S fuel' => sizeLoop fuel' (Z.quot n 1024) (div * 1024) (S exp)
    end.

(** What [formatSize] prints: the bytes as they are, or the quotient
    [float64(size)/float64(div)] (printed with one decimal) and the unit
    letter ["KMGTPE"[exp]]. *)
Inductive sizeText : Type :=
  | Bytes (text : string)
  | Scaled (size div : Z) (unit : ascii).

(** [formatSize]; [None] stands for a loop that did not end within the fuel
    or an index outside ["KMGTPE"]. *)
Definition formatSize (fuel : nat) (size : Z) : option sizeText :=
  if size <? 1024 then Some (Bytes (golib.Sprintf_d size +:+ " B"))
  else
    match sizeLoop fuel (Z.quot size 1024) 1024 0 with
    | None => None
    | Some (div, exp) =>
        match String.get exp "KMGTPE" with
        | Some c => Some (Scaled size div c)
        | None => None
        end
    end.

End archiver.

(** * Vocabulary of the statements, and sample data *)

Import sqlite.

Definition sampleInfo : scan.FileInfo.t :=
  {| scan.FileInfo.Path := "/d/a.txt";
     scan.FileInfo.RelativePath := "a.txt";
     scan.FileInfo.Size := 100;
     scan.FileInfo.ModTime := 1700000000;
     scan.FileInfo.IsDir := false;
     scan.FileInfo.ContentType := "text/plain";
     scan.FileInfo.SHA256 := "ab12" |}.

(** A record that was scanned earlier (smaller size), then uploaded and
    summarised. *)
Definition uploadedRow : Row :=
  {| id := 1; path := "/d/a.txt"; relative_path := "a.txt"; size := 90;
     mod_time := 1600000000; is_dir := false;
     content_type := Some "text/plain"; sha256 := Some "ffff";
     processed := Some true; uploaded_url := Some "https://b2/a.txt";
     upload_time := Some 1650000000; summary := Some "quarterly finance notes" |}.

Definition uploadedDB : Database := {| files := [uploadedRow]; seq := 1 |}.
Definition emptyDB : Database := {| files := []; seq := 0 |}.

(** A manifest holding one directory and nothing else. *)
Definition dirOnlyDB : Database :=
  {| files := [ {| id := 1; path := "/d"; relative_path := "."; size := 4096;
                   mod_time := 1600000000; is_dir := true;
                   content_type := Some ""; sha256 := Some "";
                   processed := Some false; uploaded_url := None;
                   upload_time := None; summary := None |} ];
     seq := 1 |}.

(** Vocabulary for LIKE and directory listings.  A wildcard byte and a zero
    byte in an argument; the prefix the pattern is built from. *)
Fixpoint hasWildcard (s : string) : bool :=
  match s with
  | EmptyString => false
  | String c r => Ascii.eqb c "%" || Ascii.eqb c "_" || hasWildcard r
  end.

Fixpoint hasZero (s : string) : bool :=
  match s with
  | EmptyString => false
  | String c r => (byteOf c =? 0) || hasZero r
  end.

Definition dirPrefix (directory : string) : string :=
  if golib.HasSuffix directory "/" then directory else directory +:+ "/".

(** The characters SQLite reads in a string: it stops at the first zero
    byte, takes a byte below 0xC0 for a character of its own, and a byte from
    0xC0 on together with all the continuation bytes that follow it
    ([inside] is set after such a byte). *)
Fixpoint readAll (inside : bool) (z : string) : list Z :=
  match z with
  | EmptyString => []
  | String b z' =>
      if inside && (Z.land (byteOf b) 192 =? 128) then readAll true z'
      else (sqlite3Utf8Read z).1 :: readAll (192 <=? byteOf b) z'
  end.

Definition characters (s : string) : list Z := readAll false (cString s).

(** What [sqlite3Utf8Read] makes of the value a lead byte and its
    continuation bytes gave: U+FFFD for an overlong form below 0x80, a
    surrogate, U+FFFE and U+FFFF. *)
Definition normalise (c1 : Z) : Z :=
  if (c1 <? 128) || (Z.land c1 4294965248 =? 55296)
     || (Z.land c1 4294967294 =? 65534)
  then 65533 else c1.

(** Two characters LIKE takes for the same: equal, or two ASCII letters
    that differ in case only. *)
Definition sameFolded (c c2 : Z) : Prop :=
  c = c2 \/ (c < 128 /\ c2 < 128 /\ sqlite3Tolower c = sqlite3Tolower c2).

(** One list of characters starts another, up to ASCII letter case. *)
Definition prefixFolded (P S : list Z) : Prop :=
  exists pre suf, S = pre ++ suf /\ Forall2 sameFolded P pre.

(** "Starts with", as LIKE sees it (character by character, up to ASCII
    letter case), and byte by byte up to ASCII letter case. *)
Definition startsWithFold (prefix s : string) : Prop :=
  prefixFolded (characters prefix) (characters s).

Definition startsWithFoldBytes (prefix s : string) : Prop :=
  exists pre suf,
    s = pre +:+ suf /\ golib.lowerASCII pre = golib.lowerASCII prefix.

(** The case tables of the examples: they know the Latin-1 letters and the
    dotted capital I. *)
Definition sampleCase : golib.CaseTables :=
  {| golib.To_LowerCase r :=
       if (192 <=? r) && (r <=? 222) && negb (r =? 215) then r + 32
       else if r =? 304 then 105 else r |}.

(** A string given by its bytes. *)
Definition bytes (l : list Z) : string :=
  foldr (fun b s => String (ofByte b) s) EmptyString l.

(** "Starts with" byte by byte up to ASCII letter case, as a test. *)
Fixpoint startsWithFoldBytesb (p s : string) : bool :=
  match p, s with
  | EmptyString, _ => true
  | String b p', String d s' =>
      Ascii.eqb (golib.lowerByte d) (golib.lowerByte b)
      && startsWithFoldBytesb p' s'
  | String _ _, EmptyString => false
  end.

Definition plainRow (rowid : Z) (p : string) : Row :=
  {| id := rowid; path := p; relative_path := p; size := 1;
     mod_time := 1600000000; is_dir := false;
     content_type := Some "text/plain"; sha256 := Some "00";
     processed := Some true; uploaded_url := Some "https://b2/f";
     upload_time := None; summary := Some "" |}.

Definition lowerCaseDB : Database :=
  {| files := [plainRow 1 "/a/x.txt"; plainRow 2 "/b/y.txt"]; seq := 2 |}.

(** A directory name that is an overlong encoding (the bytes 2F C0 80), and
    a manifest with a record under another overlong name (2F C1 81 2F 78):
    SQLite reads U+FFFD for both. *)
Definition overlongDir : string := bytes [47; 192; 128].

Definition overlongDB : Database :=
  {| files := [plainRow 1 (bytes [47; 193; 129; 47; 120])]; seq := 1 |}.

Definition wildDB : Database :=
  {| files := [plainRow 1 "/axb/f"; plainRow 2 "/a_b/g"; plainRow 3 "/c/h"];
     seq := 3 |}.

(** An index that is open and whose storage layer has no failure in store. *)
Definition healthy {D : Type} (ix : bleve.Index D) : Prop :=
  bleve.opened ix = true /\ Forall (fun b => b = false) (bleve.faults ix).

Definition emptyIndex : bleve.Index db.FileIndex.t :=
  {| bleve.docs := ∅; bleve.opened := true; bleve.faults := [] |}.

Definition sampleConfig : db.IndexConfig.t :=
  {| db.IndexConfig.IndexDir := "/var/index";
     db.IndexConfig.IndexSummaries := true |}.

(** A directory whose name has a dot in it. *)
Definition dottedDir : db.FileStatus.t :=
  {| db.FileStatus.ID := 5;
     db.FileStatus.Path := "/data/Photos.2020";
     db.FileStatus.RelativePath := "Photos.2020";
     db.FileStatus.Size := 4096;
     db.FileStatus.ModTime := 1600000000;
     db.FileStatus.IsDir := true;
     db.FileStatus.ContentType := "";
     db.FileStatus.SHA256 := "";
     db.FileStatus.Processed := false;
     db.FileStatus.UploadedURL := "";
     db.FileStatus.UploadTime := None;
     db.FileStatus.Summary := "" |}.

Definition pdfFile : db.FileStatus.t :=
  {| db.FileStatus.ID := 12;
     db.FileStatus.Path := "/docs/Invoice.PDF";
     db.FileStatus.RelativePath := "Invoice.PDF";
     db.FileStatus.Size := 2048;
     db.FileStatus.ModTime := 1600000000;
     db.FileStatus.IsDir := false;
     db.FileStatus.ContentType := "application/pdf";
     db.FileStatus.SHA256 := "c0ffee";
     db.FileStatus.Processed := true;
     db.FileStatus.UploadedURL := "https://b2/invoice.pdf";
     db.FileStatus.UploadTime := Some 1650000000;
     db.FileStatus.Summary := "invoice report" |}.

(** A photo whose extension has a letter outside ASCII: /x/photo.JPÉG,
    the É in UTF-8 (C3 89). *)
Definition photoFile : db.FileStatus.t :=
  {| db.FileStatus.ID := 13;
     db.FileStatus.Path :=
       "/x/photo.JP" +:+ bytes [195; 137] +:+ "G";
     db.FileStatus.RelativePath :=
       "photo.JP" +:+ bytes [195; 137] +:+ "G";
     db.FileStatus.Size := 2048;
     db.FileStatus.ModTime := 1600000000;
     db.FileStatus.IsDir := false;
     db.FileStatus.ContentType := "image/jpeg";
     db.FileStatus.SHA256 := "c0ffee";
     db.FileStatus.Processed := true;
     db.FileStatus.UploadedURL := "https://b2/photo.jpg";
     db.FileStatus.UploadTime := Some 1650000000;
     db.FileStatus.Summary := "" |}.

(** A string with neither a dot nor a path separator. *)
Fixpoint plainName (s : string) : bool :=
  match s with
  | EmptyString => true
  | String c r =>
      negb (Ascii.eqb c ".") && negb (golib.isPathSeparator c) && plainName r
  end.

(** The documents after the records [rows] have been indexed one after the
    other on top of [m], the first at clock tick [n]; it stops at a record
    that does not scan. *)
Fixpoint applyRows {U : golib.CaseTables} (cfg : db.IndexConfig.t)
    (now : nat -> Z) (n : nat) (rows : list Row)
    (m : gmap string db.FileIndex.t)
  : gmap string db.FileIndex.t :=
  match rows with
  | [] => m
  | r :: rest =>
      match db.scanRow r with
      | inr f =>
          let doc := db.fileDocument cfg (now n) f in
          applyRows cfg now (S n) rest (<[db.FileIndex.ID doc := doc]> m)
      | inl _ => m
      end
  end.

(** Why a write to the index was refused. *)
Definition writeFailure {D : Type} (e : error) (ix : bleve.Index D) : Prop :=
  (e = ErrIndexClosed /\ bleve.opened ix = false) \/
  (e = ErrIO /\ true ∈ bleve.faults ix).

(** The id under which a manifest row is indexed. *)
Definition docKey (r : Row) : string := golib.Sprintf_d (id r).


Definition oneRowDB : Database :=
  {| files := [plainRow 1 "/a/x.txt"]; seq := 1 |}.

(** An index that still holds the document of a record (id 99) that is no
    longer in the manifest. *)
Definition staleIndex : bleve.Index db.FileIndex.t :=
  {| bleve.docs :=
       {[ "99"%string :=
            db.fileDocument (U:=sampleCase) sampleConfig 1600000000 pdfFile ]};
     bleve.opened := true;
     bleve.faults := [] |}.

Definition tick (n : nat) : Z := 1700000000 + Z.of_nat n.

(** A small engine to run the examples with: the standard analyser cuts
    the text at every ASCII byte that is neither a letter nor a digit and
    lower-cases the ASCII letters; a text value is indexed under the terms
    of the standard analyser, a boolean under T or F, a number or a time
    under no term of this kind; the document id is the one term of [_id]; a
    query string selects the documents that hold one of its words in any
    field; hits keep the order of their ids; no scores, no fragments. *)
Definition isWordByte (c : ascii) : bool :=
  let n := byteOf c in
  ((48 <=? n) && (n <=? 57)) || ((65 <=? n) && (n <=? 90))
  || ((97 <=? n) && (n <=? 122)) || (128 <=? n).

Fixpoint sampleWords (word : string) (text : string) : list string :=
  match text with
  | EmptyString => if String.eqb word "" then [] else [word]
  | String c rest =>
      if isWordByte c
      then sampleWords (word +:+ String (golib.lowerByte c) "") rest
      else if String.eqb word "" then sampleWords "" rest
      else word :: sampleWords "" rest
  end.

Definition sampleStandard (text : string) : list string := sampleWords "" text.

Definition sampleTerms (v : bleve.Value) : list string :=
  match v with
  | bleve.TextValue s => sampleStandard s
  | bleve.NumberValue _ => []
  | bleve.TimeValue _ => []
  | bleve.BoolValue b => [if b then "T" else "F"]%string
  end.

Definition sampleQueryString (q : string) : option (db.FileIndex.t -> bool) :=
  Some (fun d =>
          bleve.shareTerm (sampleStandard q)
            (List.concat (map (fun kv => sampleTerms kv.2) (db.fieldsOf d)))).

Definition sampleEngine : bleve.Engine db.FileIndex.t :=
  {| bleve.float64 := Z;
     bleve.standard := sampleStandard;
     bleve.indexedTerms := sampleTerms;
     bleve.internalTerms :=
       fun field d => if String.eqb field "_id" then [db.FileIndex.ID d]
                      else [];
     bleve.parseQueryString := sampleQueryString;
     bleve.score := fun _ _ => 0;
     bleve.fragments := fun _ _ _ => [];
     bleve.rank := fun _ hits => hits |}.

Definition invoiceDoc : db.FileIndex.t :=
  db.fileDocument (U:=sampleCase) sampleConfig 1700000000 pdfFile.

Definition invoiceIndex : bleve.Index db.FileIndex.t :=
  {| bleve.docs := {[ "12"%string := invoiceDoc ]};
     bleve.opened := true;
     bleve.faults := [] |}.

Definition fieldRequest (field : string) : db.SearchRequest.t :=
  {| db.SearchRequest.Query := "invoice";
     db.SearchRequest.Limit := 10;
     db.SearchRequest.Offset := 0;
     db.SearchRequest.SortBy := "";
     db.SearchRequest.SortDesc := false;
     db.SearchRequest.FieldName := field |}.

(** The text fields of a document, by name, and the terms a match query on
    a field looks for: the query text as one keyword for [Extension] and
    [ContentType], its standard analysis for every other field name. *)
Definition textFields : list (string * (db.FileIndex.t -> string)) :=
  [ ("ID"%string, db.FileIndex.ID);
    ("Path"%string, db.FileIndex.Path);
    ("RelativePath"%string, db.FileIndex.RelativePath);
    ("Name"%string, db.FileIndex.Name);
    ("Extension"%string, db.FileIndex.Extension);
    ("ContentType"%string, db.FileIndex.ContentType);
    ("Summary"%string, db.FileIndex.Summary);
    ("UploadedURL"%string, db.FileIndex.UploadedURL) ].

Definition queryTerms (E : bleve.Engine db.FileIndex.t) (field text : string)
  : list string :=
  if String.eqb field "Extension" || String.eqb field "ContentType"
  then [text] else bleve.standard E text.

(** A record whose summary alone speaks of an invoice, and requests on the
    extension. *)
Definition scanFile : db.FileStatus.t :=
  {| db.FileStatus.ID := 7;
     db.FileStatus.Path := "/docs/scan0012.pdf";
     db.FileStatus.RelativePath := "scan0012.pdf";
     db.FileStatus.Size := 4096;
     db.FileStatus.ModTime := 1600000000;
     db.FileStatus.IsDir := false;
     db.FileStatus.ContentType := "application/pdf";
     db.FileStatus.SHA256 := "beef";
     db.FileStatus.Processed := true;
     db.FileStatus.UploadedURL := "https://b2/scan0012.pdf";
     db.FileStatus.UploadTime := Some 1650000000;
     db.FileStatus.Summary := "invoice report" |}.

Definition scanDoc : db.FileIndex.t :=
  db.fileDocument (U:=sampleCase) sampleConfig 1700000000 scanFile.

Definition scanIndex : bleve.Index db.FileIndex.t :=
  {| bleve.docs := {[ "7"%string := scanDoc ]};
     bleve.opened := true;
     bleve.faults := [] |}.

Definition extensionRequest (text : string) : db.SearchRequest.t :=
  {| db.SearchRequest.Query := text;
     db.SearchRequest.Limit := 10;
     db.SearchRequest.Offset := 0;
     db.SearchRequest.SortBy := "";
     db.SearchRequest.SortDesc := false;
     db.SearchRequest.FieldName := "Extension" |}.

(** The invariant of the [files] table: paths are unique (UNIQUE(path)), ids
    are unique (PRIMARY KEY), and no id is above the AUTOINCREMENT counter. *)
Definition wfTable (d : Database) : Prop :=
  NoDup (map path (files d)) /\
  NoDup (map id (files d)) /\
  forall r, r ∈ files d -> id r <= seq d.

(** The sum of the [size] column over some rows. *)
Definition totalSizeOf (rows : list Row) : Z :=
  foldr (fun r acc => size r + acc) 0 rows.

(** A record that scans and is still to be processed. *)
Definition todoRow (rowid : Z) (p : string) : Row :=
  {| id := rowid; path := p; relative_path := p; size := 10;
     mod_time := 1600000000; is_dir := false;
     content_type := Some "text/plain"; sha256 := Some "00";
     processed := Some false; uploaded_url := Some "";
     upload_time := None; summary := Some "" |}.

Definition workDB : Database :=
  {| files := [todoRow 1 "/w/b.txt"; todoRow 2 "/w/a.txt"]; seq := 2 |}.

(** A string without a path separator. *)
Fixpoint noSlash (s : string) : bool :=
  match s with
  | EmptyString => true
  | String c r => negb (golib.isPathSeparator c) && noSlash r
  end.

(** A machine for the examples: the relative path is the path itself, every
    file sniffs as generic data and hashes to h. *)
Definition sampleMachine : scan.Machine :=
  {| scan.Rel := fun _ p => inr p;
     scan.readBuffer := fun _ => inr "head"%string;
     scan.DetectContentType := fun _ => "application/octet-stream"%string;
     scan.fileSHA256 := fun _ => inr "h"%string |}.

(** A picture whose extension is written with a dotted capital I:
    /src/IMG.HEİC, the İ in UTF-8 (C4 B0). *)
Definition heicPath : string := "/src/IMG.HE" +:+ bytes [196; 176] +:+ "C".

Definition regularFile : scan.OSFileInfo.t :=
  {| scan.OSFileInfo.Size := 100;
     scan.OSFileInfo.ModTime := 1600000000;
     scan.OSFileInfo.IsDir := false |}.

Definition directoryEntry : scan.OSFileInfo.t :=
  {| scan.OSFileInfo.Size := 4096;
     scan.OSFileInfo.ModTime := 1600000000;
     scan.OSFileInfo.IsDir := true |}.

(** The same request for another page. *)
Definition withPage (request : db.SearchRequest.t) (limit offset : Z)
  : db.SearchRequest.t :=
  {| db.SearchRequest.Query := db.SearchRequest.Query request;
     db.SearchRequest.Limit := limit;
     db.SearchRequest.Offset := offset;
     db.SearchRequest.SortBy := db.SearchRequest.SortBy request;
     db.SearchRequest.SortDesc := db.SearchRequest.SortDesc request;
     db.SearchRequest.FieldName := db.SearchRequest.FieldName request |}.

(** The limit [Search] works with: 10 when the request gives none. *)
Definition effectiveLimit (request : db.SearchRequest.t) : Z :=
  if db.SearchRequest.Limit request <=? 0 then 10
  else db.SearchRequest.Limit request.

(** The record of [pdfFile] after it was summarised again. *)
Definition pdfFileResummarised : db.FileStatus.t :=
  {| db.FileStatus.ID := 12;
     db.FileStatus.Path := "/docs/Invoice.PDF";
     db.FileStatus.RelativePath := "Invoice.PDF";
     db.FileStatus.Size := 2048;
     db.FileStatus.ModTime := 1600000000;
     db.FileStatus.IsDir := false;
     db.FileStatus.ContentType := "application/pdf";
     db.FileStatus.SHA256 := "c0ffee";
     db.FileStatus.Processed := true;
     db.FileStatus.UploadedURL := "https://b2/invoice.pdf";
     db.FileStatus.UploadTime := Some 1650000000;
     db.FileStatus.Summary := "water bill" |}.

(** An index whose second write will fail. *)
Definition flakyIndex : bleve.Index db.FileIndex.t :=
  {| bleve.docs := {[ "12"%string := invoiceDoc ]};
     bleve.opened := true;
     bleve.faults := [false; true] |}.

(** The result [Search] builds from a hit. *)
Definition resultOf (E : bleve.Engine db.FileIndex.t) (q : bleve.Query)
    (kv : string * db.FileIndex.t) : db.SearchResult.t (bleve.float64 E) :=
  {| db.SearchResult.ID := kv.1;
     db.SearchResult.Path := db.FileIndex.Path kv.2;
     db.SearchResult.Score := bleve.score E q kv.2;
     db.SearchResult.Snippet := db.snippetOf (bleve.fragments E q kv.2);
     db.SearchResult.IsDir := db.FileIndex.IsDir kv.2;
     db.SearchResult.Size := db.FileIndex.Size kv.2;
     db.SearchResult.ModTime := db.FileIndex.ModTime kv.2;
     db.SearchResult.Metadata := kv.2 |}.

(** An index with three documents. *)
Definition threeDocs : bleve.Index db.FileIndex.t :=
  {| bleve.docs :=
       <["1"%string := db.fileDocument (U:=sampleCase) sampleConfig 0 dottedDir]>
         (<["2"%string := invoiceDoc]>
            {[ "3"%string :=
                 db.fileDocument (U:=sampleCase) sampleConfig 0
                   pdfFileResummarised ]});
     bleve.opened := true;
     bleve.faults := [] |}.

Definition browseRequest : db.SearchRequest.t :=
  {| db.SearchRequest.Query := "";
     db.SearchRequest.Limit := 0;
     db.SearchRequest.Offset := 0;
     db.SearchRequest.SortBy := "Path";
     db.SearchRequest.SortDesc := false;
     db.SearchRequest.FieldName := "Summary" |}.

(** The files [CreateStubsForDirectory] tries to replace: not a directory,
    and uploaded. *)
Definition stubCandidate (f : db.FileStatus.t) : bool :=
  negb (db.FileStatus.IsDir f
        || String.eqb (db.FileStatus.UploadedURL f) "").

Definition freshOS : db.OS := {| db.calls := []; db.outcomes := [] |}.

Definition parentDir (p : string) : string := "/parent".

Definition uploadedDirDB : Database :=
  {| files := [plainRow 1 "/u/a.txt"; plainRow 2 "/u/b.txt";
               plainRow 3 "/u/c.txt"];
     seq := 3 |}.

(** 1 for an error, 0 for none. *)
Definition errCount {A : Type} (err : option A) : nat :=
  match err with Some _ => 1%nat | None => 0%nat end.

(** An operating system that refuses its next two calls. *)
Definition refusingOS : db.OS :=
  {| db.calls := []; db.outcomes := [Some "a"; Some "b"]%string |}.

(** * Properties *)

(** ** The manifest store *)

Lemma filter_path_kept (p : string) (rows : list Row) :
  filter (fun r => path r = p) (filter (fun r => path r <> p) rows) = [].
Proof.
  induction rows as [|r rows IH]; [done|].
  destruct (decide (path r = p)) as [Heq|Hne].
  - rewrite (filter_cons_False (fun r => path r <> p)); [done|]. by intros H.
  - rewrite (filter_cons_True (fun r => path r <> p)) by done.
    by rewrite filter_cons_False.
Qed.

Lemma saveFileInfo_files (info : scan.FileInfo.t) (d d' : Database) :
  scan.saveFileInfo info d = (d', None) ->
  exists rowid,
    nextRowid d = inr rowid /\
    d' = {| files := filter (fun r => path r <> scan.FileInfo.Path info) (files d)
                     ++ [scan.newRow rowid info];
            seq := rowid |}.
Proof.
  unfold scan.saveFileInfo. destruct (nextRowid d) as [e|rowid]; [done|].
  intros [= <-]. by exists rowid.
Qed.

Lemma saveFileInfo_one_row (info : scan.FileInfo.t) (d d' : Database) :
  scan.saveFileInfo info d = (d', None) ->
  filter (fun r => path r = scan.FileInfo.Path info) (files d')
  = [scan.newRow (seq d') info].
Proof.
  intros (rowid & _ & ->)%saveFileInfo_files. simpl.
  rewrite filter_app, filter_path_kept. simpl.
  by rewrite filter_cons_True, filter_nil.
Qed.

Lemma maxRowid_ge (rows : list Row) (r : Row) :
  r ∈ rows -> id r <= maxRowid rows.
Proof.
  induction rows as [|r0 rows IH]; [by intros ?%elem_of_nil|].
  intros [->|Hin]%elem_of_cons; simpl; [lia|].
  specialize (IH Hin). lia.
Qed.

Lemma nextRowid_fresh (d : Database) (rowid : Z) :
  nextRowid d = inr rowid ->
  seq d < rowid /\ forall r, r ∈ files d -> id r < rowid.
Proof.
  unfold nextRowid. destruct (_ =? _); [done|]. intros [= <-].
  split; [lia|]. intros r Hr%maxRowid_ge. lia.
Qed.

(** C5. Upserting the same content twice in a row for a path leaves exactly
    one record with that path, and that record carries the values of the
    second insert. *)
Theorem saveFileInfo_twice_one_record
    (info : scan.FileInfo.t) (d d1 d2 : Database) :
  scan.saveFileInfo info d = (d1, None) ->
  scan.saveFileInfo info d1 = (d2, None) ->
  exists r,
    filter (fun r => path r = scan.FileInfo.Path info) (files d2) = [r] /\
    path r = scan.FileInfo.Path info /\
    relative_path r = scan.FileInfo.RelativePath info /\
    size r = scan.FileInfo.Size info /\
    mod_time r = scan.FileInfo.ModTime info /\
    is_dir r = scan.FileInfo.IsDir info /\
    content_type r = Some (scan.FileInfo.ContentType info) /\
    sha256 r = Some (scan.FileInfo.SHA256 info).
Proof.
  intros _ H2. exists (scan.newRow (seq d2) info).
  split; [by apply saveFileInfo_one_row with d1|]. by repeat split.
Qed.

Lemma saveFileInfo_twice_one_record_witness :
  exists r,
    filter (fun r => path r = "/d/a.txt"%string)
           (files (scan.saveFileInfo sampleInfo
                     (scan.saveFileInfo sampleInfo uploadedDB).1).1) = [r] /\
    size r = 100.
Proof.
  destruct (saveFileInfo_twice_one_record sampleInfo uploadedDB
              (scan.saveFileInfo sampleInfo uploadedDB).1
              (scan.saveFileInfo sampleInfo
                 (scan.saveFileInfo sampleInfo uploadedDB).1).1
              eq_refl eq_refl) as (r & Hf & _ & _ & Hs & _).
  exists r. split; [exact Hf | exact Hs].
Defined.

(** C2, as stated, fails: upserting the path of a record that had been
    uploaded gives it a new id and clears its status columns. *)
Lemma saveFileInfo_keeps_status_counterexample :
  exists d',
    scan.saveFileInfo sampleInfo uploadedDB = (d', None) /\
    uploadedRow ∈ files uploadedDB /\
    path uploadedRow = scan.FileInfo.Path sampleInfo /\
    forall r', r' ∈ files d' -> path r' = path uploadedRow ->
      id r' <> id uploadedRow /\
      processed r' <> processed uploadedRow /\
      uploaded_url r' <> uploaded_url uploadedRow /\
      upload_time r' <> upload_time uploadedRow /\
      summary r' <> summary uploadedRow.
Proof.
  eexists. split; [reflexivity|]. split; [by left|]. split; [done|].
  intros r' Hin _. cbn in Hin.
  apply list_elem_of_singleton in Hin as ->. by repeat split.
Qed.

(** C2, amended. An upsert that succeeds on a path already stored deletes
    the stored record and inserts a new one: it carries the seven values of
    the argument, a fresh id above every id handed out before (so ids are
    never reused, but the id of a path changes), [processed] FALSE, and NULL
    in [uploaded_url], [upload_time] and [summary]; records with other paths
    are untouched. *)
Theorem saveFileInfo_replaces_record
    (info : scan.FileInfo.t) (d d' : Database) :
  scan.saveFileInfo info d = (d', None) ->
  exists r',
    filter (fun r => path r = scan.FileInfo.Path info) (files d') = [r'] /\
    (relative_path r' = scan.FileInfo.RelativePath info /\
     size r' = scan.FileInfo.Size info /\
     mod_time r' = scan.FileInfo.ModTime info /\
     is_dir r' = scan.FileInfo.IsDir info /\
     content_type r' = Some (scan.FileInfo.ContentType info) /\
     sha256 r' = Some (scan.FileInfo.SHA256 info)) /\
    (processed r' = Some false /\ uploaded_url r' = None /\
     upload_time r' = None /\ summary r' = None) /\
    (seq d < id r' /\ (forall r, r ∈ files d -> id r < id r') /\
     seq d' = id r') /\
    filter (fun r => path r <> scan.FileInfo.Path info) (files d')
    = filter (fun r => path r <> scan.FileInfo.Path info) (files d).
Proof.
  intros Hs. exists (scan.newRow (seq d') info).
  split; [by apply saveFileInfo_one_row with d|].
  apply saveFileInfo_files in Hs as (rowid & Hnext & ->). simpl.
  apply nextRowid_fresh in Hnext as [Hseq Hids].
  repeat split; try done.
  rewrite filter_app, list_filter_filter.
  rewrite filter_cons_False by (simpl; intros H; by apply H).
  rewrite filter_nil, app_nil_r.
  apply list_filter_iff. intros r; tauto.
Qed.

Lemma saveFileInfo_replaces_record_witness :
  exists r',
    filter (fun r => path r = "/d/a.txt"%string)
           (files (scan.saveFileInfo sampleInfo uploadedDB).1) = [r'] /\
    processed r' = Some false /\ 1 < id r'.
Proof.
  destruct (saveFileInfo_replaces_record sampleInfo uploadedDB
              (scan.saveFileInfo sampleInfo uploadedDB).1 eq_refl)
    as (r' & Hf & _ & (Hp & _) & (Hid & _) & _).
  exists r'. split; [exact Hf|]. split; [exact Hp | exact Hid].
Defined.

(** C4, as stated, fails: no record has id 7, and the status update returns
    no error (and changes nothing). *)
Lemma UpdateFileStatus_missing_id_counterexample :
  (forall r, r ∈ files uploadedDB -> id r <> 7) /\
  db.UpdateFileStatus 1700000000 7 true "https://b2/x" "s" uploadedDB
  = (uploadedDB, None).
Proof.
  split; [|reflexivity].
  intros r Hin. cbn in Hin. by apply list_elem_of_singleton in Hin as ->.
Qed.

Lemma map_no_change {A : Type} (f : A -> A) (l : list A) :
  (forall x, x ∈ l -> f x = x) -> map f l = l.
Proof.
  induction l as [|x l IH]; intros H; [done|]. simpl.
  rewrite H by left. rewrite IH; [done|]. intros y Hy. apply H. by right.
Qed.

(** C4, amended. A status update never reports an error. When no record has
    the id it leaves the table as it is; every record that has the id gets
    the given [processed], [uploaded_url] and [summary] and the current time
    as [upload_time], its other columns staying as they were; every other
    record is unchanged. *)
Theorem UpdateFileStatus_sets_status
    (now fileID : Z) (p : bool) (url sm : string) (d : Database) :
  exists d',
    db.UpdateFileStatus now fileID p url sm d = (d', None) /\
    seq d' = seq d /\
    List.length (files d') = List.length (files d) /\
    ((forall r, r ∈ files d -> id r <> fileID) -> d' = d) /\
    forall (i : nat) (r : Row), files d !! i = Some r ->
      exists r', files d' !! i = Some r' /\
        (id r = fileID ->
           processed r' = Some p /\ uploaded_url r' = Some url /\
           summary r' = Some sm /\ upload_time r' = Some now /\
           id r' = id r /\ path r' = path r /\
           relative_path r' = relative_path r /\ size r' = size r /\
           mod_time r' = mod_time r /\ is_dir r' = is_dir r /\
           content_type r' = content_type r /\ sha256 r' = sha256 r) /\
        (id r <> fileID -> r' = r).
Proof.
  eexists. split; [reflexivity|]. simpl. split; [done|].
  split; [by rewrite length_map|]. split.
  - intros Hno. destruct d as [rows s]. simpl in *. f_equal.
    apply map_no_change. intros r Hr.
    destruct (Z.eqb_spec (id r) fileID) as [Heq|]; [|done].
    by destruct (Hno r Hr).
  - intros i r Hi. rewrite list_lookup_fmap, Hi. simpl.
    eexists. split; [reflexivity|].
    destruct (Z.eqb_spec (id r) fileID) as [Heq|Hne]; split; done.
Qed.

(** C9. When the manifest has no record that is not a directory, [GetStats]
    returns an error and no statistics: [SUM(size)] is NULL, and NULL does
    not convert into the [int64] total. *)
Theorem GetStats_without_files_is_error (d : Database) :
  (forall r, r ∈ files d -> is_dir r = true) ->
  db.GetStats d = inl (ErrScanNull "SUM(size)").
Proof.
  intros Hdirs. unfold db.GetStats.
  assert (filter (fun r => db.notDir r = true) (files d) = []) as ->.
  { induction (files d) as [|r rows IH]; [done|].
    rewrite filter_cons_False.
    - apply IH. intros r' Hr'. apply Hdirs. by right.
    - unfold db.notDir. rewrite (Hdirs r) by left. done. }
  reflexivity.
Qed.

Lemma GetStats_without_files_is_error_witness :
  db.GetStats emptyDB = inl (ErrScanNull "SUM(size)") /\
  db.GetStats dirOnlyDB = inl (ErrScanNull "SUM(size)").
Proof.
  split.
  - apply GetStats_without_files_is_error. intros r Hr. cbn in Hr.
    by apply elem_of_nil in Hr.
  - apply GetStats_without_files_is_error. intros r Hr. cbn in Hr.
    by apply list_elem_of_singleton in Hr as ->.
Defined.

(** ** LIKE *)

Lemma byteOf_range (c : ascii) : 0 <= byteOf c < 256.
Proof. by destruct c as [[] [] [] [] [] [] [] []]. Qed.

Lemma byteOf_inj (c d : ascii) : byteOf c = byteOf d -> c = d.
Proof.
  unfold byteOf. intros H%(inj Z.of_N).
  by rewrite <- (ascii_N_embedding c), <- (ascii_N_embedding d), H.
Qed.

Lemma byteOf_lowerByte (c : ascii) :
  byteOf (golib.lowerByte c)
  = if (65 <=? byteOf c) && (byteOf c <=? 90) then byteOf c + 32 else byteOf c.
Proof. by destruct c as [[] [] [] [] [] [] [] []]. Qed.

Lemma eqb_percent (c : ascii) : Ascii.eqb c "%" = (byteOf c =? 37).
Proof. by destruct c as [[] [] [] [] [] [] [] []]. Qed.

Lemma eqb_underscore (c : ascii) : Ascii.eqb c "_" = (byteOf c =? 95).
Proof. by destruct c as [[] [] [] [] [] [] [] []]. Qed.

Lemma continuation_range (c : ascii) :
  (Z.land (byteOf c) 192 =? 128) = (128 <=? byteOf c) && (byteOf c <? 192).
Proof. by destruct c as [[] [] [] [] [] [] [] []]. Qed.

Lemma Utf8Read_low (b : ascii) (z : string) :
  byteOf b < 192 -> sqlite3Utf8Read (String b z) = (byteOf b, z).
Proof.
  intros Hb. unfold sqlite3Utf8Read.
  destruct (Z.leb_spec 192 (byteOf b)); [lia | done].
Qed.

Lemma normalise_ge (c1 : Z) : 128 <= normalise c1.
Proof.
  unfold normalise. destruct (Z.ltb_spec c1 128); simpl; [lia|].
  destruct (_ || _); lia.
Qed.

Lemma Utf8Read_high (b : ascii) (z : string) :
  192 <= byteOf b ->
  sqlite3Utf8Read (String b z)
  = (normalise (readContinuation (sqlite3Utf8Trans1 (byteOf b)) z).1,
     (readContinuation (sqlite3Utf8Trans1 (byteOf b)) z).2).
Proof.
  intros Hb. unfold sqlite3Utf8Read.
  destruct (Z.leb_spec 192 (byteOf b)); [|lia].
  by destruct (readContinuation _ z).
Qed.

Lemma readContinuation_app (c : Z) (z rest : string) :
  (forall b r, rest = String b r -> (Z.land (byteOf b) 192 =? 128) = false) ->
  readContinuation c (z +:+ rest)
  = ((readContinuation c z).1, (readContinuation c z).2 +:+ rest).
Proof.
  intros Hrest. revert c. induction z as [|b z IH]; intros c.
  - change ("" +:+ rest) with rest. destruct rest as [|b r]; [done|].
    simpl. by rewrite (Hrest b r).
  - change (String b z +:+ rest) with (String b (z +:+ rest)). simpl.
    destruct (Z.land (byteOf b) 192 =? 128); [apply IH | done].
Qed.

Lemma readContinuation_suffix (c : Z) (z : string) :
  exists skipped, z = skipped +:+ (readContinuation c z).2.
Proof.
  revert c. induction z as [|b z IH]; intros c; [by exists ""%string|].
  simpl. destruct (Z.land (byteOf b) 192 =? 128).
  - destruct (IH ((Z.shiftl c 6 + Z.land 63 (byteOf b)) mod 4294967296))
      as [skipped Hs].
    exists (String b skipped).
    change (String b z = String b (skipped +:+ (readContinuation
              ((Z.shiftl c 6 + Z.land 63 (byteOf b)) mod 4294967296) z).2)).
    by f_equal.
  - by exists ""%string.
Qed.

Lemma readAll_inside (c : Z) (z : string) :
  readAll true z = readAll false (readContinuation c z).2.
Proof.
  revert c. induction z as [|b z IH]; intros c; [done|].
  simpl. destruct (Z.land (byteOf b) 192 =? 128) eqn:Hb; [apply IH|].
  reflexivity.
Qed.

(** Reading a string character by character. *)
Lemma readAll_step (b : ascii) (z : string) :
  readAll false (String b z)
  = (sqlite3Utf8Read (String b z)).1
    :: readAll false (sqlite3Utf8Read (String b z)).2.
Proof.
  change (readAll false (String b z))
    with ((sqlite3Utf8Read (String b z)).1 :: readAll (192 <=? byteOf b) z).
  f_equal. destruct (Z.leb_spec 192 (byteOf b)) as [Hb|Hb].
  - rewrite Utf8Read_high by done. apply readAll_inside.
  - by rewrite Utf8Read_low.
Qed.

Lemma hasWildcard_app (a b : string) :
  hasWildcard (a +:+ b) = hasWildcard a || hasWildcard b.
Proof.
  induction a as [|c a IH]; [done|].
  change (String c a +:+ b) with (String c (a +:+ b)). simpl. rewrite IH.
  by rewrite orb_assoc.
Qed.

Lemma hasZero_app (a b : string) :
  hasZero (a +:+ b) = hasZero a || hasZero b.
Proof.
  induction a as [|c a IH]; [done|].
  change (String c a +:+ b) with (String c (a +:+ b)). simpl. rewrite IH.
  by rewrite orb_assoc.
Qed.

Lemma length_app_string (a b : string) :
  String.length (a +:+ b) = (String.length a + String.length b)%nat.
Proof.
  induction a as [|c a IH]; [done|].
  change (String c a +:+ b) with (String c (a +:+ b)). simpl.
  by rewrite IH.
Qed.

(** The first character of a pattern without wildcard or zero byte, and
    what is left of the pattern. *)
Lemma read_plain (b : ascii) (p rest : string) :
  hasWildcard (String b p) = false -> hasZero (String b p) = false ->
  (forall b' r, rest = String b' r -> (Z.land (byteOf b') 192 =? 128) = false) ->
  exists c p1,
    sqlite3Utf8Read (String b p +:+ rest) = (c, p1 +:+ rest) /\
    sqlite3Utf8Read (String b p) = (c, p1) /\
    0 < c /\ c <> matchAll /\ c <> matchOne /\
    (String.length p1 <= String.length p)%nat /\
    hasWildcard p1 = false /\ hasZero p1 = false.
Proof.
  intros Hw Hz Hrest. simpl in Hw, Hz.
  apply orb_false_iff in Hw as [Hw1 Hw]. apply orb_false_iff in Hw1 as [Hp Hu].
  apply orb_false_iff in Hz as [Hz1 Hz].
  rewrite eqb_percent in Hp. rewrite eqb_underscore in Hu.
  change (String b p +:+ rest) with (String b (p +:+ rest)).
  destruct (Z.leb_spec 192 (byteOf b)) as [Hb|Hb].
  - rewrite !Utf8Read_high by done. rewrite readContinuation_app by done.
    simpl.
    destruct (readContinuation_suffix (sqlite3Utf8Trans1 (byteOf b)) p)
      as [skipped Hs].
    set (c1 := (readContinuation (sqlite3Utf8Trans1 (byteOf b)) p).1).
    set (p1 := (readContinuation (sqlite3Utf8Trans1 (byteOf b)) p).2) in *.
    pose proof (normalise_ge c1) as Hc.
    exists (normalise c1), p1. split; [done|]. split; [done|].
    unfold matchAll, matchOne.
    split; [lia|]. split; [lia|]. split; [lia|].
    rewrite Hs in Hw, Hz. rewrite hasWildcard_app in Hw.
    rewrite hasZero_app in Hz.
    apply orb_false_iff in Hw as [_ Hw]. apply orb_false_iff in Hz as [_ Hz].
    split; [|done].
    apply (f_equal String.length) in Hs. rewrite length_app_string in Hs. lia.
  - rewrite !Utf8Read_low by done.
    exists (byteOf b), p. split; [done|]. split; [done|].
    pose proof (byteOf_range b). unfold matchAll, matchOne.
    split; [lia|]. split; [lia|]. split; [lia|]. done.
Qed.

Lemma prefixFolded_nil (S : list Z) : prefixFolded [] S.
Proof. exists [], S. split; [done | constructor]. Qed.

Lemma prefixFolded_cons (c c2 : Z) (P S : list Z) :
  prefixFolded (c :: P) (c2 :: S) <-> sameFolded c c2 /\ prefixFolded P S.
Proof.
  split.
  - intros (pre & suf & HS & HF). inversion HF as [|? c2' ? pre' Hc HF']; subst.
    simpl in HS. injection HS as -> ->. split; [done|]. by exists pre', suf.
  - intros [Hc (pre & suf & -> & HF)]. exists (c2 :: pre), suf.
    split; [done|]. by constructor.
Qed.

Lemma prefixFolded_cons_nil (c : Z) (P : list Z) : ~ prefixFolded (c :: P) [].
Proof.
  intros (pre & suf & HS & HF). inversion HF; subst. discriminate.
Qed.

Lemma sameFolded_test (c c2 : Z) :
  c <> matchOne ->
  (c =? c2)
  || ((sqlite3Tolower c =? sqlite3Tolower c2) && (c <? 128) && (c2 <? 128))
  || ((c =? matchOne) && negb (c2 =? 0)) = true
  <-> sameFolded c c2.
Proof.
  intros Hone. unfold sameFolded.
  destruct (Z.eqb_spec c matchOne) as [|_]; [done|].
  rewrite andb_false_l, orb_false_r.
  rewrite orb_true_iff, !andb_true_iff, !Z.eqb_eq, !Z.ltb_lt. tauto.
Qed.

(** LIKE with a pattern that is a plain text and a final percent sign. *)
Lemma patternCompare_prefix (n : nat) :
  forall (p s : string) (fuel : nat),
    (String.length p <= n)%nat -> (String.length p < fuel)%nat ->
    hasWildcard p = false -> hasZero p = false ->
    exists b : bool,
      patternCompare fuel (p +:+ "%") s
      = Some (if b then SQLITE_MATCH else SQLITE_NOMATCH) /\
      (b = true <-> prefixFolded (readAll false p) (readAll false s)).
Proof.
  induction n as [|n IH]; intros p s fuel Hn Hfuel Hw Hz.
  - destruct p; [|simpl in Hn; lia]. destruct fuel as [|fuel]; [simpl in *; lia|].
    exists true. split; [reflexivity|].
    split; [intros _; apply prefixFolded_nil | done].
  - destruct p as [|b p].
    { destruct fuel as [|fuel]; [simpl in *; lia|].
      exists true. split; [reflexivity|].
      split; [intros _; apply prefixFolded_nil | done]. }
    destruct fuel as [|fuel]; [simpl in *; lia|].
    destruct (read_plain b p "%" Hw Hz) as
      (c & p1 & Hread & Hread' & Hc0 & Hall & Hone & Hlen & Hw1 & Hz1).
    { by intros b' r [= <- <-]. }
    rewrite readAll_step, Hread'. simpl fst. simpl snd.
    cbn [patternCompare]. rewrite Hread.
    destruct (Z.eqb_spec c 0) as [|_]; [lia|].
    destruct (Z.eqb_spec c matchAll) as [|_]; [done|].
    destruct s as [|d s].
    + change (sqlite3Utf8Read "") with (0, ""%string).
      cbv beta iota.
      assert ((c =? 0)
              || (sqlite3Tolower c =? sqlite3Tolower 0) && (c <? 128) && (0 <? 128)
              || (c =? matchOne) && negb (0 =? 0) = false) as ->.
      { apply not_true_is_false. rewrite sameFolded_test by done.
        intros [?|(Hlt & _ & Hl)]; [lia|].
        unfold sqlite3Tolower in Hl. change (0 mod 256) with 0 in Hl.
        rewrite Z.mod_small in Hl by lia. simpl in Hl.
        destruct ((65 <=? c) && (c <=? 90)); lia. }
      exists false. split; [done|]. split; [done|].
      by intros ?%prefixFolded_cons_nil.
    + rewrite (readAll_step d s).
      destruct (sqlite3Utf8Read (String d s)) as [c2 s1] eqn:Hs. simpl fst. simpl snd.
      cbv beta iota.
      destruct ((c =? c2)
                || (sqlite3Tolower c =? sqlite3Tolower c2) && (c <? 128) && (c2 <? 128)
                || (c =? matchOne) && negb (c2 =? 0)) eqn:Htest.
      * apply sameFolded_test in Htest; [|done].
        destruct (IH p1 s1 fuel) as (b0 & Hrun & Hb0); [simpl in *; lia.. | done | done |].
        exists b0. split; [done|]. rewrite prefixFolded_cons. tauto.
      * exists false. split; [done|]. split; [done|].
        rewrite prefixFolded_cons. intros [Hc _].
        apply sameFolded_test in Hc; [|done]. congruence.
Qed.

Lemma cString_id (z : string) : hasZero z = false -> cString z = z.
Proof.
  induction z as [|b z IH]; [done|]. simpl.
  intros [Hb Hz]%orb_false_iff. rewrite Hb. by rewrite IH.
Qed.

Lemma cString_no_zero (z : string) : hasZero (cString z) = false.
Proof.
  induction z as [|b z IH]; [done|]. simpl.
  destruct (byteOf b =? 0) eqn:Hb; [done|]. simpl. by rewrite Hb.
Qed.

(** A pattern that is a plain text and a percent sign selects the strings
    that start with the text, as LIKE reads them. *)
Lemma patternMatches_prefix (p s : string) :
  hasWildcard p = false -> hasZero p = false ->
  patternMatches (p +:+ "%") s = true <-> startsWithFold p s.
Proof.
  intros Hw Hz. unfold patternMatches, startsWithFold, characters.
  assert (hasZero (p +:+ "%") = false) as Hz'.
  { by rewrite hasZero_app, Hz. }
  rewrite (cString_id (p +:+ "%")), (cString_id p) by done.
  destruct (patternCompare_prefix (String.length p) p (cString s)
              (S (String.length (p +:+ "%")))) as (b & -> & Hb);
    [lia | rewrite length_app_string; lia | done | done |].
  fold (prefixFolded (readAll false p) (readAll false (cString s))).
  rewrite <- Hb. by destruct b.
Qed.

Lemma likeFunc_short (zB : string) (zA : option string) :
  Z.of_nat (String.length zB) <= 50000 ->
  likeFunc zB zA = inr (option_map (patternMatches zB) zA).
Proof.
  intros Hlen. unfold likeFunc.
  destruct (Z.ltb_spec 50000 (Z.of_nat (String.length zB))); [lia|].
  by destruct zA.
Qed.

Lemma likeFunc_long (zB : string) (zA : option string) :
  50000 < Z.of_nat (String.length zB) ->
  likeFunc zB zA = inl ErrLikePattern.
Proof.
  intros Hlen. unfold likeFunc.
  by destruct (Z.ltb_spec 50000 (Z.of_nat (String.length zB))); [|lia].
Qed.

Lemma selectWhere_filter (test : Row -> error + option bool)
    (keep : Row -> bool) (rows : list Row) :
  (forall r, r ∈ rows ->
     exists v, test r = inr v /\ (v = Some true <-> keep r = true)) ->
  selectWhere test rows = inr (filter (fun r => keep r = true) rows).
Proof.
  induction rows as [|r rows IH]; intros Htest; [done|]. simpl.
  destruct (Htest r) as (v & -> & Hv); [by left|].
  rewrite IH by (intros r' Hr'; apply Htest; by right).
  destruct (keep r) eqn:Hk.
  - rewrite filter_cons_True by done.
    by destruct Hv as [_ ->].
  - rewrite filter_cons_False by (by rewrite Hk).
    destruct v as [[|]|]; [|done..]. destruct Hv as [Hv _].
    by specialize (Hv eq_refl).
Qed.

Lemma selectWhere_error (test : Row -> error + option bool) (e : error)
    (rows : list Row) :
  rows <> [] -> (forall r, r ∈ rows -> test r = inl e) ->
  selectWhere test rows = inl e.
Proof.
  destruct rows as [|r rows]; [done|]. intros _ Htest. simpl.
  by rewrite (Htest r) by (by left).
Qed.

(** For an ASCII text, "starts with" as LIKE reads it is "starts with" byte
    by byte, up to ASCII letter case. *)
Lemma sameFolded_bytes (b d : ascii) :
  byteOf b < 128 -> byteOf d < 128 ->
  sameFolded (byteOf b) (byteOf d) <-> golib.lowerByte d = golib.lowerByte b.
Proof.
  intros Hb Hd. pose proof (byteOf_range b). pose proof (byteOf_range d).
  unfold sameFolded, sqlite3Tolower. rewrite !Z.mod_small by lia.
  split.
  - intros [Heq|(_ & _ & Hl)].
    + by apply byteOf_inj in Heq as ->.
    + apply byteOf_inj. by rewrite !byteOf_lowerByte.
  - intros Hl. right. split; [done|]. split; [done|].
    apply (f_equal byteOf) in Hl. by rewrite !byteOf_lowerByte in Hl.
Qed.

Lemma startsWithFoldBytes_cons (b d : ascii) (p s : string) :
  startsWithFoldBytes (String b p) (String d s)
  <-> golib.lowerByte d = golib.lowerByte b /\ startsWithFoldBytes p s.
Proof.
  unfold startsWithFoldBytes. split.
  - intros (pre & suf & Hs & Hl). destruct pre as [|d' pre]; [done|].
    change (String d' pre +:+ suf) with (String d' (pre +:+ suf)) in Hs.
    injection Hs as -> ->. simpl in Hl. injection Hl as Hd Hl.
    split; [done|]. by exists pre, suf.
  - intros [Hd (pre & suf & -> & Hl)]. exists (String d pre), suf.
    split; [done|]. simpl. by rewrite Hd, Hl.
Qed.

Lemma startsWithFoldBytes_nil (b : ascii) (p : string) :
  ~ startsWithFoldBytes (String b p) "".
Proof. intros (pre & suf & Hs & Hl). by destruct pre. Qed.

Lemma startsWithFold_ascii (p s : string) :
  golib.isASCII p = true -> hasZero p = false ->
  startsWithFold p s <-> startsWithFoldBytes p s.
Proof.
  unfold startsWithFold, characters.
  fold (prefixFolded (readAll false (cString p)) (readAll false (cString s))).
  revert s. induction p as [|b p IH]; intros s Ha Hz.
  - split; intros _; [by exists ""%string, s | apply prefixFolded_nil].
  - simpl in Ha, Hz. apply andb_true_iff in Ha as [Hb%Z.ltb_lt Ha].
    apply orb_false_iff in Hz as [Hb0 Hz]. unfold golib.RuneSelf in Hb.
    pose proof (byteOf_range b) as Hrb.
    assert (cString (String b p) = String b (cString p)) as ->.
    { simpl. by rewrite Hb0. }
    rewrite readAll_step, Utf8Read_low by lia. simpl fst. simpl snd.
    destruct s as [|d s].
    + split; [by intros ?%prefixFolded_cons_nil|].
      by intros ?%startsWithFoldBytes_nil.
    + rewrite startsWithFoldBytes_cons.
      pose proof (byteOf_range d) as Hrd.
      destruct (Z.eqb_spec (byteOf d) 0) as [Hd0|Hd0].
      * assert (cString (String d s) = ""%string) as ->.
        { simpl. by rewrite Hd0. }
        split; [by intros ?%prefixFolded_cons_nil|]. intros [Hl _].
        apply (f_equal byteOf) in Hl. rewrite !byteOf_lowerByte in Hl.
        rewrite Hd0 in Hl. simpl in Hl.
        destruct (Z.leb_spec 65 (byteOf b)), (Z.leb_spec (byteOf b) 90);
          simpl in Hl; lia.
      * assert (cString (String d s) = String d (cString s)) as ->.
        { simpl. by destruct (Z.eqb_spec (byteOf d) 0). }
        rewrite readAll_step, prefixFolded_cons.
        destruct (Z.ltb_spec (byteOf d) 128) as [Hd|Hd].
        -- rewrite Utf8Read_low by lia. simpl fst. simpl snd.
           rewrite sameFolded_bytes by lia. rewrite (IH s Ha Hz). tauto.
        -- split.
           ++ intros [Hc _]. exfalso.
              assert (128 <= (sqlite3Utf8Read (String d (cString s))).1) as Hge.
              { destruct (Z.leb_spec 192 (byteOf d)).
                - rewrite Utf8Read_high by done. apply normalise_ge.
                - by rewrite Utf8Read_low. }
              destruct Hc as [Hc|(_ & Hc & _)]; lia.
           ++ intros [Hl _]. exfalso.
              apply (f_equal byteOf) in Hl. rewrite !byteOf_lowerByte in Hl.
              destruct (Z.leb_spec 65 (byteOf d)), (Z.leb_spec (byteOf d) 90),
                (Z.leb_spec 65 (byteOf b)), (Z.leb_spec (byteOf b) 90);
                simpl in Hl; lia.
Qed.

(** The fuel [likeFunc] gives to [patternCompare] suffices. *)
Lemma Utf8Read_shorter (b : ascii) (z : string) :
  (String.length (sqlite3Utf8Read (String b z)).2 <= String.length z)%nat.
Proof.
  destruct (Z.leb_spec 192 (byteOf b)) as [Hb|Hb].
  - rewrite Utf8Read_high by done. simpl snd.
    destruct (readContinuation_suffix (sqlite3Utf8Trans1 (byteOf b)) z)
      as [skipped Hs].
    apply (f_equal String.length) in Hs. rewrite length_app_string in Hs. lia.
  - rewrite Utf8Read_low by done. simpl. lia.
Qed.

Lemma skipWildcards_shorter (p s : string) (c : Z) (p2 s1 : string) :
  skipWildcards p s = Some (c, p2, s1) ->
  (String.length p2 <= String.length p)%nat.
Proof.
  revert s. induction p as [|b p IH]; intros s; simpl.
  - by intros [= _ <- _].
  - destruct (byteOf b =? matchAll).
    { intros H%IH. lia. }
    destruct (byteOf b =? matchOne).
    { destruct (sqlite3Utf8Read s) as [c2 s']. destruct (c2 =? 0); [done|].
      intros H%IH. lia. }
    pose proof (Utf8Read_shorter b p) as Hlen.
    destruct (sqlite3Utf8Read (String b p)) as [c' p'].
    intros [= _ <- _]. simpl in Hlen. lia.
Qed.

Lemma searchByte_total (next : string -> option compareResult) (c : Z)
    (z : string) :
  (forall z', next z' <> None) -> searchByte next c z <> None.
Proof.
  intros Hnext. induction z as [|d z IH]; [done|]. simpl.
  destruct ((byteOf d =? sqlite3Toupper c) || (byteOf d =? sqlite3Tolower c));
    [|exact IH].
  specialize (Hnext z). by destruct (next z) as [[| |]|].
Qed.

Lemma searchCharacter_total (next : string -> option compareResult) (c : Z)
    (n : nat) :
  (forall z', next z' <> None) ->
  forall z, (String.length z < n)%nat -> searchCharacter next c n z <> None.
Proof.
  intros Hnext. induction n as [|n IH]; intros z Hz; [lia|].
  cbn [searchCharacter]. destruct z as [|d z]; [done|].
  pose proof (Utf8Read_shorter d z) as Hz'.
  destruct (sqlite3Utf8Read (String d z)) as [c2 z']. simpl in Hz, Hz'.
  destruct (c2 =? 0); [done|].
  destruct (negb (c2 =? c)); [apply IH; lia|].
  specialize (Hnext z').
  destruct (next z') as [[| |]|]; [done| |done|done].
  apply IH. lia.
Qed.

Lemma patternCompare_fuel (fuel : nat) :
  forall p s : string,
    (String.length p < fuel)%nat -> patternCompare fuel p s <> None.
Proof.
  induction fuel as [|fuel IH]; intros p s Hfuel; [lia|].
  cbn [patternCompare].
  destruct p as [|b p]; [done|].
  pose proof (Utf8Read_shorter b p) as Hlen.
  destruct (sqlite3Utf8Read (String b p)) as [c p1]. simpl in Hlen, Hfuel.
  destruct (c =? 0); [done|].
  destruct (c =? matchAll).
  - destruct (skipWildcards p1 s) as [[[c' p2] s1]|] eqn:Hskip; [|done].
    apply skipWildcards_shorter in Hskip.
    destruct (c' =? 0); [done|].
    assert (forall z, patternCompare fuel p2 z <> None) as Hrec.
    { intros z. apply IH. lia. }
    destruct (c' <? 128).
    + by apply searchByte_total.
    + apply searchCharacter_total; [done | lia].
  - destruct (sqlite3Utf8Read s) as [c2 s1].
    destruct (_ || _); [|done]. apply IH. lia.
Qed.

Lemma patternMatches_spec (zB zA : string) :
  exists r, patternCompare (S (String.length (cString zB)))
              (cString zB) (cString zA) = Some r /\
            (patternMatches zB zA = true <-> r = SQLITE_MATCH).
Proof.
  unfold patternMatches.
  pose proof (patternCompare_fuel (S (String.length (cString zB)))
                (cString zB) (cString zA)) as Hf.
  destruct (patternCompare _ _ _) as [r|]; [|by destruct Hf; [lia|]].
  exists r. split; [done|]. by destruct r.
Qed.

(** ** Directory listings *)

#[local] Instance pathLe_trans : Transitive pathLe.
Proof. intros r1 r2 r3. unfold pathLe. apply transitivity. Qed.
#[local] Instance pathLe_total : Total pathLe.
Proof. intros r1 r2. unfold pathLe. apply total, _. Qed.

Lemma scanRow_Path (r : Row) (f : db.FileStatus.t) :
  db.scanRow r = inr f -> db.FileStatus.Path f = path r /\ db.FileStatus.ID f = id r.
Proof.
  unfold db.scanRow.
  destruct (content_type r), (sha256 r), (processed r), (uploaded_url r),
    (summary r); try discriminate.
  by intros [= <-].
Qed.

Lemma scanAll_Forall2 (rows : list Row) (fs : list db.FileStatus.t) :
  db.scanAll rows = inr fs <-> Forall2 (fun r f => db.scanRow r = inr f) rows fs.
Proof.
  revert fs. induction rows as [|r rows IH]; intros fs; simpl.
  - split; [by intros [= <-]; constructor | by inversion 1].
  - destruct (db.scanRow r) as [e|f] eqn:Hr.
    + split; [done|]. inversion 1; congruence.
    + destruct (db.scanAll rows) as [e|fs'] eqn:Hrs.
      * split; [done|]. inversion 1 as [|? f' ? fs'' Hf Hfs]; subst.
        apply IH in Hfs. discriminate.
      * split.
        -- intros [= <-]. constructor; [done | by apply IH].
        -- inversion 1 as [|? f' ? fs'' Hf Hfs]; subst.
           apply IH in Hfs. congruence.
Qed.

Lemma scanAll_total (rows : list Row) :
  (forall r, r ∈ rows -> exists f, db.scanRow r = inr f) ->
  exists fs, db.scanAll rows = inr fs.
Proof.
  induction rows as [|r rows IH]; intros H; [by eexists|]. simpl.
  destruct (H r) as [f ->]; [by left|].
  destruct IH as [fs ->]; [|by eexists].
  intros r' Hr'. apply H. by right.
Qed.

Lemma Forall2_scan_paths (rows : list Row) (fs : list db.FileStatus.t) :
  Forall2 (fun r f => db.scanRow r = inr f) rows fs ->
  map db.FileStatus.Path fs = map path rows.
Proof.
  induction 1 as [|r f rows fs Hrf _ IH]; [done|]. simpl.
  apply scanRow_Path in Hrf as [-> _]. by rewrite IH.
Qed.

Lemma directoryPattern_prefix (directory : string) :
  db.directoryPattern directory = dirPrefix directory +:+ "%".
Proof. reflexivity. Qed.

Lemma dirPrefix_plain (directory : string) :
  hasWildcard directory = false -> hasZero directory = false ->
  hasWildcard (dirPrefix directory) = false /\
  hasZero (dirPrefix directory) = false.
Proof.
  intros Hw Hz. unfold dirPrefix.
  destruct (golib.HasSuffix directory "/"); [done|].
  by rewrite hasWildcard_app, hasZero_app, Hw, Hz.
Qed.

Lemma dirPrefix_ascii (directory : string) :
  golib.isASCII directory = true -> golib.isASCII (dirPrefix directory) = true.
Proof.
  intros Ha. unfold dirPrefix.
  destruct (golib.HasSuffix directory "/"); [done|].
  induction directory as [|b directory IH]; [done|].
  change (String b directory +:+ "/") with (String b (directory +:+ "/")).
  simpl in *. apply andb_true_iff in Ha as [-> Ha]. by apply IH.
Qed.

(** With a pattern within SQLite's limit, the listing is the scan of the
    rows the pattern selects, in the order of their paths. *)
Lemma GetFilesInDirectory_rows (directory : string) (d : Database) :
  Z.of_nat (String.length (db.directoryPattern directory)) <= 50000 ->
  db.GetFilesInDirectory directory d
  = db.scanAll
      (orderByPath
         (filter (fun r => patternMatches (db.directoryPattern directory)
                             (path r) = true)
                 (files d))).
Proof.
  intros Hlen. unfold db.GetFilesInDirectory.
  rewrite (selectWhere_filter _
             (fun r => patternMatches (db.directoryPattern directory) (path r)));
    [done|].
  intros r _. rewrite likeFunc_short by done. eexists. split; [done|].
  simpl. split; [by intros [= ->] | by intros ->].
Qed.

(** C10, as stated, fails: the argument has no wildcard, and a record whose
    path does not start with the argument followed by a slash is returned,
    because LIKE ignores ASCII letter case. *)
Lemma GetFilesInDirectory_prefix_counterexample :
  hasWildcard "/A" = false /\
  exists f,
    db.GetFilesInDirectory "/A" lowerCaseDB = inr [f] /\
    db.FileStatus.Path f = "/a/x.txt"%string /\
    ~ exists suf, db.FileStatus.Path f = "/A/" +:+ suf.
Proof.
  split; [done|]. eexists. split; [vm_compute; reflexivity|].
  split; [done|]. intros [suf Hs]. discriminate.
Qed.

Lemma startsWithFoldBytesb_spec (p s : string) :
  startsWithFoldBytesb p s = true <-> startsWithFoldBytes p s.
Proof.
  revert s. induction p as [|b p IH]; intros s.
  - split; [|done]. intros _. by exists ""%string, s.
  - destruct s as [|d s]; simpl.
    + split; [done|]. by intros ?%startsWithFoldBytes_nil.
    + rewrite startsWithFoldBytes_cons, andb_true_iff, IH, Ascii.eqb_eq. tauto.
Qed.

(** C10, amended. The pattern is the argument, a slash unless it ends in
    one, and a percent sign; LIKE reads pattern and path up to their first
    zero byte, character by character as SQLite decodes them, and takes ASCII
    letters without regard to case.  For an argument without wildcard and
    zero byte whose pattern is within SQLite's limit of 50000 bytes the
    listing, when it is returned, holds exactly the scanned records whose
    path starts in this reading with argument-and-slash, in ascending order
    of path; it is returned whenever each of those records scans.  For an
    ASCII argument this reading of "starts with" is byte by byte up to ASCII
    letter case.  A longer pattern is an error on every table that has a
    row.  With a wildcard in the argument, or with bytes that are not
    well-formed UTF-8, a record outside the directory can come back. *)
Theorem GetFilesInDirectory_lists_folded_prefix
    (directory : string) (d : Database) :
  hasWildcard directory = false ->
  hasZero directory = false ->
  (Z.of_nat (String.length (db.directoryPattern directory)) <= 50000 ->
   (forall fs, db.GetFilesInDirectory directory d = inr fs ->
      exists rows,
        Forall2 (fun r f => db.scanRow r = inr f) rows fs /\
        (forall r, r ∈ rows <->
           r ∈ files d /\ startsWithFold (dirPrefix directory) (path r)) /\
        (NoDup (files d) -> NoDup rows) /\
        StronglySorted String.le (map db.FileStatus.Path fs)) /\
   ((forall r, r ∈ files d -> startsWithFold (dirPrefix directory) (path r) ->
       exists f, db.scanRow r = inr f) ->
    exists fs, db.GetFilesInDirectory directory d = inr fs)) /\
  (golib.isASCII directory = true ->
   forall s, startsWithFold (dirPrefix directory) s
             <-> startsWithFoldBytes (dirPrefix directory) s) /\
  (50000 < Z.of_nat (String.length (db.directoryPattern directory)) ->
   files d <> [] ->
   db.GetFilesInDirectory directory d = inl ErrLikePattern) /\
  (hasWildcard "/a_b" = true /\
   exists fs f,
     db.GetFilesInDirectory "/a_b" wildDB = inr fs /\ f ∈ fs /\
     ~ startsWithFoldBytes (dirPrefix "/a_b") (db.FileStatus.Path f)) /\
  (hasWildcard overlongDir = false /\ hasZero overlongDir = false /\
   exists fs f,
     db.GetFilesInDirectory overlongDir overlongDB = inr fs /\ f ∈ fs /\
     ~ startsWithFoldBytes (dirPrefix overlongDir) (db.FileStatus.Path f)).
Proof.
  intros Hw Hz. destruct (dirPrefix_plain directory Hw Hz) as [Hw' Hz'].
  assert (forall p, patternMatches (db.directoryPattern directory) p = true
                    <-> startsWithFold (dirPrefix directory) p) as Hlike.
  { intros p. rewrite directoryPattern_prefix.
    by apply patternMatches_prefix. }
  split; [|split; [|split; [|split]]].
  - intros Hlen. rewrite GetFilesInDirectory_rows by done. split.
    + intros fs Hfs. apply scanAll_Forall2 in Hfs.
      eexists. split; [exact Hfs|]. split; [|split].
      * intros r. unfold orderByPath. rewrite merge_sort_Permutation.
        rewrite list_elem_of_filter, Hlike. tauto.
      * intros Hnd. unfold orderByPath. rewrite merge_sort_Permutation.
        by apply NoDup_filter.
      * rewrite (Forall2_scan_paths _ _ Hfs).
        apply (StronglySorted_fmap path pathLe String.le); [done|].
        apply StronglySorted_merge_sort; apply _.
    + intros Hscan. apply scanAll_total. intros r.
      unfold orderByPath. rewrite merge_sort_Permutation.
      rewrite list_elem_of_filter, Hlike.
      intros [Hu Hin]. by apply Hscan.
  - intros Ha s. apply startsWithFold_ascii; [|done].
    by apply dirPrefix_ascii.
  - intros Hlen Hne. unfold db.GetFilesInDirectory.
    rewrite (selectWhere_error _ ErrLikePattern); [done | done |].
    intros r _. by apply likeFunc_long.
  - split; [done|]. eexists _, _. split; [vm_compute; reflexivity|].
    split; [right; left|].
    rewrite <- startsWithFoldBytesb_spec. by vm_compute.
  - split; [done|]. split; [done|].
    eexists _, _. split; [vm_compute; reflexivity|].
    split; [left|].
    rewrite <- startsWithFoldBytesb_spec. by vm_compute.
Qed.

Lemma GetFilesInDirectory_lists_folded_prefix_witness :
  exists fs, db.GetFilesInDirectory "/A" lowerCaseDB = inr fs.
Proof.
  destruct (GetFilesInDirectory_lists_folded_prefix "/A" lowerCaseDB
              eq_refl eq_refl) as [Hshort _].
  destruct Hshort as [_ Hreturned]; [by vm_compute|].
  apply Hreturned. intros r Hr _. cbn in Hr.
  apply elem_of_cons in Hr as [->|Hr]; [by eexists|].
  apply list_elem_of_singleton in Hr as ->. by eexists.
Defined.

(** ** Path helpers *)

Lemma string_app_cons (c : ascii) (a b : string) :
  String c a +:+ b = String c (a +:+ b).
Proof. reflexivity. Qed.

Lemma string_app_assoc (a b c : string) : (a +:+ b) +:+ c = a +:+ (b +:+ c).
Proof.
  induction a as [|x a IH]; [done|]. by rewrite !string_app_cons, IH.
Qed.

Lemma substring_from_length (pre rest : string) :
  substring (String.length pre) (String.length rest) (pre +:+ rest) = rest.
Proof.
  induction pre as [|c pre IH]; simpl; [|exact IH].
  change ("" +:+ rest) with rest.
  induction rest as [|c rest IH]; simpl; [done|]. by rewrite IH.
Qed.

Lemma get_after_prefix (pre rest : string) (i : nat) :
  String.get (String.length pre + i) (pre +:+ rest) = String.get i rest.
Proof. induction pre as [|c pre IH]; simpl; [done | exact IH]. Qed.

Lemma plainName_get (s : string) (i : nat) (c : ascii) :
  plainName s = true -> String.get i s = Some c ->
  Ascii.eqb c "." = false /\ golib.isPathSeparator c = false.
Proof.
  revert i. induction s as [|a s IH]; intros i Hp Hg; [done|].
  simpl in Hp. apply andb_true_iff in Hp as [Hp Hs].
  apply andb_true_iff in Hp as [Hd Hsep].
  destruct i as [|i]; simpl in Hg.
  - injection Hg as <-. split; by apply negb_true_iff.
  - by apply (IH i).
Qed.

Lemma get_in_range (s : string) (n : nat) :
  (S n <= String.length s)%nat -> String.get n s <> None.
Proof.
  revert n. induction s as [|a s IH]; intros n Hn; simpl in *; [lia|].
  destruct n as [|n]; [done|]. apply IH. lia.
Qed.

Lemma extLoop_skips_plain (pre suf : string) (n : nat) :
  plainName suf = true -> (n <= String.length suf)%nat ->
  golib.extLoop (pre +:+ suf) (String.length pre + n)
  = golib.extLoop (pre +:+ suf) (String.length pre).
Proof.
  intros Hp. induction n as [|n IH]; intros Hn.
  - by rewrite Nat.add_0_r.
  - rewrite Nat.add_succ_r. simpl. rewrite get_after_prefix.
    destruct (String.get n suf) as [c|] eqn:Hg.
    + destruct (plainName_get suf n c Hp Hg) as [-> ->]. apply IH. lia.
    + exfalso. by apply (get_in_range suf n).
Qed.

(** [Ext] returns the suffix that starts at the last dot of the last element. *)
Lemma Ext_last_dot (pre suf : string) :
  plainName suf = true ->
  golib.Ext (pre +:+ String "." suf) = String "." suf.
Proof.
  intros Hp. unfold golib.Ext.
  assert (pre +:+ String "." suf = (pre +:+ ".") +:+ suf) as Hsplit.
  { by rewrite string_app_assoc. }
  rewrite Hsplit at 1 2. rewrite length_app_string.
  rewrite extLoop_skips_plain by (done || lia).
  rewrite <- Hsplit. rewrite length_app_string. simpl.
  rewrite Nat.add_1_r. simpl.
  pose proof (get_after_prefix pre (String "." suf) 0) as Hg.
  rewrite Nat.add_0_r in Hg. rewrite Hg. simpl.
  rewrite length_app_string. simpl.
  replace (String.length pre + S (String.length suf) - String.length pre)%nat
    with (String.length (String "." suf)) by (simpl; lia).
  apply substring_from_length.
Qed.

(** [Ext] is empty when the last element has no dot. *)
Lemma Ext_no_dot (dir name : string) :
  plainName name = true ->
  dir = ""%string \/ (exists dir', dir = dir' +:+ "/") ->
  golib.Ext (dir +:+ name) = ""%string.
Proof.
  intros Hp Hdir. unfold golib.Ext. rewrite length_app_string.
  rewrite extLoop_skips_plain by (done || lia).
  destruct Hdir as [->|[dir' ->]]; [done|].
  rewrite length_app_string. simpl. rewrite Nat.add_1_r. simpl.
  assert ((dir' +:+ "/") +:+ name = dir' +:+ String "/" name) as ->.
  { by rewrite string_app_assoc. }
  pose proof (get_after_prefix dir' (String "/" name) 0) as Hg.
  rewrite Nat.add_0_r in Hg. by rewrite Hg.
Qed.

(** ** The index: single-document operations *)

Lemma pretty_N_go_length (x : N) (s : string) :
  (String.length s <= String.length (pretty_N_go x s))%nat.
Proof.
  revert s. induction (N.lt_wf_0 x) as [x _ IH]; intros s.
  destruct (decide (x = 0)%N) as [->|Hx]; [by rewrite pretty_N_go_0|].
  rewrite pretty_N_go_step by lia.
  etrans; [|apply IH; apply N.div_lt; lia]. simpl. lia.
Qed.

Lemma Sprintf_d_nonempty (n : Z) : golib.Sprintf_d n <> ""%string.
Proof.
  assert (forall p, pretty (Npos p) <> ""%string) as Hpos.
  { intros p. unfold pretty, pretty_N.
    destruct (decide _) as [|_]; [done|].
    rewrite pretty_N_go_step by lia. intros Heq.
    pose proof (pretty_N_go_length (N.pos p `div` 10)
                  (String (pretty_N_char (N.pos p `mod` 10)) "")) as Hlen.
    rewrite Heq in Hlen. simpl in Hlen. lia. }
  unfold golib.Sprintf_d. destruct n as [|p|p]; [done|apply Hpos|done].
Qed.

Lemma Sprintf_d_inj (m n : Z) : golib.Sprintf_d m = golib.Sprintf_d n -> m = n.
Proof. apply (inj pretty). Qed.

Lemma write_healthy {D : Type} (f : gmap string D -> gmap string D)
    (ix : bleve.Index D) :
  healthy ix ->
  exists ix',
    bleve.write f ix = (ix', None) /\
    bleve.docs ix' = f (bleve.docs ix) /\ healthy ix'.
Proof.
  intros [Ho Hf]. unfold bleve.write. rewrite Ho. simpl.
  destruct (bleve.faults ix) as [|[|] rest] eqn:Hfaults.
  - eexists. split; [done|]. split; [done|]. split; [done|]. by constructor.
  - by inversion Hf.
  - eexists. split; [done|]. split; [done|]. split; [done|].
    simpl. by inversion Hf.
Qed.

Lemma lowerASCII_no_upper (s : string) :
  golib.hasUpper s = false -> golib.lowerASCII s = s.
Proof.
  induction s as [|c s IH]; [done|]. simpl.
  intros [Hc Hs]%orb_false_iff. rewrite IH by done. f_equal.
  apply byteOf_inj. rewrite byteOf_lowerByte. by rewrite Hc.
Qed.

(** On a string of ASCII bytes [strings.ToLower] maps the letters A to Z to
    a to z and keeps every other byte, whatever the case tables are. *)
Lemma ToLower_ascii {U : golib.CaseTables} (s : string) :
  golib.isASCII s = true -> golib.ToLower s = golib.lowerASCII s.
Proof.
  intros Ha. unfold golib.ToLower. rewrite Ha.
  destruct (golib.hasUpper s) eqn:Hu; [done|].
  by rewrite lowerASCII_no_upper.
Qed.

Lemma fileDocument_fields {U : golib.CaseTables}
    (cfg : db.IndexConfig.t) (now : Z)
    (r : db.FileStatus.t) :
  let doc := db.fileDocument cfg now r in
  db.FileIndex.ID doc = golib.Sprintf_d (db.FileStatus.ID r) /\
  db.FileIndex.Path doc = db.FileStatus.Path r /\
  db.FileIndex.RelativePath doc = db.FileStatus.RelativePath r /\
  db.FileIndex.Name doc = golib.Base (db.FileStatus.Path r) /\
  db.FileIndex.Extension doc
  = golib.ToLower (golib.Ext (db.FileStatus.Path r)) /\
  db.FileIndex.Summary doc
  = (if db.IndexConfig.IndexSummaries cfg then db.FileStatus.Summary r
     else ""%string).
Proof.
  unfold db.fileDocument.
  destruct (db.IndexConfig.IndexSummaries cfg); simpl.
  - destruct (String.eqb_spec (db.FileStatus.Summary r) "") as [->|_];
      by repeat split.
  - by repeat split.
Qed.

(** C6, as stated, fails: a directory whose name has a dot gets an
    extension. *)
Lemma IndexFile_directory_extension_counterexample :
  db.FileStatus.IsDir dottedDir = true /\
  exists ix' doc,
    db.IndexFile (U:=sampleCase) sampleConfig 1700000000 (Some dottedDir) emptyIndex
    = (ix', None) /\
    bleve.docs ix' !! "5"%string = Some doc /\
    db.FileIndex.IsDir doc = true /\
    db.FileIndex.Extension doc = ".2020"%string.
Proof.
  split; [done|]. eexists _, _. split; [reflexivity|].
  split; [vm_compute; reflexivity|]. by split.
Qed.

(** C6, amended. On a healthy index, [IndexFile] of a non-nil record writes
    or replaces the document under the decimal string of the record's id and
    touches no other document.  The document's name is the base name of the
    path; its extension is the suffix from the last dot of the last path
    element, lower-cased by [strings.ToLower] (for a suffix of ASCII bytes:
    the letters A to Z mapped to a to z), empty when that element has no
    dot, and [IsDir] plays no part in it; its summary is non-empty exactly
    when summaries are enabled and the record has one. *)
Theorem IndexFile_writes_document {U : golib.CaseTables}
    (cfg : db.IndexConfig.t) (now : Z) (r : db.FileStatus.t)
    (ix : bleve.Index db.FileIndex.t) :
  healthy ix ->
  exists ix' doc,
    db.IndexFile cfg now (Some r) ix = (ix', None) /\
    bleve.docs ix'
    = <[golib.Sprintf_d (db.FileStatus.ID r) := doc]> (bleve.docs ix) /\
    db.FileIndex.ID doc = golib.Sprintf_d (db.FileStatus.ID r) /\
    db.FileIndex.Name doc = golib.Base (db.FileStatus.Path r) /\
    db.FileIndex.Extension doc
    = golib.ToLower (golib.Ext (db.FileStatus.Path r)) /\
    (forall pre suf,
       db.FileStatus.Path r = pre +:+ String "." suf -> plainName suf = true ->
       db.FileIndex.Extension doc = golib.ToLower (String "." suf)) /\
    (golib.isASCII (golib.Ext (db.FileStatus.Path r)) = true ->
     db.FileIndex.Extension doc
     = golib.lowerASCII (golib.Ext (db.FileStatus.Path r))) /\
    (forall dir name,
       db.FileStatus.Path r = dir +:+ name -> plainName name = true ->
       dir = ""%string \/ (exists dir', dir = dir' +:+ "/") ->
       db.FileIndex.Extension doc = ""%string) /\
    (db.FileIndex.Summary doc <> ""%string <->
     db.IndexConfig.IndexSummaries cfg = true /\
     db.FileStatus.Summary r <> ""%string) /\
    (db.FileIndex.Summary doc <> ""%string ->
     db.FileIndex.Summary doc = db.FileStatus.Summary r).
Proof.
  intros Hh. unfold db.IndexFile.
  destruct (fileDocument_fields cfg now r) as (Hid & _ & _ & Hname & Hext & Hsum).
  unfold bleve.Index_Index. rewrite Hid.
  destruct (String.eqb_spec (golib.Sprintf_d (db.FileStatus.ID r)) "")
    as [Hempty|_]; [by apply Sprintf_d_nonempty in Hempty|].
  destruct (write_healthy
              (fun m => <[golib.Sprintf_d (db.FileStatus.ID r) :=
                            db.fileDocument cfg now r]> m) ix Hh)
    as (ix' & Hw & Hdocs & _).
  exists ix', (db.fileDocument cfg now r).
  split; [exact Hw|]. split; [exact Hdocs|]. split; [exact Hid|].
  split; [exact Hname|]. split; [exact Hext|].
  split; [|split; [|split; [|split]]].
  - intros pre suf Hp Hs. by rewrite Hext, Hp, Ext_last_dot.
  - intros Ha. by rewrite Hext, ToLower_ascii.
  - intros dir name Hp Hn Hd. by rewrite Hext, Hp, Ext_no_dot.
  - rewrite Hsum. destruct (db.IndexConfig.IndexSummaries cfg);
      intuition congruence.
  - rewrite Hsum. by destruct (db.IndexConfig.IndexSummaries cfg).
Qed.

Lemma IndexFile_writes_document_witness :
  (exists ix' doc,
     db.IndexFile (U:=sampleCase) sampleConfig 1700000000 (Some pdfFile)
       emptyIndex = (ix', None) /\
     bleve.docs ix' = <["12"%string := doc]> (bleve.docs emptyIndex) /\
     db.FileIndex.Extension doc = ".pdf"%string) /\
  (exists ix' doc,
     db.IndexFile (U:=sampleCase) sampleConfig 1700000000 (Some photoFile)
       emptyIndex = (ix', None) /\
     bleve.docs ix' !! "13"%string = Some doc /\
     db.FileIndex.Extension doc = bytes [46; 106; 112; 195; 169; 103]).
Proof.
  assert (healthy emptyIndex) as Hh by (split; [done | constructor]).
  split.
  - destruct (IndexFile_writes_document (U:=sampleCase) sampleConfig
                1700000000 pdfFile emptyIndex Hh)
      as (ix' & doc & Hw & Hdocs & _ & _ & _ & _ & Hext & _).
    exists ix', doc. split; [exact Hw|]. split; [exact Hdocs|].
    by rewrite Hext.
  - destruct (IndexFile_writes_document (U:=sampleCase) sampleConfig
                1700000000 photoFile emptyIndex Hh)
      as (ix' & doc & Hw & Hdocs & _ & _ & Hext & _).
    exists ix', doc. split; [exact Hw|].
    split; [rewrite Hdocs; apply lookup_insert_eq|].
    rewrite Hext. by vm_compute.
Defined.

(** ** The index: rebuilding *)

Lemma write_result {D : Type} (f : gmap string D -> gmap string D)
    (ix ix' : bleve.Index D) (err : option error) :
  bleve.write f ix = (ix', err) ->
  match err with
  | Some e => bleve.docs ix' = bleve.docs ix /\ writeFailure e ix
  | None =>
      bleve.docs ix' = f (bleve.docs ix) /\
      forall e, writeFailure e ix' -> writeFailure e ix
  end.
Proof.
  unfold bleve.write, writeFailure.
  destruct (bleve.opened ix) eqn:Ho; simpl.
  - destruct (bleve.faults ix) as [|[|] rest] eqn:Hf; intros [= <- <-]; simpl.
    + split; [done|]. intros e [[_ ?]|[_ ?%elem_of_nil]]; done.
    + split; [done|]. right. split; [done | by left].
    + split; [done|]. intros e [[_ ?]|[-> Hin]]; [done|].
      right. split; [done | by right].
  - intros [= <- <-]. split; [done|]. by left.
Qed.

Lemma buildLoop_cons {U : golib.CaseTables}
    (cfg : db.IndexConfig.t) (now : nat -> Z) (r : Row)
    (rest : list Row) (ix : bleve.Index db.FileIndex.t)
    (batch : bleve.Batch db.FileIndex.t) (count : nat) :
  db.buildLoop cfg now (r :: rest) ix batch count
  = match db.scanRow r with
    | inl e => (ix, count, Some e)
    | inr file =>
        let doc := db.fileDocument cfg (now count) file in
        match bleve.Batch_Index (db.FileIndex.ID doc) doc batch with
        | (_, Some e) => (ix, count, Some e)
        | (batch1, None) =>
            if (S count mod db.batchSize =? 0)%nat then
              match bleve.Index_Batch batch1 ix with
              | (ix1, Some e) => (ix1, S count, Some e)
              | (ix1, None) =>
                  db.buildLoop cfg now rest ix1 bleve.NewBatch (S count)
              end
            else db.buildLoop cfg now rest ix batch1 (S count)
        end
    end.
Proof. reflexivity. Qed.

Lemma buildLoop_outcome {U : golib.CaseTables}
    (cfg : db.IndexConfig.t) (now : nat -> Z)
    (rows : list Row) :
  forall (ix : bleve.Index db.FileIndex.t) (batch : bleve.Batch db.FileIndex.t)
         (count : nat) ix' n err,
  db.buildLoop cfg now rows ix batch count = (ix', n, err) ->
  exists j : nat,
    n = (count + j)%nat /\ (j <= List.length rows)%nat /\
    (forall (i : nat) r, (i < j)%nat -> rows !! i = Some r ->
       exists f, db.scanRow r = inr f) /\
    match err with
    | None =>
        j = List.length rows /\
        bleve.docs ix' = applyRows cfg now count rows (batch ∪ bleve.docs ix)
    | Some e =>
        exists c : nat,
          (((exists r, rows !! j = Some r /\ db.scanRow r = inl e) /\
            c = (100 * (n / 100))%nat) \/
           (writeFailure e ix /\
            (j = 0%nat -> (0 < bleve.Batch_Size batch)%nat) /\
            c = (100 * ((n - 1) / 100))%nat)) /\
          bleve.docs ix'
          = (if (count <? c)%nat
             then applyRows cfg now count (take (c - count) rows)
                    (batch ∪ bleve.docs ix)
             else bleve.docs ix)
    end.
Proof.
  induction rows as [|r rest IH]; intros ix batch count ix' n err Hrun.
  - simpl in Hrun. exists 0%nat. split; [|split; [done|split; [intros; lia|]]].
    + destruct (0 <? _)%nat; [destruct (bleve.Index_Batch _ _) as [? [?|]]|];
        injection Hrun as <- <- <-; lia.
    + destruct (Nat.ltb_spec 0 (bleve.Batch_Size batch)) as [Hsz|Hsz].
      * destruct (bleve.Index_Batch batch ix) as [ix1 [e|]] eqn:Hw;
          injection Hrun as <- <- <-; apply write_result in Hw as [Hd Hf].
        -- exists (100 * ((count - 1) / 100))%nat. split; [right; done|].
           destruct (Nat.ltb_spec count (100 * ((count - 1) / 100))); [lia|done].
        -- done.
      * injection Hrun as <- <- <-. split; [done|].
        assert (batch = ∅) as ->
          by (apply map_size_empty_iff; unfold bleve.Batch_Size in Hsz; lia).
        by rewrite (left_id_L ∅ (∪)).
  - rewrite buildLoop_cons in Hrun.
    destruct (db.scanRow r) as [e|f] eqn:Hscan.
    { injection Hrun as <- <- <-. exists 0%nat.
      split; [lia|]. split; [lia|]. split; [intros; lia|].
      exists (100 * (count / 100))%nat. split.
      - left. split; [by exists r | done].
      - destruct (Nat.ltb_spec count (100 * (count / 100))); [lia|done]. }
    cbv zeta in Hrun. unfold bleve.Batch_Index in Hrun.
    destruct (fileDocument_fields cfg (now count) f) as (Hid & _).
    destruct (String.eqb_spec (db.FileIndex.ID (db.fileDocument cfg (now count) f)) "")
      as [Hempty|_].
    { rewrite Hid in Hempty. by apply Sprintf_d_nonempty in Hempty. }
    set (doc := db.fileDocument cfg (now count) f) in *.
    assert (forall c : nat, (S count <= c)%nat ->
              applyRows cfg now count (take (c - count) (r :: rest))
                (batch ∪ bleve.docs ix)
              = applyRows cfg now (S count) (take (c - S count) rest)
                  (<[db.FileIndex.ID doc := doc]> (batch ∪ bleve.docs ix)))
      as Hstep.
    { intros c Hc. replace (c - count)%nat with (S (c - S count)) by lia.
      simpl. by rewrite Hscan. }
    assert (forall (j0 : nat),
              (forall (i : nat) r0, (i < j0)%nat -> rest !! i = Some r0 ->
                 exists f0, db.scanRow r0 = inr f0) ->
              forall (i : nat) r0, (i < S j0)%nat -> (r :: rest) !! i = Some r0 ->
                 exists f0, db.scanRow r0 = inr f0) as Hprefix.
    { intros j0 Hj0 [|i] r0 Hi Hl; simpl in Hl.
      - injection Hl as <-. by exists f.
      - apply (Hj0 i); [lia|done]. }
    destruct (Nat.eqb_spec (S count mod db.batchSize) 0) as [Hfull|Hpart];
      unfold db.batchSize in *.
    + destruct (bleve.Index_Batch (<[db.FileIndex.ID doc := doc]> batch) ix)
        as [ix1 [e|]] eqn:Hw; apply write_result in Hw as [Hd Hf].
      * injection Hrun as <- <- <-. exists 1%nat.
        split; [lia|]. split; [simpl; lia|]. split; [by apply (Hprefix 0%nat); intros; lia|].
        exists (100 * ((S count - 1) / 100))%nat. split.
        -- right. split; [done|]. split; [lia|]. lia.
        -- destruct (Nat.ltb_spec count (100 * ((S count - 1) / 100))); [lia|done].
      * apply IH in Hrun as (j & -> & Hj & Hpre & Hres).
        exists (S j). split; [lia|]. split; [simpl; lia|].
        split; [by apply Hprefix|].
        assert (bleve.NewBatch ∪ bleve.docs ix1
                = <[db.FileIndex.ID doc := doc]> (batch ∪ bleve.docs ix)) as Hpend.
        { unfold bleve.NewBatch. rewrite (left_id_L ∅ (∪)), Hd.
          by rewrite insert_union_l. }
        rewrite Hpend in Hres.
        destruct err as [e|].
        -- destruct Hres as (c & Hc & Hdocs). exists c. split.
           ++ destruct Hc as [[(r0 & Hr0 & Hs0) ->]|(Hwf & Hj0 & ->)].
              ** left. split; [by exists r0|]. lia.
              ** right. split; [by apply Hf|]. split; [lia|].
                 lia.
           ++ assert (S count <= c)%nat as Hge.
              { destruct Hc as [[_ ->]|(_ & Hj0 & ->)]; [lia|].
                assert (j <> 0%nat).
                { intros ->. specialize (Hj0 eq_refl).
                  unfold bleve.NewBatch, bleve.Batch_Size in Hj0.
                  rewrite map_size_empty in Hj0. lia. }
                lia. }
              rewrite Hdocs.
              destruct (Nat.ltb_spec count c); [|lia].
              rewrite Hstep by done.
              destruct (Nat.ltb_spec (S count) c) as [|Hle]; [done|].
              replace (c - S count)%nat with 0%nat by lia. simpl.
              rewrite <- Hpend. unfold bleve.NewBatch.
              by rewrite (left_id_L ∅ (∪)).
        -- destruct Hres as [-> Hdocs]. split; [done|].
           rewrite Hdocs. simpl. by rewrite Hscan.
    + apply IH in Hrun as (j & -> & Hj & Hpre & Hres).
      exists (S j). split; [lia|]. split; [simpl; lia|].
      split; [by apply Hprefix|].
      rewrite <- insert_union_l in Hres.
      destruct err as [e|].
      * destruct Hres as (c & Hc & Hdocs). exists c. split.
        -- destruct Hc as [[(r0 & Hr0 & Hs0) ->]|(Hwf & Hj0 & ->)].
           ++ left. split; [by exists r0|]. lia.
           ++ right. split; [done|]. split; [lia|]. lia.
        -- assert (c <> S count) as Hne.
           { destruct Hc as [[_ ->]|(_ & _ & ->)]; lia. }
           rewrite Hdocs.
           destruct (Nat.ltb_spec (S count) c), (Nat.ltb_spec count c);
             try lia; [|done].
           by rewrite Hstep by lia.
      * destruct Hres as [-> Hdocs]. split; [done|].
        rewrite Hdocs. simpl. by rewrite Hscan.
Qed.

Lemma write_opened {D : Type} (f : gmap string D -> gmap string D)
    (ix ix' : bleve.Index D) (err : option error) :
  bleve.write f ix = (ix', err) -> bleve.opened ix' = bleve.opened ix.
Proof.
  unfold bleve.write. destruct (bleve.opened ix) eqn:Ho; simpl.
  - destruct (bleve.faults ix) as [|[|] rest]; by intros [= <- <-].
  - by intros [= <- <-].
Qed.

Lemma buildLoop_opened {U : golib.CaseTables}
    (cfg : db.IndexConfig.t) (now : nat -> Z)
    (rows : list Row) :
  forall (ix : bleve.Index db.FileIndex.t) (batch : bleve.Batch db.FileIndex.t)
         (count : nat) ix' n err,
  db.buildLoop cfg now rows ix batch count = (ix', n, err) ->
  bleve.opened ix' = bleve.opened ix.
Proof.
  induction rows as [|r rest IH]; intros ix batch count ix' n err Hrun.
  - simpl in Hrun. destruct (0 <? _)%nat; [|by injection Hrun as <- _ _].
    destruct (bleve.Index_Batch batch ix) as [ix1 [e|]] eqn:Hw;
      injection Hrun as <- _ _; by apply write_opened in Hw.
  - rewrite buildLoop_cons in Hrun.
    destruct (db.scanRow r) as [e|f]; [by injection Hrun as <- _ _|].
    cbv zeta in Hrun.
    destruct (bleve.Batch_Index _ _ batch) as [batch1 [e|]];
      [by injection Hrun as <- _ _|].
    destruct (_ =? _)%nat; [|by apply IH in Hrun].
    destruct (bleve.Index_Batch batch1 ix) as [ix1 [e|]] eqn:Hw;
      apply write_opened in Hw.
    + by injection Hrun as <- _ _.
    + apply IH in Hrun. congruence.
Qed.

Lemma applyRows_other {U : golib.CaseTables}
    (cfg : db.IndexConfig.t) (now : nat -> Z)
    (rows : list Row) (k : string) :
  (forall r, r ∈ rows -> k <> docKey r) ->
  forall n m, applyRows cfg now n rows m !! k = m !! k.
Proof.
  induction rows as [|r rest IH]; intros Hk n m; [done|]. simpl.
  destruct (db.scanRow r) as [e|f] eqn:Hscan; [done|].
  rewrite IH by (intros r' Hr'; apply Hk; by right).
  destruct (fileDocument_fields cfg (now n) f) as (-> & _).
  apply scanRow_Path in Hscan as [_ ->].
  apply lookup_insert_ne. intros Heq. by apply (Hk r); [left|].
Qed.

Lemma applyRows_dom {U : golib.CaseTables}
    (cfg : db.IndexConfig.t) (now : nat -> Z)
    (rows : list Row) :
  (forall r, r ∈ rows -> exists f, db.scanRow r = inr f) ->
  forall n m,
    dom (applyRows cfg now n rows m)
    = dom m ∪ (list_to_set (map docKey rows) : gset string).
Proof.
  induction rows as [|r rest IH]; intros Hscan n m; simpl.
  - by rewrite (right_id_L ∅ (∪)).
  - destruct (Hscan r) as [f Hf]; [by left|]. rewrite Hf.
    rewrite IH by (intros r' Hr'; apply Hscan; by right).
    rewrite dom_insert_L.
    destruct (fileDocument_fields cfg (now n) f) as (-> & _).
    apply scanRow_Path in Hf as [_ ->]. fold (docKey r).
    rewrite (comm_L (∪) {[docKey r]} (dom m)).
    by rewrite <- (assoc_L (∪)).
Qed.

Lemma applyRows_lookup {U : golib.CaseTables}
    (cfg : db.IndexConfig.t) (now : nat -> Z)
    (rows : list Row) :
  NoDup (map docKey rows) ->
  forall (i : nat) r f n m,
    rows !! i = Some r -> db.scanRow r = inr f ->
    (forall r', r' ∈ rows -> exists f', db.scanRow r' = inr f') ->
    applyRows cfg now n rows m !! docKey r
    = Some (db.fileDocument cfg (now (n + i)%nat) f).
Proof.
  induction rows as [|r0 rest IH]; intros Hnd i r f n m Hi Hf Hscan; [done|].
  apply NoDup_cons in Hnd as [Hr0 Hnd]. simpl.
  destruct i as [|i]; simpl in Hi.
  - injection Hi as ->. rewrite Hf, Nat.add_0_r.
    rewrite applyRows_other.
    + destruct (fileDocument_fields cfg (now n) f) as (-> & _).
      apply scanRow_Path in Hf as [_ ->]. apply lookup_insert_eq.
    + intros r' Hr' Heq. apply Hr0. rewrite Heq.
      apply list_elem_of_fmap. by exists r'.
  - destruct (Hscan r0) as [f0 ->]; [by left|].
    rewrite (IH Hnd i r f (S n)); [by rewrite Nat.add_succ_r| done | done |].
    intros r' Hr'. apply Hscan. by right.
Qed.

Lemma docKey_NoDup (rows : list Row) :
  NoDup (map id rows) -> NoDup (map docKey rows).
Proof.
  induction rows as [|r rest IH]; simpl; [constructor|].
  intros [Hr Hrest]%NoDup_cons. apply NoDup_cons. split; [|by apply IH].
  intros (r' & Heq & Hr')%list_elem_of_fmap. apply Hr.
  apply Sprintf_d_inj in Heq. rewrite Heq. apply list_elem_of_fmap.
  by exists r'.
Qed.

Lemma healthy_no_writeFailure {D : Type} (e : error) (ix : bleve.Index D) :
  healthy ix -> ~ writeFailure e ix.
Proof.
  intros [Ho Hf] [[_ Hc]|[_ Hin]]; [congruence|].
  rewrite Forall_forall in Hf. by specialize (Hf true Hin).
Qed.

(** C1, as stated, fails: the manifest has one record; the rebuild returns 1
    with no error, but the document of a record that is gone is still in the
    index, which counts 2. *)
Lemma BuildIndex_stale_document_counterexample :
  List.length (files oneRowDB) = 1%nat /\
  exists ix',
    db.BuildIndex (U:=sampleCase) sampleConfig tick oneRowDB staleIndex = (ix', 1%nat, None) /\
    db.GetDocumentCount ix' = inr 2%nat /\
    is_Some (bleve.docs ix' !! "99"%string) /\
    forall r, r ∈ files oneRowDB -> docKey r <> "99"%string.
Proof.
  split; [done|]. eexists. split; [vm_compute; reflexivity|].
  split; [vm_compute; reflexivity|]. split; [vm_compute; by eexists|].
  intros r Hr. cbn in Hr. by apply list_elem_of_singleton in Hr as ->.
Qed.

(** C1, amended. On a healthy index and a manifest of N records with
    distinct ids that all scan, [BuildIndex] returns N and no error.
    Afterwards every record has its document, and every document whose id is
    not in the manifest is still there as it was; so [GetDocumentCount] is N
    exactly when the index held no such document before (in particular when
    it was empty), and for N = 0 the index is returned as it was.  The
    document of a record is the one [IndexFile] derives from it. *)
Theorem BuildIndex_indexes_every_record {U : golib.CaseTables}
    (cfg : db.IndexConfig.t) (now : nat -> Z) (d : Database)
    (ix : bleve.Index db.FileIndex.t) :
  healthy ix ->
  NoDup (map id (files d)) ->
  (forall r, r ∈ files d -> exists f, db.scanRow r = inr f) ->
  exists ix',
    db.BuildIndex cfg now d ix = (ix', List.length (files d), None) /\
    (forall r, r ∈ files d ->
       exists f t, db.scanRow r = inr f /\
         bleve.docs ix' !! docKey r = Some (db.fileDocument cfg t f)) /\
    (forall k, (forall r, r ∈ files d -> k <> docKey r) ->
       bleve.docs ix' !! k = bleve.docs ix !! k) /\
    (db.GetDocumentCount ix' = inr (List.length (files d)) <->
     forall k, is_Some (bleve.docs ix !! k) ->
       exists r, r ∈ files d /\ k = docKey r) /\
    (files d = [] -> ix' = ix).
Proof.
  intros Hh Hnd Hscan. unfold db.BuildIndex.
  pose proof (merge_sort_Permutation idLe (files d)) as Hperm.
  fold orderById in Hperm.
  destruct (db.buildLoop cfg now (orderById (files d)) ix bleve.NewBatch 0)
    as [[ix' n] err] eqn:Hrun.
  pose proof (buildLoop_opened _ _ _ _ _ _ _ _ _ Hrun) as Hopen.
  pose proof Hrun as Hrun'. pose proof Hrun as Hrun0.
  apply buildLoop_outcome in Hrun' as (j & Hn & Hj & Hpre & Hres).
  assert (j = n) as -> by lia. clear Hn.
  assert (forall r, r ∈ orderById (files d) -> exists f, db.scanRow r = inr f)
    as Hscan'.
  { intros r Hr. apply Hscan. by rewrite <- Hperm. }
  destruct err as [e|].
  { exfalso. destruct Hres as (c & [[(r & Hr & Hs) _]|[Hwf _]] & _).
    - destruct (Hscan' r) as [f Hf]; [by eapply list_elem_of_lookup_2|].
      congruence.
    - by apply healthy_no_writeFailure in Hwf. }
  destruct Hres as [Hn Hdocs].
  assert (List.length (orderById (files d)) = List.length (files d)) as Hlen
    by (by rewrite Hperm).
  rewrite Hn, Hlen in Hrun. clear Hpre Hj.
  unfold bleve.NewBatch in Hdocs. rewrite (left_id_L ∅ (∪)) in Hdocs.
  assert (dom (bleve.docs ix')
          = dom (bleve.docs ix)
            ∪ (list_to_set (map docKey (files d)) : gset string)) as Hdom.
  { rewrite Hdocs, applyRows_dom by done. f_equal.
    apply list_to_set_perm_L. by rewrite Hperm. }
  exists ix'. split; [by rewrite Hn, Hlen|]. split; [|split; [|split]].
  - intros r Hr. destruct (Hscan r Hr) as [f Hf].
    assert (r ∈ orderById (files d)) as Hr' by (by rewrite Hperm).
    apply list_elem_of_lookup_1 in Hr' as [i Hi].
    exists f, (now (0 + i)%nat). split; [done|]. rewrite Hdocs.
    apply applyRows_lookup; [|done..].
    apply docKey_NoDup. by rewrite Hperm.
  - intros k Hk. rewrite Hdocs. apply applyRows_other.
    intros r Hr. apply Hk. by rewrite <- Hperm.
  - unfold db.GetDocumentCount, bleve.DocCount.
    destruct Hh as [Ho _]. rewrite Hopen, Ho.
    rewrite <- size_dom, Hdom.
    assert (base.size (list_to_set (map docKey (files d)) : gset string)
            = List.length (files d)) as Hsz.
    { rewrite size_list_to_set by (by apply docKey_NoDup).
      by rewrite length_map. }
    split.
    + intros [= Hcount] k Hk%elem_of_dom.
      destruct (decide (k ∈ (list_to_set (map docKey (files d)) : gset string)))
        as [Hin|Hout].
      { apply elem_of_list_to_set, list_elem_of_fmap in Hin as (r & -> & Hr).
        by exists r. }
      exfalso.
      assert (({[k]} : gset string) ∪ list_to_set (map docKey (files d))
              ⊆ dom (bleve.docs ix) ∪ list_to_set (map docKey (files d)))
        as Hsub.
      { apply union_mono_r. by apply singleton_subseteq_l. }
      apply subseteq_size in Hsub.
      rewrite size_union in Hsub by (by apply disjoint_singleton_l).
      rewrite size_singleton in Hsub. lia.
    + intros Hall. f_equal. rewrite <- Hsz. f_equal.
      apply (anti_symm (⊆)); [|apply union_subseteq_r].
      apply union_least; [|done].
      intros k Hk%elem_of_dom. destruct (Hall k Hk) as (r & Hr & ->).
      apply elem_of_list_to_set, list_elem_of_fmap. by exists r.
  - intros Hnil. rewrite Hnil in Hrun0. vm_compute in Hrun0.
    by injection Hrun0 as <-.
Qed.

Lemma BuildIndex_indexes_every_record_witness :
  exists ix',
    db.BuildIndex (U:=sampleCase) sampleConfig tick oneRowDB emptyIndex = (ix', 1%nat, None) /\
    db.GetDocumentCount ix' = inr 1%nat.
Proof.
  assert (healthy emptyIndex) as Hh by (split; [done | constructor]).
  assert (NoDup (map id (files oneRowDB))) as Hnd
    by (apply NoDup_singleton).
  assert (forall r, r ∈ files oneRowDB -> exists f, db.scanRow r = inr f)
    as Hscan.
  { intros r Hr. cbn in Hr. apply list_elem_of_singleton in Hr as ->.
    by eexists. }
  destruct (BuildIndex_indexes_every_record (U:=sampleCase) sampleConfig tick oneRowDB
              emptyIndex Hh Hnd Hscan) as (ix' & Hrun & _ & _ & Hcount & _).
  exists ix'. split; [exact Hrun|]. apply Hcount.
  intros k [doc Hk]. cbn in Hk. by rewrite lookup_empty in Hk.
Defined.




(** ** The index: removal and search *)

Lemma Search_unfold (E : bleve.Engine db.FileIndex.t)
    (request : db.SearchRequest.t) (ix : bleve.Index db.FileIndex.t) :
  db.Search E request ix
  = if negb (bleve.opened ix) then inl ErrIndexClosed
    else if effectiveLimit request + db.SearchRequest.Offset request + 1 <? 0
    then inl PanicOutOfRange
    else
      match bleve.matches db.fieldsOf E db.createIndexMapping
              (db.searchQuery request) with
      | None => inl ErrQuerySyntax
      | Some sel =>
          if db.SearchRequest.Offset request <? 0 then inl PanicOutOfRange
          else
            inr (map (resultOf E (db.searchQuery request))
                   (take (Z.to_nat (effectiveLimit request))
                      (drop (Z.to_nat (db.SearchRequest.Offset request))
                         (bleve.rank E
                            (bleve.SearchRequest.Sort
                               (db.searchRequest request))
                            (bleve.hitsOf sel ix)))))
      end.
Proof.
  unfold db.Search, bleve.Search.
  destruct (negb (bleve.opened ix)); [done|].
  change (bleve.SearchRequest.Q (db.searchRequest request))
    with (db.searchQuery request).
  change (bleve.SearchRequest.Size (db.searchRequest request))
    with (effectiveLimit request).
  change (bleve.SearchRequest.From (db.searchRequest request))
    with (db.SearchRequest.Offset request).
  destruct (_ <? 0); [done|].
  destruct (bleve.matches db.fieldsOf E db.createIndexMapping
              (db.searchQuery request)); [|done].
  destruct (_ <? 0); [done|].
  by rewrite map_map.
Qed.

(** The limit in force is positive, so a negative offset always ends in a
    panic once the query is built. *)
Lemma effectiveLimit_pos (request : db.SearchRequest.t) :
  0 < effectiveLimit request.
Proof.
  unfold effectiveLimit.
  destruct (Z.leb_spec (db.SearchRequest.Limit request) 0); lia.
Qed.

Lemma Search_page (E : bleve.Engine db.FileIndex.t)
    (request : db.SearchRequest.t) (ix : bleve.Index db.FileIndex.t)
    (sel : db.FileIndex.t -> bool) :
  bleve.opened ix = true ->
  bleve.matches db.fieldsOf E db.createIndexMapping (db.searchQuery request)
  = Some sel ->
  0 <= db.SearchRequest.Offset request ->
  db.Search E request ix
  = inr (map (resultOf E (db.searchQuery request))
           (take (Z.to_nat (effectiveLimit request))
              (drop (Z.to_nat (db.SearchRequest.Offset request))
                 (bleve.rank E
                    (bleve.SearchRequest.Sort (db.searchRequest request))
                    (bleve.hitsOf sel ix))))).
Proof.
  intros Ho Hsel Hoff. rewrite Search_unfold, Ho, Hsel. simpl.
  pose proof (effectiveLimit_pos request).
  destruct (Z.ltb_spec
              (effectiveLimit request + db.SearchRequest.Offset request + 1) 0);
    [lia|].
  by destruct (Z.ltb_spec (db.SearchRequest.Offset request) 0); [lia|].
Qed.

Lemma Search_panics (E : bleve.Engine db.FileIndex.t)
    (request : db.SearchRequest.t) (ix : bleve.Index db.FileIndex.t)
    (sel : db.FileIndex.t -> bool) :
  bleve.opened ix = true ->
  bleve.matches db.fieldsOf E db.createIndexMapping (db.searchQuery request)
  = Some sel ->
  db.SearchRequest.Offset request < 0 ->
  db.Search E request ix = inl PanicOutOfRange.
Proof.
  intros Ho Hsel Hoff. rewrite Search_unfold, Ho, Hsel. simpl.
  destruct (_ <? 0); [done|].
  by destruct (Z.ltb_spec (db.SearchRequest.Offset request) 0); [|lia].
Qed.

Lemma Search_results (E : bleve.Engine db.FileIndex.t)
    (request : db.SearchRequest.t) (ix : bleve.Index db.FileIndex.t)
    (results : list (db.SearchResult.t (bleve.float64 E))) :
  bleve.rankPermutes E ->
  db.Search E request ix = inr results ->
  exists sel,
    bleve.matches db.fieldsOf E db.createIndexMapping (db.searchQuery request)
    = Some sel /\
    forall res, res ∈ results ->
      bleve.docs ix !! db.SearchResult.ID res = Some (db.SearchResult.Metadata res) /\
      sel (db.SearchResult.Metadata res) = true.
Proof.
  intros Hrank. rewrite Search_unfold.
  destruct (negb (bleve.opened ix)); [done|].
  destruct (_ <? 0); [done|].
  destruct (bleve.matches db.fieldsOf E db.createIndexMapping
              (db.searchQuery request)) as [sel|]; [|done].
  destruct (_ <? 0); [done|].
  intros [= <-]. exists sel. split; [done|].
  intros res (kv & -> & Hkv)%list_elem_of_fmap.
  simpl.
  assert (kv ∈ bleve.hitsOf sel ix) as Hin.
  { rewrite <- (Hrank (bleve.SearchRequest.Sort (db.searchRequest request))).
    eapply subseteq_drop, subseteq_take, Hkv. }
  apply list_elem_of_filter in Hin as [Hsel Hin]. destruct kv as [k doc].
  by apply elem_of_map_to_list in Hin.
Qed.

(** C8. On a healthy index, [RemoveFile] returns no error whether or not a
    document with that id is indexed, and neither does a second call right
    after it; afterwards no search returns that document, and a search whose
    query selected that document alone returns nothing (with a negative
    offset it returns nothing at all: the call ends in a panic). *)
Theorem RemoveFile_idempotent
    (E : bleve.Engine db.FileIndex.t) (fileID : Z)
    (ix : bleve.Index db.FileIndex.t) :
  healthy ix ->
  bleve.rankPermutes E ->
  exists ix1 ix2,
    db.RemoveFile fileID ix = (ix1, None) /\
    db.RemoveFile fileID ix1 = (ix2, None) /\
    bleve.docs ix1 = delete (golib.Sprintf_d fileID) (bleve.docs ix) /\
    (bleve.docs ix !! golib.Sprintf_d fileID = None ->
     bleve.docs ix1 = bleve.docs ix) /\
    bleve.docs ix2 = bleve.docs ix1 /\
    forall request,
      (forall results, db.Search E request ix1 = inr results ->
         forall res, res ∈ results ->
           db.SearchResult.ID res <> golib.Sprintf_d fileID) /\
      (forall sel,
         bleve.matches db.fieldsOf E db.createIndexMapping
           (db.searchQuery request) = Some sel ->
         (forall k doc, bleve.docs ix !! k = Some doc -> sel doc = true ->
            k = golib.Sprintf_d fileID) ->
         (0 <= db.SearchRequest.Offset request ->
          db.Search E request ix1 = inr []) /\
         (db.SearchRequest.Offset request < 0 ->
          db.Search E request ix1 = inl PanicOutOfRange)).
Proof.
  intros Hh Hrank. unfold db.RemoveFile, bleve.Index_Delete.
  destruct (String.eqb_spec (golib.Sprintf_d fileID) "") as [Hempty|_];
    [by apply Sprintf_d_nonempty in Hempty|].
  destruct (write_healthy (fun m => delete (golib.Sprintf_d fileID) m) ix Hh)
    as (ix1 & Hw1 & Hd1 & Hh1).
  destruct (write_healthy (fun m => delete (golib.Sprintf_d fileID) m) ix1 Hh1)
    as (ix2 & Hw2 & Hd2 & _).
  exists ix1, ix2. split; [done|]. split; [done|]. split; [done|].
  split; [intros Hnone; by rewrite Hd1, delete_id|].
  split; [by rewrite Hd2, Hd1, delete_delete_eq|].
  intros request. split.
  - intros results Hs res Hres Hid.
    destruct (Search_results E request ix1 results Hrank Hs) as (sel & _ & Hall).
    destruct (Hall res Hres) as [Hlook _].
    by rewrite Hid, Hd1, lookup_delete_eq in Hlook.
  - intros sel Hsel Huniq. destruct Hh1 as [Hopen _]. split.
    + intros Hoff. rewrite (Search_page E request ix1 sel) by done.
      assert (bleve.hitsOf sel ix1 = []) as ->.
      { apply elem_of_nil_inv. intros [k doc] [Hs Hin]%list_elem_of_filter.
        apply elem_of_map_to_list in Hin. rewrite Hd1 in Hin.
        apply lookup_delete_Some in Hin as [Hne Hin].
        by destruct Hne; symmetry; apply (Huniq k doc). }
      match goal with
      | |- context [bleve.rank E ?sort []] =>
          pose proof (Hrank sort []) as ->%Permutation_nil_r
      end.
      by rewrite drop_nil, take_nil.
    + intros Hoff. by apply (Search_panics E request ix1 sel).
Qed.

Lemma RemoveFile_idempotent_witness :
  exists ix1 ix2,
    db.RemoveFile 12 invoiceIndex = (ix1, None) /\
    db.RemoveFile 12 ix1 = (ix2, None) /\
    db.Search sampleEngine (fieldRequest "Summary") ix1 = inr [].
Proof.
  assert (healthy invoiceIndex) as Hh by (split; [done | constructor]).
  assert (bleve.rankPermutes sampleEngine) as Hrank by (intros sort hits; done).
  destruct (RemoveFile_idempotent sampleEngine 12 invoiceIndex Hh Hrank)
    as (ix1 & ix2 & H1 & H2 & _ & _ & _ & Hsearch).
  exists ix1, ix2. split; [exact H1|]. split; [exact H2|].
  destruct (Hsearch (fieldRequest "Summary")) as [_ Hnone].
  eapply Hnone; [reflexivity | | done].
  intros k doc Hk _. cbn in Hk.
  apply lookup_singleton_Some in Hk as [<- _]. reflexivity.
Defined.

Lemma shareTerm_spec (qs ds : list string) :
  bleve.shareTerm qs ds = true <-> exists t, t ∈ qs /\ t ∈ ds.
Proof.
  unfold bleve.shareTerm. rewrite existsb_exists. split.
  - intros (t & Ht%list_elem_of_In & Hd%bool_decide_eq_true). by exists t.
  - intros (t & Ht & Hd). exists t.
    split; [by apply list_elem_of_In | by apply bool_decide_eq_true].
Qed.

Lemma matches_MatchQuery (E : bleve.Engine db.FileIndex.t)
    (text field : string) :
  field <> ""%string ->
  bleve.matches db.fieldsOf E db.createIndexMapping
    (bleve.MatchQuery text field)
  = Some (fun d => bleve.shareTerm (queryTerms E field text)
                     (bleve.fieldTerms db.fieldsOf E d field)).
Proof.
  intros Hf. unfold bleve.matches, queryTerms.
  destruct (String.eqb_spec field "") as [|_]; [done|].
  destruct (String.eqb_spec field "Extension") as [->|He]; [reflexivity|].
  destruct (String.eqb_spec field "ContentType") as [->|Hc]; [reflexivity|].
  unfold bleve.AnalyzerNameForPath, bleve.analyzerNameForPath.
  cbn -[String.eqb bleve.AnalyzerNamed bleve.shareTerm bleve.fieldTerms].
  repeat match goal with
         | |- context [String.eqb ?a field] =>
             destruct (String.eqb_spec a field) as [<-|?]; [done|]
         end.
  reflexivity.
Qed.

Lemma fieldTerms_text (E : bleve.Engine db.FileIndex.t)
    (name : string) (proj : db.FileIndex.t -> string) (doc : db.FileIndex.t) :
  (name, proj) ∈ textFields ->
  bleve.fieldTerms db.fieldsOf E doc name
  = bleve.indexedTerms E (bleve.TextValue (proj doc)).
Proof.
  unfold textFields. rewrite !elem_of_cons, elem_of_nil.
  intros [[= -> ->]|[[= -> ->]|[[= -> ->]|[[= -> ->]|[[= -> ->]|
          [[= -> ->]|[[= -> ->]|[[= -> ->]|[]]]]]]]]]; reflexivity.
Qed.

(** C7, as stated, fails for the field name [_all], the composite field
    of the default mapping: the document has no field of that name, the word
    of the query occurs in its summary only (no other text field gives a hit,
    the summary does), and yet the request on [_all] returns it. *)
Lemma Search_composite_field_counterexample :
  db.SearchRequest.Query (fieldRequest "_all") <> ""%string /\
  db.SearchRequest.FieldName (fieldRequest "_all") <> ""%string /\
  (forall kv, kv ∈ db.fieldsOf scanDoc -> kv.1 <> "_all"%string) /\
  (exists res,
     db.Search sampleEngine (fieldRequest "_all") scanIndex = inr [res] /\
     db.SearchResult.ID res = "7"%string) /\
  (exists res,
     db.Search sampleEngine (fieldRequest "Summary") scanIndex = inr [res]) /\
  (forall name proj,
     (name, proj) ∈ textFields -> name <> "Summary"%string ->
     db.Search sampleEngine (fieldRequest name) scanIndex = inr []).
Proof.
  split; [done|]. split; [done|]. split; [|split; [|split]].
  - apply Forall_forall. unfold db.fieldsOf.
    repeat (constructor; [done|]). constructor.
  - eexists. split; [vm_compute; reflexivity | reflexivity].
  - eexists. vm_compute. reflexivity.
  - intros name proj Hin Hname. unfold textFields in Hin.
    rewrite !elem_of_cons, elem_of_nil in Hin.
    destruct Hin as [[= -> ->]|[[= -> ->]|[[= -> ->]|[[= -> ->]|[[= -> ->]|
                     [[= -> ->]|[[= -> ->]|[[= -> ->]|[]]]]]]]]];
      try done; vm_compute; reflexivity.
Qed.

(** C7, amended. A request with a non-empty query text and a non-empty
    field name is turned into a match query on that one field of the index.
    The query text is taken whole for [Extension] and [ContentType] and is
    analysed by the standard analyser for every other field name; a document
    is selected exactly when one of these terms is among the terms the index
    holds for it under that field name.  For a text field of the document
    these are the terms of the value of that field, so documents that agree
    on that field are selected alike whatever their other fields hold; for
    [_all] they are the terms of all its fields.  Every result of [Search]
    is a stored document selected in this way. *)
Theorem Search_field_scoped
    (E : bleve.Engine db.FileIndex.t) (request : db.SearchRequest.t)
    (ix : bleve.Index db.FileIndex.t) :
  db.SearchRequest.Query request <> ""%string ->
  db.SearchRequest.FieldName request <> ""%string ->
  let field := db.SearchRequest.FieldName request in
  let text := db.SearchRequest.Query request in
  db.searchQuery request = bleve.MatchQuery text field /\
  exists sel,
    bleve.matches db.fieldsOf E db.createIndexMapping (db.searchQuery request)
    = Some sel /\
    (forall doc,
       sel doc = true <->
       exists t, t ∈ queryTerms E field text /\
                 t ∈ bleve.fieldTerms db.fieldsOf E doc field) /\
    (forall name proj,
       (name, proj) ∈ textFields -> field = name ->
       (forall doc,
          sel doc = true <->
          exists t, t ∈ queryTerms E field text /\
                    t ∈ bleve.indexedTerms E (bleve.TextValue (proj doc))) /\
       (forall doc doc', proj doc = proj doc' -> sel doc = sel doc')) /\
    (field = "_all"%string ->
     forall doc,
       sel doc = true <->
       exists t kv, t ∈ bleve.standard E text /\ kv ∈ db.fieldsOf doc /\
                    t ∈ bleve.indexedTerms E kv.2) /\
    (bleve.rankPermutes E ->
     forall results, db.Search E request ix = inr results ->
       forall res, res ∈ results ->
         bleve.docs ix !! db.SearchResult.ID res
         = Some (db.SearchResult.Metadata res) /\
         sel (db.SearchResult.Metadata res) = true).
Proof.
  intros Hq Hf field text.
  assert (db.searchQuery request = bleve.MatchQuery text field) as Hquery.
  { unfold db.searchQuery.
    destruct (String.eqb_spec (db.SearchRequest.Query request) ""); [done|].
    by destruct (String.eqb_spec (db.SearchRequest.FieldName request) ""). }
  split; [done|]. rewrite Hquery, matches_MatchQuery by done.
  eexists. split; [reflexivity|].
  assert (forall doc,
            bleve.shareTerm (queryTerms E field text)
              (bleve.fieldTerms db.fieldsOf E doc field) = true <->
            exists t, t ∈ queryTerms E field text /\
                      t ∈ bleve.fieldTerms db.fieldsOf E doc field) as Hsel.
  { intros doc. apply shareTerm_spec. }
  split; [exact Hsel|]. split; [|split].
  - intros name proj Hin Hname. split.
    + intros doc. rewrite Hsel, Hname. by rewrite (fieldTerms_text E name proj).
    + intros doc doc' Hsame. cbv beta.
      by rewrite Hname, !(fieldTerms_text E name proj), Hsame.
  - intros Hall doc. rewrite Hsel, Hall. unfold queryTerms, bleve.fieldTerms.
    cbn [String.eqb Ascii.eqb Bool.eqb orb andb]. split.
    + intros (t & Ht & Hin).
      apply list_elem_of_In, in_concat in Hin as (terms & Hterms & Hin).
      apply in_map_iff in Hterms as (kv & <- & Hkv).
      exists t, kv. split; [done|]. split; by apply list_elem_of_In.
    + intros (t & kv & Ht & Hkv & Hin). exists t. split; [done|].
      apply list_elem_of_In, in_concat. exists (bleve.indexedTerms E kv.2).
      split; [|by apply list_elem_of_In].
      apply in_map_iff. exists kv. split; [done | by apply list_elem_of_In].
  - intros Hrank results Hs res Hres.
    destruct (Search_results E request ix results Hrank Hs) as (sel & Hsel' & Hall).
    rewrite Hquery, matches_MatchQuery in Hsel' by done.
    injection Hsel' as <-. by apply Hall.
Qed.

Lemma Search_field_scoped_witness :
  db.searchQuery (fieldRequest "Summary") = bleve.MatchQuery "invoice" "Summary" /\
  db.searchQuery (fieldRequest "Extension")
  = bleve.MatchQuery "invoice" "Extension" /\
  (exists res, db.Search sampleEngine (fieldRequest "Summary") invoiceIndex
               = inr [res] /\ db.SearchResult.ID res = "12"%string) /\
  db.Search sampleEngine (fieldRequest "Extension") invoiceIndex = inr [] /\
  db.Search sampleEngine (extensionRequest ".pdf") invoiceIndex = inr [] /\
  (exists res, db.Search sampleEngine (extensionRequest "pdf") invoiceIndex
               = inr [res] /\ db.SearchResult.ID res = "12"%string).
Proof.
  split; [|split; [|split; [|split; [|split]]]].
  - apply (Search_field_scoped sampleEngine (fieldRequest "Summary")
             invoiceIndex); discriminate.
  - apply (Search_field_scoped sampleEngine (fieldRequest "Extension")
             invoiceIndex); discriminate.
  - eexists. split; [vm_compute; reflexivity | reflexivity].
  - vm_compute. reflexivity.
  - vm_compute. reflexivity.
  - eexists. split; [vm_compute; reflexivity | reflexivity].
Defined.

(** * Further properties of the manifest store *)

Lemma filter_unique_path (rows : list Row) (r : Row) :
  NoDup (map path rows) -> r ∈ rows ->
  filter (fun x => path x = path r) rows = [r].
Proof.
  induction rows as [|r0 rows IH]; [by intros _ ?%elem_of_nil|].
  simpl. intros [Hr0 Hnd]%NoDup_cons [->|Hin]%elem_of_cons.
  - rewrite filter_cons_True by done. f_equal.
    apply elem_of_nil_inv. intros x [Hx Hin]%list_elem_of_filter.
    apply Hr0. rewrite <- Hx. apply list_elem_of_fmap. by exists x.
  - rewrite filter_cons_False; [by apply IH|].
    intros Heq. apply Hr0. rewrite Heq. apply list_elem_of_fmap. by exists r.
Qed.

Lemma filter_no_path (rows : list Row) (p : string) :
  (forall r, r ∈ rows -> path r <> p) ->
  filter (fun x => path x = p) rows = [].
Proof.
  intros Hno. apply elem_of_nil_inv. intros x [Hx Hin]%list_elem_of_filter.
  by apply (Hno x).
Qed.

(** X1. [GetFileByPath] on a path that no record has is "not found", not an
    error; on a table with unique paths it scans the one record that has the
    path. *)
Theorem GetFileByPath_lookup (p : string) (d : Database) :
  ((forall r, r ∈ files d -> path r <> p) ->
   db.GetFileByPath p d = inr None) /\
  (forall r, NoDup (map path (files d)) -> r ∈ files d -> path r = p ->
     db.GetFileByPath p d
     = match db.scanRow r with
       | inl e => inl e
       | inr f => inr (Some f)
       end).
Proof.
  unfold db.GetFileByPath. split.
  - intros Hno. by rewrite filter_no_path.
  - intros r Hnd Hin <-. by rewrite filter_unique_path.
Qed.

(** X2. A record written by the scanner and then given a status reads back
    through [GetFileByPath] with the scanner's values, the id the insert
    handed out, and the status just set. *)
Theorem saveFileInfo_UpdateFileStatus_GetFileByPath
    (info : scan.FileInfo.t) (d d1 : Database)
    (now : Z) (p : bool) (url sm : string) :
  scan.saveFileInfo info d = (d1, None) ->
  db.GetFileByPath (scan.FileInfo.Path info)
    (db.UpdateFileStatus now (seq d1) p url sm d1).1
  = inr (Some
      {| db.FileStatus.ID := seq d1;
         db.FileStatus.Path := scan.FileInfo.Path info;
         db.FileStatus.RelativePath := scan.FileInfo.RelativePath info;
         db.FileStatus.Size := scan.FileInfo.Size info;
         db.FileStatus.ModTime := scan.FileInfo.ModTime info;
         db.FileStatus.IsDir := scan.FileInfo.IsDir info;
         db.FileStatus.ContentType := scan.FileInfo.ContentType info;
         db.FileStatus.SHA256 := scan.FileInfo.SHA256 info;
         db.FileStatus.Processed := p;
         db.FileStatus.UploadedURL := url;
         db.FileStatus.UploadTime := Some now;
         db.FileStatus.Summary := sm |}).
Proof.
  intros (rowid & _ & ->)%saveFileInfo_files.
  unfold db.GetFileByPath, db.UpdateFileStatus. simpl.
  rewrite map_app. simpl. rewrite Z.eqb_refl, filter_app.
  rewrite filter_no_path.
  - rewrite filter_cons_True by done. reflexivity.
  - intros r (r0 & -> & [Hne _]%list_elem_of_filter)%list_elem_of_fmap.
    by destruct (id r0 =? rowid).
Qed.

Lemma saveFileInfo_UpdateFileStatus_GetFileByPath_witness :
  exists f,
    db.GetFileByPath "/d/a.txt"
      (db.UpdateFileStatus 1700000001 2 true "https://b2/a.txt" "notes"
         (scan.saveFileInfo sampleInfo uploadedDB).1).1 = inr (Some f) /\
    db.FileStatus.ID f = 2 /\ db.FileStatus.Processed f = true.
Proof.
  eexists. split.
  - exact (saveFileInfo_UpdateFileStatus_GetFileByPath sampleInfo uploadedDB
             (scan.saveFileInfo sampleInfo uploadedDB).1
             1700000001 true "https://b2/a.txt" "notes" eq_refl).
  - split; reflexivity.
Defined.

(** X3. A record the scanner has just written cannot be read back: its
    [uploaded_url] is NULL, which [GetFileByPath] cannot scan into a string. *)
Theorem saveFileInfo_then_GetFileByPath_fails
    (info : scan.FileInfo.t) (d d1 : Database) :
  scan.saveFileInfo info d = (d1, None) ->
  db.GetFileByPath (scan.FileInfo.Path info) d1
  = inl (ErrScanNull "uploaded_url").
Proof.
  intros Hs. unfold db.GetFileByPath.
  by rewrite (saveFileInfo_one_row info d d1 Hs).
Qed.

Lemma saveFileInfo_then_GetFileByPath_fails_witness :
  db.GetFileByPath "/d/a.txt" (scan.saveFileInfo sampleInfo emptyDB).1
  = inl (ErrScanNull "uploaded_url").
Proof.
  exact (saveFileInfo_then_GetFileByPath_fails sampleInfo emptyDB
           (scan.saveFileInfo sampleInfo emptyDB).1 eq_refl).
Defined.

Lemma scanRow_error (r : Row) (e : error) :
  db.scanRow r = inl e -> exists col, e = ErrScanNull col.
Proof.
  unfold db.scanRow.
  destruct (content_type r); [|intros [= <-]; by eexists].
  destruct (sha256 r); [|intros [= <-]; by eexists].
  destruct (processed r); [|intros [= <-]; by eexists].
  destruct (uploaded_url r); [|intros [= <-]; by eexists].
  destruct (summary r); [done|intros [= <-]; by eexists].
Qed.

Lemma scanAll_fails (rows : list Row) (r : Row) (e : error) :
  r ∈ rows -> db.scanRow r = inl e ->
  exists col, db.scanAll rows = inl (ErrScanNull col).
Proof.
  induction rows as [|r0 rows IH]; [by intros ?%elem_of_nil|].
  intros Hin Hr. simpl.
  destruct (db.scanRow r0) as [e0|f0] eqn:Hr0.
  - apply scanRow_error in Hr0 as [col ->]. by exists col.
  - apply elem_of_cons in Hin as [->|Hin]; [congruence|].
    destruct (IH Hin Hr) as [col ->]. by exists col.
Qed.

(** X4. Once the scanner has written a record of a regular file, the
    work list cannot be read: [GetUnprocessedFiles] selects that record and
    fails on a NULL column, and so does [BuildIndex] on a healthy index. *)
Theorem saveFileInfo_then_queries_fail {U : golib.CaseTables}
    (info : scan.FileInfo.t) (d d1 : Database)
    (cfg : db.IndexConfig.t) (now : nat -> Z)
    (ix : bleve.Index db.FileIndex.t) :
  scan.saveFileInfo info d = (d1, None) ->
  scan.FileInfo.IsDir info = false ->
  healthy ix ->
  (exists col, db.GetUnprocessedFiles d1 = inl (ErrScanNull col)) /\
  (exists ix' n col,
     db.BuildIndex cfg now d1 ix = (ix', n, Some (ErrScanNull col)) /\
     (n < List.length (files d1))%nat).
Proof.
  intros Hs Hdir Hh.
  set (r := scan.newRow (seq d1) info).
  assert (r ∈ files d1) as Hin.
  { pose proof (saveFileInfo_one_row info d d1 Hs) as Hone.
    assert (r ∈ filter (fun r => path r = scan.FileInfo.Path info) (files d1))
      as Hr by (rewrite Hone; by left).
    by apply list_elem_of_filter in Hr as [_ ?]. }
  assert (db.scanRow r = inl (ErrScanNull "uploaded_url")) as Hr by done.
  split.
  - unfold db.GetUnprocessedFiles.
    apply (scanAll_fails _ r (ErrScanNull "uploaded_url")); [|done].
    unfold orderByPath. rewrite merge_sort_Permutation.
    apply list_elem_of_filter. split; [|done].
    unfold db.isUnprocessed, db.notDir. simpl. by rewrite Hdir.
  - pose proof (merge_sort_Permutation idLe (files d1)) as Hperm.
    fold orderById in Hperm. unfold db.BuildIndex.
    destruct (db.buildLoop cfg now (orderById (files d1)) ix bleve.NewBatch 0)
      as [[ix' n] err] eqn:Hrun.
    apply buildLoop_outcome in Hrun as (j & Hn & Hj & Hpre & Hres).
    assert (j = n) as -> by lia. clear Hn.
    assert (r ∈ orderById (files d1)) as Hin' by (by rewrite Hperm).
    apply list_elem_of_lookup_1 in Hin' as [i Hi].
    assert (i < List.length (orderById (files d1)))%nat as Hlt
      by (by eapply lookup_lt_Some).
    assert (~ (i < n)%nat) as Hni.
    { intros Hlt'. destruct (Hpre i r Hlt' Hi) as [f Hf]. congruence. }
    destruct err as [e|].
    + destruct Hres as (c & [[(r' & Hr' & Hs') _]|[Hwf _]] & _).
      * apply scanRow_error in Hs' as [col ->]. exists ix', n, col.
        split; [done|]. rewrite <- Hperm. by eapply lookup_lt_Some.
      * by apply healthy_no_writeFailure in Hwf.
    + destruct Hres as [-> _]. lia.
Qed.

Lemma saveFileInfo_then_queries_fail_witness :
  exists col,
    db.GetUnprocessedFiles (scan.saveFileInfo sampleInfo emptyDB).1
    = inl (ErrScanNull col).
Proof.
  assert (healthy emptyIndex) as Hh by (split; [done | constructor]).
  exact (proj1 (saveFileInfo_then_queries_fail (U:=sampleCase) sampleInfo emptyDB
                  (scan.saveFileInfo sampleInfo emptyDB).1 sampleConfig tick
                  emptyIndex eq_refl eq_refl Hh)).
Defined.

Lemma scanRow_status (r : Row) (f : db.FileStatus.t) :
  db.scanRow r = inr f ->
  processed r = Some (db.FileStatus.Processed f) /\
  is_dir r = db.FileStatus.IsDir f /\
  content_type r = Some (db.FileStatus.ContentType f).
Proof.
  unfold db.scanRow.
  destruct (content_type r), (sha256 r), (processed r), (uploaded_url r),
    (summary r); try discriminate.
  by intros [= <-].
Qed.

Lemma sorted_scan (rows : list Row) (fs : list db.FileStatus.t) :
  db.scanAll (orderByPath rows) = inr fs ->
  Forall2 (fun r f => db.scanRow r = inr f) (orderByPath rows) fs /\
  StronglySorted String.le (map db.FileStatus.Path fs) /\
  (forall r, r ∈ orderByPath rows <-> r ∈ rows).
Proof.
  intros Hfs%scanAll_Forall2. split; [done|]. split.
  - rewrite (Forall2_scan_paths _ _ Hfs).
    apply (StronglySorted_fmap path pathLe String.le); [done|].
    apply StronglySorted_merge_sort; apply _.
  - intros r. unfold orderByPath. by rewrite merge_sort_Permutation.
Qed.

Lemma GetUnprocessedFiles_rows (d : Database)
    (fs : list db.FileStatus.t) :
  db.GetUnprocessedFiles d = inr fs ->
  StronglySorted String.le (map db.FileStatus.Path fs) /\
  (forall f, f ∈ fs ->
     db.FileStatus.Processed f = false /\ db.FileStatus.IsDir f = false) /\
  exists rows,
    Forall2 (fun r f => db.scanRow r = inr f) rows fs /\
    forall r, r ∈ rows <->
      r ∈ files d /\ processed r = Some false /\ is_dir r = false.
Proof.
  unfold db.GetUnprocessedFiles. intros (Hscan & Hsorted & Hmem)%sorted_scan.
  assert (forall r,
            r ∈ orderByPath
                  (filter (fun r => db.isUnprocessed r && db.notDir r = true)
                          (files d))
            <-> r ∈ files d /\ processed r = Some false /\ is_dir r = false)
    as Hrows.
  { intros r. rewrite Hmem, list_elem_of_filter, andb_true_iff.
    unfold db.isUnprocessed, db.notDir.
    destruct (processed r) as [[|]|], (is_dir r); simpl; intuition congruence. }
  split; [done|]. split; [|by eexists].
  intros f Hf.
  apply list_elem_of_lookup_1 in Hf as [i Hi].
  destruct (Forall2_lookup_r _ _ _ _ _ Hscan Hi) as (r & Hr & Hrf).
  apply list_elem_of_lookup_2, Hrows in Hr as (_ & Hp & Hd).
  apply scanRow_status in Hrf as (Hp' & Hd' & _). split; congruence.
Qed.

(** X5. When [GetUnprocessedFiles] returns a list, it is in ascending order
    of path and holds exactly the scanned records that are not directories
    and whose [processed] is FALSE (a NULL [processed] does not count). *)
Theorem GetUnprocessedFiles_lists_work (d : Database)
    (fs : list db.FileStatus.t) :
  db.GetUnprocessedFiles d = inr fs ->
  StronglySorted String.le (map db.FileStatus.Path fs) /\
  (forall f, f ∈ fs ->
     db.FileStatus.Processed f = false /\ db.FileStatus.IsDir f = false) /\
  exists rows,
    Forall2 (fun r f => db.scanRow r = inr f) rows fs /\
    forall r, r ∈ rows <->
      r ∈ files d /\ processed r = Some false /\ is_dir r = false.
Proof. apply GetUnprocessedFiles_rows. Qed.

Lemma GetUnprocessedFiles_lists_work_witness :
  exists fs,
    db.GetUnprocessedFiles workDB = inr fs /\
    map db.FileStatus.Path fs = ["/w/a.txt"; "/w/b.txt"]%string /\
    StronglySorted String.le (map db.FileStatus.Path fs).
Proof.
  eexists. split; [vm_compute; reflexivity|]. split; [reflexivity|].
  refine (proj1 (GetUnprocessedFiles_lists_work workDB _ _)).
  vm_compute. reflexivity.
Defined.

(** X6. After [UpdateFileStatus] has marked an id as processed, no record
    with that id is in the list of [GetUnprocessedFiles]. *)
Theorem UpdateFileStatus_leaves_work_list
    (now fileID : Z) (url sm : string) (d : Database)
    (fs : list db.FileStatus.t) :
  db.GetUnprocessedFiles (db.UpdateFileStatus now fileID true url sm d).1
  = inr fs ->
  forall f, f ∈ fs -> db.FileStatus.ID f <> fileID.
Proof.
  intros (_ & _ & rows & Hscan & Hrows)%GetUnprocessedFiles_rows f Hf Hid.
  apply list_elem_of_lookup_1 in Hf as [i Hi].
  destruct (Forall2_lookup_r _ _ _ _ _ Hscan Hi) as (r & Hr & Hrf).
  apply list_elem_of_lookup_2, Hrows in Hr as (Hin & Hp & _).
  apply scanRow_Path in Hrf as [_ Hidr]. simpl in Hin.
  apply list_elem_of_fmap in Hin as (r0 & -> & _).
  destruct (Z.eqb_spec (id r0) fileID) as [_|Hne]; [done|]. congruence.
Qed.

Lemma UpdateFileStatus_leaves_work_list_witness :
  exists f,
    db.GetUnprocessedFiles
      (db.UpdateFileStatus 1700000001 1 true "https://b2/b.txt" "" workDB).1
    = inr [f] /\
    db.FileStatus.ID f <> 1.
Proof.
  eexists. split; [vm_compute; reflexivity|].
  apply (UpdateFileStatus_leaves_work_list 1700000001 1 "https://b2/b.txt" ""
           workDB _ eq_refl).
  by left.
Defined.

Lemma GetFilesByType_rows (typePrefix : string) (d : Database) :
  Z.of_nat (String.length (typePrefix +:+ "%")) <= 50000 ->
  db.GetFilesByType typePrefix d
  = db.scanAll
      (orderByPath
         (filter (fun r => match content_type r with
                           | Some ct =>
                               patternMatches (typePrefix +:+ "%") ct
                               && db.notDir r
                           | None => false
                           end = true)
                 (files d))).
Proof.
  intros Hlen. unfold db.GetFilesByType.
  rewrite (selectWhere_filter _
             (fun r => match content_type r with
                       | Some ct =>
                           patternMatches (typePrefix +:+ "%") ct
                           && db.notDir r
                       | None => false
                       end)); [done|].
  intros r _. unfold db.hasTypePrefix. rewrite likeFunc_short by done.
  destruct (content_type r) as [ct|]; simpl; [|by eexists].
  destruct (patternMatches (typePrefix +:+ "%") ct); simpl.
  - eexists. split; [done|]. split; [by intros [= ->] | by intros ->].
  - by eexists.
Qed.

(** X7. For a prefix without wildcard and zero byte and of less than 50000
    bytes, the list of [GetFilesByType], when it is returned, is in
    ascending order of path and holds exactly the scanned records that are
    not directories and whose content type is not NULL and starts with the
    prefix as LIKE reads it, which for an ASCII prefix is: byte by byte, up
    to ASCII letter case. *)
Theorem GetFilesByType_lists_prefix (typePrefix : string) (d : Database)
    (fs : list db.FileStatus.t) :
  hasWildcard typePrefix = false ->
  hasZero typePrefix = false ->
  Z.of_nat (String.length typePrefix) < 50000 ->
  db.GetFilesByType typePrefix d = inr fs ->
  StronglySorted String.le (map db.FileStatus.Path fs) /\
  (exists rows,
     Forall2 (fun r f => db.scanRow r = inr f) rows fs /\
     forall r, r ∈ rows <->
       r ∈ files d /\ is_dir r = false /\
       exists ct, content_type r = Some ct /\ startsWithFold typePrefix ct) /\
  (golib.isASCII typePrefix = true ->
   forall ct, startsWithFold typePrefix ct
              <-> startsWithFoldBytes typePrefix ct).
Proof.
  intros Hw Hz Hlen. rewrite GetFilesByType_rows
    by (rewrite length_app_string; simpl; lia).
  intros (Hscan & Hsorted & Hmem)%sorted_scan.
  split; [done|]. split.
  - eexists. split; [exact Hscan|].
    intros r. rewrite Hmem, list_elem_of_filter. unfold db.notDir.
    destruct (content_type r) as [ct|].
    + rewrite andb_true_iff, (patternMatches_prefix typePrefix ct Hw Hz),
        negb_true_iff.
      split.
      * intros [[Hpre Hd] Hin]. split; [done|]. split; [done|]. by exists ct.
      * intros (Hin & Hd & ct' & [= <-] & Hpre). done.
    + split; [by intros [? _]|]. by intros (_ & _ & ct & ? & _).
  - intros Ha ct. by apply startsWithFold_ascii.
Qed.

Lemma GetFilesByType_lists_prefix_witness :
  exists fs, db.GetFilesByType "TEXT/" lowerCaseDB = inr fs /\
             StronglySorted String.le (map db.FileStatus.Path fs) /\
             List.length fs = 2%nat.
Proof.
  eexists. split; [vm_compute; reflexivity|]. split; [|reflexivity].
  refine (proj1 (GetFilesByType_lists_prefix "TEXT/" lowerCaseDB _
                   eq_refl eq_refl _ _)); [by vm_compute|].
  vm_compute. reflexivity.
Defined.

Lemma sumFrom_in_range (rows : list Row) :
  forall acc,
    0 <= acc -> (forall r, r ∈ rows -> 0 <= size r) ->
    acc + totalSizeOf rows <= maxInt64 ->
    sumFrom acc rows = inr (acc + totalSizeOf rows).
Proof.
  induction rows as [|r rows IH]; intros acc Hacc Hpos Hmax; simpl in *.
  - by rewrite Z.add_0_r.
  - assert (0 <= size r) as Hr by (apply Hpos; by left).
    assert (0 <= totalSizeOf rows) as Hrest.
    { clear -Hpos. induction rows as [|r0 rows IH]; simpl; [done|].
      assert (0 <= size r0) by (apply Hpos; right; by left).
      assert (0 <= totalSizeOf rows); [|lia].
      apply IH. intros x [->|Hx]%elem_of_cons; apply Hpos;
        [by left | right; by right]. }
    unfold minInt64, maxInt64 in *.
    destruct (Z.ltb_spec (acc + size r) (-9223372036854775808)); [lia|].
    destruct (Z.ltb_spec 9223372036854775807 (acc + size r)); [lia|].
    simpl. rewrite IH; [f_equal; lia | lia | | lia].
    intros x Hx. apply Hpos. by right.
Qed.

Lemma count_split (rows : list Row) :
  count (filter (fun r => db.notDir r = true) rows)
  + count (filter (fun r => is_dir r = true) rows)
  = count rows.
Proof.
  unfold count, db.notDir. induction rows as [|r rows IH]; [done|].
  destruct (is_dir r) eqn:Hd.
  - rewrite (filter_cons_False _ r) by (by rewrite Hd).
    rewrite (filter_cons_True _ r) by done. simpl in *. lia.
  - rewrite (filter_cons_True _ r) by (by rewrite Hd).
    rewrite (filter_cons_False _ r) by (by rewrite Hd). simpl in *. lia.
Qed.

Lemma count_processed_le (rows : list Row) :
  count (filter (fun r => db.isProcessed r && db.notDir r = true) rows)
  <= count (filter (fun r => db.notDir r = true) rows).
Proof.
  unfold count. induction rows as [|r rows IH]; [done|].
  destruct (db.notDir r) eqn:Hd.
  - rewrite (filter_cons_True (fun r => db.notDir r = true) r) by done.
    destruct (db.isProcessed r) eqn:Hp.
    + rewrite filter_cons_True by (by rewrite Hp, Hd). simpl in *. lia.
    + rewrite filter_cons_False by (by rewrite Hp). simpl in *. lia.
  - rewrite (filter_cons_False (fun r => db.notDir r = true) r)
      by (by rewrite Hd).
    rewrite filter_cons_False; [done|].
    rewrite Hd. by destruct (db.isProcessed r).
Qed.

(** X8. When the manifest has a record that is not a directory, the sizes of
    such records are not negative and their total fits an int64, [GetStats]
    returns the four statistics: files and directories add up to the number
    of records, the processed files are no more than the files, and the total
    size is the sum over the files. *)
Theorem GetStats_totals (d : Database) :
  (exists r, r ∈ files d /\ is_dir r = false) ->
  (forall r, r ∈ files d -> is_dir r = false -> 0 <= size r) ->
  totalSizeOf (filter (fun r => db.notDir r = true) (files d)) <= maxInt64 ->
  exists stats nf nd np,
    db.GetStats d = inr stats /\
    stats !! "totalFiles"%string = Some nf /\
    stats !! "totalDirs"%string = Some nd /\
    stats !! "processedFiles"%string = Some np /\
    stats !! "totalSize"%string
    = Some (totalSizeOf (filter (fun r => db.notDir r = true) (files d))) /\
    nf + nd = Z.of_nat (List.length (files d)) /\
    0 < nf /\ 0 <= np <= nf.
Proof.
  intros (r0 & Hr0 & Hd0) Hpos Hmax. unfold db.GetStats.
  set (fileRows := filter (fun r => db.notDir r = true) (files d)) in *.
  assert (r0 ∈ fileRows) as Hin.
  { apply list_elem_of_filter. split; [|done]. unfold db.notDir. by rewrite Hd0. }
  assert (sumFrom 0 fileRows = inr (totalSizeOf fileRows)) as Hsum.
  { rewrite sumFrom_in_range; [done|done| |lia].
    intros r [Hnd Hr]%list_elem_of_filter. apply Hpos; [done|].
    unfold db.notDir in Hnd. by destruct (is_dir r). }
  unfold sumSize. rewrite Hsum.
  destruct fileRows as [|r1 rest] eqn:Hrows; [by apply elem_of_nil in Hin|].
  rewrite <- Hrows. simpl.
  eexists _, _, _, _. split; [reflexivity|].
  split; [by rewrite !lookup_insert_ne, lookup_insert_eq by done|].
  split; [by rewrite !lookup_insert_ne, lookup_insert_eq by done|].
  split; [by rewrite !lookup_insert_ne, lookup_insert_eq by done|].
  split; [by rewrite lookup_insert_eq|].
  split; [apply count_split|]. split.
  - subst fileRows. rewrite Hrows. unfold count. simpl. lia.
  - split; [unfold count; lia | apply count_processed_le].
Qed.

Lemma GetStats_totals_witness :
  exists stats,
    db.GetStats workDB = inr stats /\
    stats !! "totalFiles"%string = Some 2 /\
    stats !! "totalSize"%string = Some 20.
Proof.
  assert (exists r, r ∈ files workDB /\ is_dir r = false) as H1
    by (eexists; split; [by left|done]).
  assert (forall r, r ∈ files workDB -> is_dir r = false -> 0 <= size r) as H2.
  { intros r Hr _. cbn in Hr.
    apply elem_of_cons in Hr as [->|Hr]; [done|].
    by apply list_elem_of_singleton in Hr as ->. }
  assert (totalSizeOf (filter (fun r => db.notDir r = true) (files workDB))
          <= maxInt64) as H3 by (vm_compute; discriminate).
  destruct (GetStats_totals workDB H1 H2 H3)
    as (stats & nf & nd & np & Hs & _).
  exists stats. split; [exact Hs|].
  assert (stats = <["totalSize"%string := 20]>
                    (<["processedFiles"%string := 0]>
                       (<["totalDirs"%string := 0]>
                          (<["totalFiles"%string := 2]> ∅)))) as ->.
  { vm_compute in Hs. by injection Hs as <-. }
  split; reflexivity.
Defined.

(** X9. The table invariant (unique paths, unique ids, no id above the
    AUTOINCREMENT counter) is kept by [saveFileInfo] and by
    [UpdateFileStatus], whatever they are called with. *)
Theorem wfTable_preserved (d : Database) :
  wfTable d ->
  (forall info, wfTable (scan.saveFileInfo info d).1) /\
  (forall now fileID p url sm,
     wfTable (db.UpdateFileStatus now fileID p url sm d).1).
Proof.
  intros (Hpaths & Hids & Hseq). split.
  - intros info. unfold scan.saveFileInfo.
    destruct (nextRowid d) as [e|rowid] eqn:Hnext; [done|].
    apply nextRowid_fresh in Hnext as [Hlt Hfresh]. unfold wfTable. simpl.
    split; [|split].
    + rewrite map_app. apply NoDup_app. split; [|split].
      * eapply sublist_NoDup; [exact Hpaths|].
        apply fmap_sublist, sublist_filter.
      * intros p (r & -> & [Hne _]%list_elem_of_filter)%list_elem_of_fmap Hin.
        simpl in Hin. by apply list_elem_of_singleton in Hin.
      * apply NoDup_singleton.
    + rewrite map_app. apply NoDup_app. split; [|split].
      * eapply sublist_NoDup; [exact Hids|].
        apply fmap_sublist, sublist_filter.
      * intros i (r & -> & [_ Hr]%list_elem_of_filter)%list_elem_of_fmap Hin.
        simpl in Hin. apply list_elem_of_singleton in Hin.
        specialize (Hfresh r Hr). lia.
      * apply NoDup_singleton.
    + intros r [[_ Hr]%list_elem_of_filter|Hr]%elem_of_app.
      * specialize (Hfresh r Hr). lia.
      * apply list_elem_of_singleton in Hr as ->. simpl. lia.
  - intros now fileID p url sm. unfold db.UpdateFileStatus, wfTable. simpl.
    assert (forall g : Row -> string,
              (forall r, g (db.setStatus now p url sm r) = g r) ->
              map g (map (fun r => if id r =? fileID
                                   then db.setStatus now p url sm r else r)
                         (files d)) = map g (files d)) as Hs.
    { intros g Hg. rewrite map_map. apply map_ext.
      intros r. by destruct (id r =? fileID). }
    assert (forall g : Row -> Z,
              (forall r, g (db.setStatus now p url sm r) = g r) ->
              map g (map (fun r => if id r =? fileID
                                   then db.setStatus now p url sm r else r)
                         (files d)) = map g (files d)) as Hz.
    { intros g Hg. rewrite map_map. apply map_ext.
      intros r. by destruct (id r =? fileID). }
    rewrite Hs, Hz by done. split; [done|]. split; [done|].
    intros r (r0 & -> & Hr0)%list_elem_of_fmap.
    specialize (Hseq r0 Hr0). by destruct (id r0 =? fileID).
Qed.

Lemma wfTable_preserved_witness :
  wfTable (scan.saveFileInfo sampleInfo uploadedDB).1 /\
  wfTable (db.UpdateFileStatus 1700000001 1 true "u" "s" uploadedDB).1.
Proof.
  assert (wfTable uploadedDB) as Hwf.
  { split; [apply NoDup_singleton|]. split; [apply NoDup_singleton|].
    intros r Hr. cbn in Hr. by apply list_elem_of_singleton in Hr as ->. }
  split; by apply (wfTable_preserved uploadedDB Hwf).
Defined.

(** * Further properties of the scanner *)

Lemma noSlash_get (s : string) (i : nat) (c : ascii) :
  noSlash s = true -> String.get i s = Some c ->
  golib.isPathSeparator c = false.
Proof.
  revert i. induction s as [|a s IH]; intros i Hp Hg; [done|].
  simpl in Hp. apply andb_true_iff in Hp as [Ha Hs].
  destruct i as [|i]; simpl in Hg.
  - injection Hg as <-. by apply negb_true_iff.
  - by apply (IH i).
Qed.

Lemma substring_all (s : string) : substring 0 (String.length s) s = s.
Proof. induction s as [|c s IH]; simpl; [done | by rewrite IH]. Qed.

Lemma lastElem_skips (pre name : string) (n : nat) :
  noSlash name = true -> (n <= String.length name)%nat ->
  golib.lastElem (pre +:+ name) (String.length pre + n)
  = golib.lastElem (pre +:+ name) (String.length pre).
Proof.
  intros Hp. induction n as [|n IH]; intros Hn.
  - by rewrite Nat.add_0_r.
  - rewrite Nat.add_succ_r. simpl. rewrite get_after_prefix.
    destruct (String.get n name) as [c|] eqn:Hg.
    + rewrite (noSlash_get name n c Hp Hg). apply IH. lia.
    + exfalso. by apply (get_in_range name n).
Qed.

(** [Base] of a path is its last element. *)
Lemma Base_last_element (pre name : string) :
  name <> ""%string -> noSlash name = true ->
  pre = ""%string \/ (exists pre', pre = pre' +:+ "/") ->
  golib.Base (pre +:+ name) = name.
Proof.
  intros Hne Hns Hpre. unfold golib.Base.
  assert (pre +:+ name <> ""%string) as Hpath.
  { destruct pre; [done|]. by rewrite string_app_cons. }
  destruct (String.eqb_spec (pre +:+ name) "") as [|_]; [done|].
  assert (golib.stripSlashes (pre +:+ name) (String.length (pre +:+ name))
          = String.length (pre +:+ name)) as ->.
  { rewrite length_app_string.
    destruct (String.length name) as [|k] eqn:Hk.
    { destruct name; [done | discriminate]. }
    rewrite Nat.add_succ_r. simpl. rewrite get_after_prefix.
    destruct (String.get k name) as [c|] eqn:Hg.
    - by rewrite (noSlash_get name k c Hns Hg).
    - exfalso. apply (get_in_range name k); [lia | done]. }
  rewrite substring_all, length_app_string.
  rewrite lastElem_skips by (done || lia).
  assert (golib.lastElem (pre +:+ name) (String.length pre) = String.length pre)
    as ->.
  { destruct Hpre as [->|[pre' ->]]; [done|].
    rewrite length_app_string. simpl. rewrite Nat.add_1_r. simpl.
    rewrite string_app_assoc.
    pose proof (get_after_prefix pre' ("/" +:+ name) 0) as Hg.
    rewrite Nat.add_0_r in Hg. by rewrite Hg. }
  replace (String.length pre + String.length name - String.length pre)%nat
    with (String.length name) by lia.
  rewrite substring_from_length.
  by destruct (String.eqb_spec name "").
Qed.

(** X10. The document derived from a record is named after the last element
    of the record's path. *)
Theorem fileDocument_name_is_last_element {U : golib.CaseTables}
    (cfg : db.IndexConfig.t) (now : Z) (f : db.FileStatus.t)
    (pre name : string) :
  db.FileStatus.Path f = pre +:+ name ->
  name <> ""%string -> noSlash name = true ->
  pre = ""%string \/ (exists pre', pre = pre' +:+ "/") ->
  db.FileIndex.Name (db.fileDocument cfg now f) = name.
Proof.
  intros Hp Hne Hns Hpre.
  destruct (fileDocument_fields cfg now f) as (_ & _ & _ & -> & _).
  rewrite Hp. by apply Base_last_element.
Qed.

Lemma fileDocument_name_is_last_element_witness :
  db.FileIndex.Name (db.fileDocument (U:=sampleCase) sampleConfig 0 pdfFile)
  = "Invoice.PDF"%string.
Proof.
  apply (fileDocument_name_is_last_element (U:=sampleCase) sampleConfig 0 pdfFile "/docs/"
           "Invoice.PDF"); [reflexivity | discriminate | reflexivity |].
  right. by exists "/docs"%string.
Defined.

(** X11. An entry whose last path element starts with a dot never reaches
    the manifest: [processFile] leaves the database as it is, and returns
    [SkipDir] for a directory (so the walk does not enter it) and no error
    for a file. *)
Theorem processFile_skips_hidden {U : golib.CaseTables}
    (M : scan.Machine) (sourcePath pre name : string)
    (info : scan.OSFileInfo.t) (d : Database) :
  noSlash name = true ->
  pre = ""%string \/ (exists pre', pre = pre' +:+ "/") ->
  scan.processFile M sourcePath (pre +:+ String "." name) info None d
  = (d, if scan.OSFileInfo.IsDir info then Some scan.SkipDir else None).
Proof.
  intros Hns Hpre. unfold scan.processFile.
  rewrite Base_last_element; [|done| |done].
  - assert (golib.HasPrefix (String "." name) "." = true) as ->;
      [|by destruct (scan.OSFileInfo.IsDir info)].
    unfold golib.HasPrefix. simpl. by destruct name.
  - simpl. by rewrite Hns.
Qed.

Lemma processFile_skips_hidden_witness :
  scan.processFile (U:=sampleCase) sampleMachine "/src" "/src/.git" directoryEntry None
    uploadedDB
  = (uploadedDB, Some scan.SkipDir).
Proof.
  apply (processFile_skips_hidden (U:=sampleCase) sampleMachine "/src" "/src/" "git"
           directoryEntry uploadedDB); [reflexivity|].
  right. by exists "/src"%string.
Defined.

(** X12. When [processFile] returns an error (the walk's own, a failed
    [Rel], a file that cannot be read or hashed, a failed insert) or skips
    the entry, the manifest is unchanged. *)
Theorem processFile_error_keeps_manifest {U : golib.CaseTables}
    (M : scan.Machine) (sourcePath path : string)
    (info : scan.OSFileInfo.t) (err : option scan.scanError)
    (d d' : Database) (e : scan.scanError) :
  scan.processFile M sourcePath path info err d = (d', Some e) ->
  d' = d.
Proof.
  unfold scan.processFile.
  destruct err as [e0|]; [by intros [= <- _]|].
  destruct (golib.HasPrefix _ _).
  { destruct (scan.OSFileInfo.IsDir info); by intros [= <- _]. }
  destruct (scan.Rel M sourcePath path) as [e1|rel]; [by intros [= <- _]|].
  cbv zeta.
  assert (forall fi,
            match scan.saveFileInfo fi d with
            | (d1, Some e0) => (d1, Some (scan.DBError e0))
            | (d1, None) => (d1, None)
            end = (d', Some e) -> d' = d) as Hsave.
  { intros fi. unfold scan.saveFileInfo.
    destruct (nextRowid d); [by intros [= <- _] | done]. }
  destruct (scan.OSFileInfo.IsDir info); simpl; [apply Hsave|].
  destruct (scan.detectContentType M path) as [e1|ct]; [by intros [= <- _]|].
  destruct (_ <? _); [|apply Hsave].
  destruct (scan.calculateSHA256 M path) as [e1|h]; [by intros [= <- _]|].
  apply Hsave.
Qed.

Lemma processFile_error_keeps_manifest_witness :
  (scan.processFile (U:=sampleCase) sampleMachine "/src" "/src/a" regularFile
     (Some (scan.WalkError "permission denied")) uploadedDB).1 = uploadedDB.
Proof.
  exact (processFile_error_keeps_manifest (U:=sampleCase) sampleMachine "/src" "/src/a"
           regularFile (Some (scan.WalkError "permission denied")) uploadedDB
           _ _ eq_refl).
Defined.

(** X13. When [processFile] records an entry that is not hidden, the
    manifest has exactly one record for its path, with the relative path,
    size, time and kind of the entry.  A directory is stored with an empty
    content type and an empty hash; a file with the detected content type,
    and with its SHA-256 only when it is smaller than 1 GiB (otherwise the
    hash is empty). *)
Theorem processFile_records_entry {U : golib.CaseTables}
    (M : scan.Machine) (sourcePath path : string)
    (info : scan.OSFileInfo.t) (d d' : Database) :
  golib.HasPrefix (golib.Base path) "." = false ->
  scan.processFile M sourcePath path info None d = (d', None) ->
  exists r rel,
    filter (fun x => sqlite.path x = path) (files d') = [r] /\
    scan.Rel M sourcePath path = inr rel /\
    relative_path r = rel /\
    size r = scan.OSFileInfo.Size info /\
    mod_time r = scan.OSFileInfo.ModTime info /\
    is_dir r = scan.OSFileInfo.IsDir info /\
    (scan.OSFileInfo.IsDir info = true ->
     content_type r = Some ""%string /\ sha256 r = Some ""%string) /\
    (scan.OSFileInfo.IsDir info = false ->
     (exists buffer,
        scan.readBuffer M path = inr buffer /\
        content_type r
        = Some (scan.detectMIMEType M buffer (golib.Ext path))) /\
     (scan.OSFileInfo.Size info < 1073741824 ->
      exists h, scan.fileSHA256 M path = inr h /\ sha256 r = Some h) /\
     (1073741824 <= scan.OSFileInfo.Size info -> sha256 r = Some ""%string)).
Proof.
  intros Hvis. unfold scan.processFile. rewrite Hvis.
  destruct (scan.Rel M sourcePath path) as [e1|rel]; [done|]. cbv zeta.
  assert (forall fi,
            scan.FileInfo.Path fi = path ->
            match scan.saveFileInfo fi d with
            | (d1, Some e0) => (d1, Some (scan.DBError e0))
            | (d1, None) => (d1, None)
            end = (d', None) ->
            filter (fun x => sqlite.path x = path) (files d')
            = [scan.newRow (seq d') fi]) as Hsave.
  { intros fi Hfi Hs. rewrite <- Hfi. apply (saveFileInfo_one_row fi d).
    destruct (scan.saveFileInfo fi d) as [d1 [e0|]]; [done|].
    by injection Hs as <-. }
  destruct (scan.OSFileInfo.IsDir info) eqn:Hdir; simpl.
  - intros Hs%Hsave; [|done]. eexists _, rel. split; [exact Hs|].
    simpl. repeat split; try done.
  - unfold scan.detectContentType.
    destruct (scan.readBuffer M path) as [e1|buffer]; [done|].
    destruct (Z.ltb_spec (scan.OSFileInfo.Size info) 1073741824) as [Hlt|Hge].
    + unfold scan.calculateSHA256.
      destruct (scan.fileSHA256 M path) as [e1|h]; [done|].
      intros Hs%Hsave; [|done]. eexists _, rel. split; [exact Hs|].
      simpl. repeat split; try done.
      * by exists buffer.
      * intros _. by exists h.
      * lia.
    + intros Hs%Hsave; [|done]. eexists _, rel. split; [exact Hs|].
      simpl. repeat split; try done.
      * by exists buffer.
      * lia.
Qed.

Lemma processFile_records_entry_witness :
  (exists r,
     filter (fun x => sqlite.path x = "/src/Report.PDF"%string)
       (files (scan.processFile (U:=sampleCase) sampleMachine "/src"
                 "/src/Report.PDF" regularFile None emptyDB).1) = [r] /\
     content_type r = Some "application/pdf"%string /\
     sha256 r = Some "h"%string) /\
  (exists r,
     filter (fun x => sqlite.path x = heicPath)
       (files (scan.processFile (U:=sampleCase) sampleMachine "/src"
                 heicPath regularFile None emptyDB).1) = [r] /\
     content_type r = Some "image/heic"%string).
Proof.
  split.
  - destruct (processFile_records_entry (U:=sampleCase) sampleMachine "/src"
                "/src/Report.PDF" regularFile emptyDB
                (scan.processFile (U:=sampleCase) sampleMachine "/src"
                   "/src/Report.PDF" regularFile None emptyDB).1
                eq_refl eq_refl)
      as (r & rel & Hf & _ & _ & _ & _ & _ & _ & Hfile).
    destruct (Hfile eq_refl) as ((buffer & Hb & Hct) & Hsmall & _).
    destruct Hsmall as (h & Hh & Hsha); [reflexivity|].
    exists r. split; [exact Hf|].
    injection Hb as <-. injection Hh as <-. split; [exact Hct | exact Hsha].
  - destruct (processFile_records_entry (U:=sampleCase) sampleMachine "/src"
                heicPath regularFile emptyDB
                (scan.processFile (U:=sampleCase) sampleMachine "/src"
                   heicPath regularFile None emptyDB).1
                eq_refl eq_refl)
      as (r & rel & Hf & _ & _ & _ & _ & _ & _ & Hfile).
    destruct (Hfile eq_refl) as ((buffer & Hb & Hct) & _).
    exists r. split; [exact Hf|].
    injection Hb as <-. rewrite Hct. by vm_compute.
Defined.

(** * Further properties of the indexer *)

Lemma IndexFile_ok {U : golib.CaseTables}
    (cfg : db.IndexConfig.t) (now : Z) (f : db.FileStatus.t)
    (ix : bleve.Index db.FileIndex.t) :
  healthy ix ->
  exists ix',
    db.IndexFile cfg now (Some f) ix = (ix', None) /\
    bleve.docs ix'
    = <[golib.Sprintf_d (db.FileStatus.ID f) := db.fileDocument cfg now f]>
        (bleve.docs ix) /\
    healthy ix'.
Proof.
  intros Hh. unfold db.IndexFile, bleve.Index_Index.
  destruct (fileDocument_fields cfg now f) as (Hid & _). rewrite Hid.
  destruct (String.eqb_spec (golib.Sprintf_d (db.FileStatus.ID f)) "")
    as [Hempty|_]; [by apply Sprintf_d_nonempty in Hempty|].
  by apply write_healthy.
Qed.

Lemma RemoveFile_ok (fileID : Z) (ix : bleve.Index db.FileIndex.t) :
  healthy ix ->
  exists ix',
    db.RemoveFile fileID ix = (ix', None) /\
    bleve.docs ix' = delete (golib.Sprintf_d fileID) (bleve.docs ix) /\
    healthy ix'.
Proof.
  intros Hh. unfold db.RemoveFile, bleve.Index_Delete.
  destruct (String.eqb_spec (golib.Sprintf_d fileID) "") as [Hempty|_];
    [by apply Sprintf_d_nonempty in Hempty|].
  by apply (write_healthy (fun m => delete (golib.Sprintf_d fileID) m)).
Qed.

Lemma DocCount_healthy (ix : bleve.Index db.FileIndex.t) :
  healthy ix -> db.GetDocumentCount ix = inr (base.size (bleve.docs ix)).
Proof.
  intros [Ho _]. unfold db.GetDocumentCount, bleve.DocCount. by rewrite Ho.
Qed.

(** X14. Indexing a record whose id already has a document replaces that
    document and leaves the number of documents as it was; from then on a
    search can return only the new document under that id. *)
Theorem IndexFile_replaces_document {U : golib.CaseTables}
    (E : bleve.Engine db.FileIndex.t) (cfg : db.IndexConfig.t) (now : Z)
    (f : db.FileStatus.t) (ix : bleve.Index db.FileIndex.t) :
  healthy ix ->
  bleve.rankPermutes E ->
  is_Some (bleve.docs ix !! golib.Sprintf_d (db.FileStatus.ID f)) ->
  exists ix',
    db.IndexFile cfg now (Some f) ix = (ix', None) /\
    db.GetDocumentCount ix' = db.GetDocumentCount ix /\
    forall request results,
      db.Search E request ix' = inr results ->
      forall res, res ∈ results ->
        db.SearchResult.ID res = golib.Sprintf_d (db.FileStatus.ID f) ->
        db.SearchResult.Metadata res = db.fileDocument cfg now f.
Proof.
  intros Hh Hrank Hold.
  destruct (IndexFile_ok cfg now f ix Hh) as (ix' & Hrun & Hdocs & Hh').
  exists ix'. split; [done|]. split.
  - rewrite !DocCount_healthy by done. f_equal.
    rewrite Hdocs. by apply map_size_insert_Some.
  - intros request results Hs res Hres Hid.
    destruct (Search_results E request ix' results Hrank Hs) as (sel & _ & Hall).
    destruct (Hall res Hres) as [Hlook _].
    rewrite Hid, Hdocs, lookup_insert_eq in Hlook. by injection Hlook.
Qed.

Lemma IndexFile_replaces_document_witness :
  exists ix',
    db.IndexFile (U:=sampleCase) sampleConfig 1700000005 (Some pdfFileResummarised) invoiceIndex
    = (ix', None) /\
    db.GetDocumentCount ix' = inr 1%nat.
Proof.
  assert (healthy invoiceIndex) as Hh by (split; [done | constructor]).
  assert (bleve.rankPermutes sampleEngine) as Hrank by (intros sort hits; done).
  destruct (IndexFile_replaces_document (U:=sampleCase) sampleEngine sampleConfig 1700000005
              pdfFileResummarised invoiceIndex Hh Hrank)
    as (ix' & Hrun & Hcount & _).
  { cbn. rewrite lookup_singleton_eq. by eexists. }
  exists ix'. split; [exact Hrun|]. rewrite Hcount. reflexivity.
Defined.

(** X15. On a healthy index [UpdateFile] returns no error and ends with the
    same documents as [IndexFile] of the same record: the removal before the
    write changes nothing in the outcome. *)
Theorem UpdateFile_same_as_IndexFile {U : golib.CaseTables}
    (cfg : db.IndexConfig.t) (now : Z) (f : db.FileStatus.t)
    (ix : bleve.Index db.FileIndex.t) :
  healthy ix ->
  exists ix1 ix2,
    db.UpdateFile cfg now f ix = (ix1, None) /\
    db.IndexFile cfg now (Some f) ix = (ix2, None) /\
    bleve.docs ix1 = bleve.docs ix2 /\
    bleve.docs ix1 !! golib.Sprintf_d (db.FileStatus.ID f)
    = Some (db.fileDocument cfg now f).
Proof.
  intros Hh. unfold db.UpdateFile.
  destruct (RemoveFile_ok (db.FileStatus.ID f) ix Hh) as (ix0 & -> & Hd0 & Hh0).
  destruct (IndexFile_ok cfg now f ix0 Hh0) as (ix1 & -> & Hd1 & _).
  destruct (IndexFile_ok cfg now f ix Hh) as (ix2 & -> & Hd2 & _).
  exists ix1, ix2. split; [done|]. split; [done|].
  rewrite Hd1, Hd2, Hd0, insert_delete_eq. split; [done|].
  apply lookup_insert_eq.
Qed.

Lemma UpdateFile_same_as_IndexFile_witness :
  exists ix1,
    db.UpdateFile (U:=sampleCase) sampleConfig 1700000005 pdfFileResummarised invoiceIndex
    = (ix1, None) /\
    bleve.docs ix1 !! "12"%string
    = Some (db.fileDocument (U:=sampleCase) sampleConfig 1700000005 pdfFileResummarised).
Proof.
  assert (healthy invoiceIndex) as Hh by (split; [done | constructor]).
  destruct (UpdateFile_same_as_IndexFile (U:=sampleCase) sampleConfig 1700000005
              pdfFileResummarised invoiceIndex Hh)
    as (ix1 & ix2 & Hrun & _ & _ & Hdoc).
  exists ix1. split; [exact Hrun | exact Hdoc].
Defined.

(** X16. [UpdateFile] is not atomic: when the removal is written and the
    write of the new document then fails, it returns that error and the
    index is left with no document at all for the id. *)
Theorem UpdateFile_can_lose_document {U : golib.CaseTables}
    (cfg : db.IndexConfig.t) (now : Z) (f : db.FileStatus.t)
    (ix : bleve.Index db.FileIndex.t) (rest : list bool) :
  bleve.opened ix = true ->
  bleve.faults ix = false :: true :: rest ->
  exists ix',
    db.UpdateFile cfg now f ix = (ix', Some ErrIO) /\
    bleve.docs ix' = delete (golib.Sprintf_d (db.FileStatus.ID f)) (bleve.docs ix) /\
    bleve.docs ix' !! golib.Sprintf_d (db.FileStatus.ID f) = None.
Proof.
  intros Ho Hf. unfold db.UpdateFile.
  assert (db.RemoveFile (db.FileStatus.ID f) ix
          = ({| bleve.docs :=
                  delete (golib.Sprintf_d (db.FileStatus.ID f)) (bleve.docs ix);
                bleve.opened := true;
                bleve.faults := true :: rest |}, None)) as ->.
  { unfold db.RemoveFile, bleve.Index_Delete.
    destruct (String.eqb_spec (golib.Sprintf_d (db.FileStatus.ID f)) "")
      as [Hempty|_]; [by apply Sprintf_d_nonempty in Hempty|].
    unfold bleve.write. by rewrite Ho, Hf. }
  unfold db.IndexFile, bleve.Index_Index.
  destruct (fileDocument_fields cfg now f) as (Hid & _). rewrite Hid.
  destruct (String.eqb_spec (golib.Sprintf_d (db.FileStatus.ID f)) "")
    as [Hempty|_]; [by apply Sprintf_d_nonempty in Hempty|].
  unfold bleve.write. simpl.
  eexists. split; [reflexivity|]. simpl. split; [done|].
  apply lookup_delete_eq.
Qed.

Lemma UpdateFile_can_lose_document_witness :
  exists ix',
    db.UpdateFile (U:=sampleCase) sampleConfig 1700000005 pdfFileResummarised flakyIndex
    = (ix', Some ErrIO) /\
    bleve.docs ix' !! "12"%string = None.
Proof.
  destruct (UpdateFile_can_lose_document (U:=sampleCase) sampleConfig 1700000005
              pdfFileResummarised flakyIndex [] eq_refl eq_refl)
    as (ix' & Hrun & _ & Hnone).
  exists ix'. split; [exact Hrun | exact Hnone].
Defined.

(** X17. Indexing a record whose id has no document adds one document, and
    removing that id afterwards gives back the documents there were. *)
Theorem IndexFile_RemoveFile_round_trip {U : golib.CaseTables}
    (cfg : db.IndexConfig.t) (now : Z) (f : db.FileStatus.t)
    (ix : bleve.Index db.FileIndex.t) :
  healthy ix ->
  bleve.docs ix !! golib.Sprintf_d (db.FileStatus.ID f) = None ->
  exists ix1 ix2,
    db.IndexFile cfg now (Some f) ix = (ix1, None) /\
    db.GetDocumentCount ix1 = inr (S (base.size (bleve.docs ix))) /\
    db.RemoveFile (db.FileStatus.ID f) ix1 = (ix2, None) /\
    bleve.docs ix2 = bleve.docs ix.
Proof.
  intros Hh Hnone.
  destruct (IndexFile_ok cfg now f ix Hh) as (ix1 & Hrun1 & Hd1 & Hh1).
  destruct (RemoveFile_ok (db.FileStatus.ID f) ix1 Hh1) as (ix2 & Hrun2 & Hd2 & _).
  exists ix1, ix2. split; [done|]. split; [|split; [done|]].
  - rewrite DocCount_healthy by done. f_equal. rewrite Hd1.
    by apply map_size_insert_None.
  - rewrite Hd2, Hd1, delete_insert_eq. by apply delete_id.
Qed.

Lemma IndexFile_RemoveFile_round_trip_witness :
  exists ix1 ix2,
    db.IndexFile (U:=sampleCase) sampleConfig 1700000000 (Some pdfFile) emptyIndex = (ix1, None) /\
    db.GetDocumentCount ix1 = inr 1%nat /\
    db.RemoveFile 12 ix1 = (ix2, None) /\
    bleve.docs ix2 = ∅.
Proof.
  assert (healthy emptyIndex) as Hh by (split; [done | constructor]).
  destruct (IndexFile_RemoveFile_round_trip (U:=sampleCase) sampleConfig 1700000000 pdfFile
              emptyIndex Hh (lookup_empty _))
    as (ix1 & ix2 & H1 & H2 & H3 & H4).
  exists ix1, ix2. split; [exact H1|]. split; [exact H2|].
  split; [exact H3 | exact H4].
Defined.

Lemma hits_NoDup (sel : db.FileIndex.t -> bool)
    (ix : bleve.Index db.FileIndex.t) :
  NoDup (map fst (bleve.hitsOf sel ix)).
Proof.
  unfold bleve.hitsOf.
  eapply sublist_NoDup; [apply (NoDup_fst_map_to_list (bleve.docs ix))|].
  apply fmap_sublist, sublist_filter.
Qed.




(** X19. Two consecutive pages of the same request are the two halves of the
    page of double size, and no document is on both. *)
Theorem Search_pages_compose
    (E : bleve.Engine db.FileIndex.t) (request : db.SearchRequest.t)
    (ix : bleve.Index db.FileIndex.t) (l o : Z)
    (r1 r2 : list (db.SearchResult.t (bleve.float64 E))) :
  bleve.rankPermutes E ->
  0 < l -> 0 <= o ->
  db.Search E (withPage request l o) ix = inr r1 ->
  db.Search E (withPage request l (o + l)) ix = inr r2 ->
  db.Search E (withPage request (2 * l) o) ix = inr (r1 ++ r2) /\
  NoDup (map db.SearchResult.ID (r1 ++ r2)).
Proof.
  intros Hrank Hl Ho. rewrite !Search_unfold.
  destruct (negb (bleve.opened ix)); [done|].
  change (db.searchQuery (withPage request l o)) with (db.searchQuery request).
  change (db.searchQuery (withPage request l (o + l)))
    with (db.searchQuery request).
  change (db.searchQuery (withPage request (2 * l) o))
    with (db.searchQuery request).
  change (db.SearchRequest.Offset (withPage request l o)) with o.
  change (db.SearchRequest.Offset (withPage request l (o + l))) with (o + l).
  change (db.SearchRequest.Offset (withPage request (2 * l) o)) with o.
  pose proof (effectiveLimit_pos (withPage request l o)).
  pose proof (effectiveLimit_pos (withPage request l (o + l))).
  pose proof (effectiveLimit_pos (withPage request (2 * l) o)).
  destruct (Z.ltb_spec (effectiveLimit (withPage request l o) + o + 1) 0);
    [lia|].
  destruct (Z.ltb_spec
              (effectiveLimit (withPage request l (o + l)) + (o + l) + 1) 0);
    [lia|].
  destruct (Z.ltb_spec (effectiveLimit (withPage request (2 * l) o) + o + 1) 0);
    [lia|].
  destruct (bleve.matches db.fieldsOf E db.createIndexMapping
              (db.searchQuery request)) as [sel|]; [|done].
  destruct (Z.ltb_spec o 0); [lia|].
  destruct (Z.ltb_spec (o + l) 0); [lia|].
  change (bleve.SearchRequest.Sort (db.searchRequest (withPage request l o)))
    with (bleve.SearchRequest.Sort (db.searchRequest request)).
  change (bleve.SearchRequest.Sort
            (db.searchRequest (withPage request l (o + l))))
    with (bleve.SearchRequest.Sort (db.searchRequest request)).
  change (bleve.SearchRequest.Sort
            (db.searchRequest (withPage request (2 * l) o)))
    with (bleve.SearchRequest.Sort (db.searchRequest request)).
  set (ranked := bleve.rank E _ (bleve.hitsOf sel ix)).
  assert (effectiveLimit (withPage request l o) = l) as ->.
  { unfold effectiveLimit. simpl. destruct (Z.leb_spec l 0); lia. }
  assert (effectiveLimit (withPage request l (o + l)) = l) as ->.
  { unfold effectiveLimit. simpl. destruct (Z.leb_spec l 0); lia. }
  assert (effectiveLimit (withPage request (2 * l) o) = 2 * l) as ->.
  { unfold effectiveLimit. simpl. destruct (Z.leb_spec (2 * l) 0); lia. }
  simpl. intros [= <-] [= <-].
  assert (take (Z.to_nat l) (drop (Z.to_nat o) ranked)
          ++ take (Z.to_nat l) (drop (Z.to_nat (o + l)) ranked)
          = take (Z.to_nat (2 * l)) (drop (Z.to_nat o) ranked)) as Hpages.
  { replace (Z.to_nat (o + l)) with (Z.to_nat o + Z.to_nat l)%nat by lia.
    rewrite <- drop_drop, take_take_drop. f_equal. lia. }
  rewrite <- map_app, Hpages. split; [done|].
  rewrite map_map.
  assert (NoDup (map fst ranked)) as Hnd.
  { unfold ranked. rewrite (Hrank _ (bleve.hitsOf sel ix)). apply hits_NoDup. }
  eapply sublist_NoDup; [exact Hnd|].
  change (map fst (take (Z.to_nat (2 * l)) (drop (Z.to_nat o) ranked))
          `sublist_of` map fst ranked).
  apply fmap_sublist. etrans; [apply sublist_take | apply sublist_drop].
Qed.

Lemma Search_pages_compose_witness :
  exists r1 r2,
    db.Search sampleEngine (withPage browseRequest 2 0) threeDocs = inr r1 /\
    db.Search sampleEngine (withPage browseRequest 2 2) threeDocs = inr r2 /\
    List.length r1 = 2%nat /\ List.length r2 = 1%nat /\
    NoDup (map db.SearchResult.ID (r1 ++ r2)).
Proof.
  assert (bleve.rankPermutes sampleEngine) as Hrank by (intros sort hits; done).
  eexists _, _. split; [vm_compute; reflexivity|].
  split; [vm_compute; reflexivity|]. split; [reflexivity|].
  split; [reflexivity|].
  refine (proj2 (Search_pages_compose sampleEngine browseRequest threeDocs 2 0
                   _ _ Hrank _ _ _ _)); [lia | lia | | ];
    vm_compute; reflexivity.
Defined.

(** X20. A request with an empty query text selects every document,
    whatever field name it carries: when the offset is zero and the limit in
    force covers the index, the results are the documents of the index, one
    result each. *)
Theorem Search_empty_query_lists_all
    (E : bleve.Engine db.FileIndex.t) (request : db.SearchRequest.t)
    (ix : bleve.Index db.FileIndex.t)
    (results : list (db.SearchResult.t (bleve.float64 E))) :
  bleve.rankPermutes E ->
  db.SearchRequest.Query request = ""%string ->
  db.SearchRequest.Offset request = 0 ->
  (base.size (bleve.docs ix) <= Z.to_nat (effectiveLimit request))%nat ->
  db.Search E request ix = inr results ->
  map (fun res => (db.SearchResult.ID res, db.SearchResult.Metadata res)) results
  ≡ₚ map_to_list (bleve.docs ix).
Proof.
  intros Hrank Hq Ho Hl. rewrite Search_unfold.
  destruct (negb (bleve.opened ix)); [done|].
  destruct (_ <? 0); [done|].
  unfold db.searchQuery at 1. rewrite Hq. simpl.
  rewrite Ho. simpl.
  intros [= <-]. rewrite map_map. simpl.
  rewrite drop_0.
  assert (bleve.hitsOf (fun _ => true) ix = map_to_list (bleve.docs ix)) as Hall.
  { unfold bleve.hitsOf. generalize (map_to_list (bleve.docs ix)).
    intros hits. induction hits as [|kv hits IH]; [done|].
    rewrite filter_cons_True by done. by rewrite IH. }
  rewrite take_ge.
  - match goal with
    | |- map ?f ?l ≡ₚ _ =>
        assert (forall l0 : list (string * db.FileIndex.t), map f l0 = l0)
          as Hid
    end.
    { intros l0. induction l0 as [|[k doc] l0 IH]; [done|]. simpl.
      by rewrite IH. }
    by rewrite Hid, (Hrank _ _), Hall.
  - rewrite (Hrank _ _), Hall, length_map_to_list. done.
Qed.

Lemma Search_empty_query_lists_all_witness :
  exists results,
    db.Search sampleEngine browseRequest threeDocs = inr results /\
    map (fun res => (db.SearchResult.ID res, db.SearchResult.Metadata res))
      results
    ≡ₚ map_to_list (bleve.docs threeDocs).
Proof.
  assert (bleve.rankPermutes sampleEngine) as Hrank by (intros sort hits; done).
  eexists. split; [vm_compute; reflexivity|].
  apply (Search_empty_query_lists_all sampleEngine browseRequest threeDocs
           _ Hrank eq_refl).
  - done.
  - vm_compute. lia.
  - vm_compute. reflexivity.
Defined.

Lemma write_keeps_healthy {D : Type} (f : gmap string D -> gmap string D)
    (ix ix' : bleve.Index D) (err : option error) :
  healthy ix -> bleve.write f ix = (ix', err) -> healthy ix'.
Proof.
  intros Hh Hw. destruct (write_healthy f ix Hh) as (ix0 & Hw0 & _ & Hh0).
  congruence.
Qed.

Lemma buildLoop_healthy {U : golib.CaseTables}
    (cfg : db.IndexConfig.t) (now : nat -> Z)
    (rows : list Row) :
  forall (ix : bleve.Index db.FileIndex.t) (batch : bleve.Batch db.FileIndex.t)
         (count : nat) ix' n err,
  healthy ix ->
  db.buildLoop cfg now rows ix batch count = (ix', n, err) ->
  healthy ix'.
Proof.
  induction rows as [|r rest IH]; intros ix batch count ix' n err Hh Hrun.
  - simpl in Hrun. destruct (0 <? _)%nat; [|by injection Hrun as <- _ _].
    destruct (bleve.Index_Batch batch ix) as [ix1 [e|]] eqn:Hw;
      injection Hrun as <- _ _; by apply write_keeps_healthy in Hw.
  - rewrite buildLoop_cons in Hrun.
    destruct (db.scanRow r) as [e|f]; [by injection Hrun as <- _ _|].
    cbv zeta in Hrun.
    destruct (bleve.Batch_Index _ _ batch) as [batch1 [e|]];
      [by injection Hrun as <- _ _|].
    destruct (_ =? _)%nat; [|by apply IH in Hrun].
    destruct (bleve.Index_Batch batch1 ix) as [ix1 [e|]] eqn:Hw;
      apply write_keeps_healthy in Hw; try done.
    + by injection Hrun as <- _ _.
    + by apply IH in Hrun.
Qed.

Lemma BuildIndex_ok {U : golib.CaseTables}
    (cfg : db.IndexConfig.t) (now : nat -> Z) (d : Database)
    (ix : bleve.Index db.FileIndex.t) :
  healthy ix ->
  (forall r, r ∈ files d -> exists f, db.scanRow r = inr f) ->
  exists ix',
    db.BuildIndex cfg now d ix = (ix', List.length (files d), None) /\
    bleve.docs ix'
    = applyRows cfg now 0 (orderById (files d)) (bleve.docs ix) /\
    healthy ix'.
Proof.
  intros Hh Hscan. unfold db.BuildIndex.
  pose proof (merge_sort_Permutation idLe (files d)) as Hperm.
  fold orderById in Hperm.
  destruct (db.buildLoop cfg now (orderById (files d)) ix bleve.NewBatch 0)
    as [[ix' n] err] eqn:Hrun.
  pose proof (buildLoop_healthy _ _ _ _ _ _ _ _ _ Hh Hrun) as Hh'.
  apply buildLoop_outcome in Hrun as (j & Hn & Hj & Hpre & Hres).
  assert (j = n) as -> by lia. clear Hn.
  destruct err as [e|].
  { exfalso. destruct Hres as (c & [[(r & Hr & Hs) _]|[Hwf _]] & _).
    - destruct (Hscan r) as [f Hf]; [|congruence].
      rewrite <- Hperm. by eapply list_elem_of_lookup_2.
    - by apply healthy_no_writeFailure in Hwf. }
  destruct Hres as [-> Hdocs]. unfold bleve.NewBatch in Hdocs.
  rewrite (left_id_L ∅ (∪)) in Hdocs.
  exists ix'. split; [by rewrite Hperm|]. done.
Qed.

(** X21. Rebuilding a second time from an unchanged manifest changes neither
    the set of indexed ids nor the document count; the documents of ids that
    are not in the manifest stay as they are, and with the same clock
    readings the index is the same document for document. *)
Theorem BuildIndex_twice {U : golib.CaseTables}
    (cfg : db.IndexConfig.t) (now now' : nat -> Z) (d : Database)
    (ix : bleve.Index db.FileIndex.t) :
  healthy ix ->
  NoDup (map id (files d)) ->
  (forall r, r ∈ files d -> exists f, db.scanRow r = inr f) ->
  exists ix1 ix2,
    db.BuildIndex cfg now d ix = (ix1, List.length (files d), None) /\
    db.BuildIndex cfg now' d ix1 = (ix2, List.length (files d), None) /\
    dom (bleve.docs ix2) = dom (bleve.docs ix1) /\
    db.GetDocumentCount ix2 = db.GetDocumentCount ix1 /\
    (forall k, (forall r, r ∈ files d -> k <> docKey r) ->
       bleve.docs ix2 !! k = bleve.docs ix !! k) /\
    ((forall n, now' n = now n) -> bleve.docs ix2 = bleve.docs ix1).
Proof.
  intros Hh Hnd Hscan.
  destruct (BuildIndex_ok cfg now d ix Hh Hscan) as (ix1 & Hrun1 & Hd1 & Hh1).
  destruct (BuildIndex_ok cfg now' d ix1 Hh1 Hscan) as (ix2 & Hrun2 & Hd2 & Hh2).
  pose proof (merge_sort_Permutation idLe (files d)) as Hperm.
  fold orderById in Hperm.
  assert (forall r, r ∈ orderById (files d) -> exists f, db.scanRow r = inr f)
    as Hscan'.
  { intros r Hr. apply Hscan. by rewrite <- Hperm. }
  assert (dom (bleve.docs ix2) = dom (bleve.docs ix1)) as Hdom.
  { rewrite Hd2, applyRows_dom by done. rewrite Hd1, applyRows_dom by done.
    rewrite <- (assoc_L (∪)). by rewrite (idemp_L (∪)). }
  assert (forall k, (forall r, r ∈ orderById (files d) -> k <> docKey r) ->
            forall m nw,
              applyRows cfg nw 0 (orderById (files d)) m !! k = m !! k)
    as Hother.
  { intros k Hk m nw. by apply applyRows_other. }
  exists ix1, ix2. split; [done|]. split; [done|]. split; [done|].
  split; [|split].
  - rewrite !DocCount_healthy by done. by rewrite <- !size_dom, Hdom.
  - intros k Hk. rewrite Hd2, Hother, Hd1, Hother; [done| |];
      intros r Hr; apply Hk; by rewrite <- Hperm.
  - intros Hclock. apply map_eq. intros k.
    destruct (decide (k ∈ map docKey (orderById (files d)))) as [Hin|Hout].
    + apply list_elem_of_fmap in Hin as (r & -> & Hr).
      destruct (Hscan' r Hr) as [f Hf].
      apply list_elem_of_lookup_1 in Hr as [i Hi].
      assert (NoDup (map docKey (orderById (files d)))) as Hkeys.
      { apply docKey_NoDup. by rewrite Hperm. }
      rewrite Hd2, (applyRows_lookup cfg now' _ Hkeys i r f) by done.
      rewrite Hd1, (applyRows_lookup cfg now _ Hkeys i r f) by done.
      by rewrite Hclock.
    + rewrite Hd2, Hother; [done|].
      intros r Hr ->. apply Hout, list_elem_of_fmap. by exists r.
Qed.

Lemma BuildIndex_twice_witness :
  exists ix1 ix2,
    db.BuildIndex (U:=sampleCase) sampleConfig tick oneRowDB staleIndex = (ix1, 1%nat, None) /\
    db.BuildIndex (U:=sampleCase) sampleConfig tick oneRowDB ix1 = (ix2, 1%nat, None) /\
    db.GetDocumentCount ix2 = db.GetDocumentCount ix1.
Proof.
  assert (healthy staleIndex) as Hh by (split; [done | constructor]).
  assert (NoDup (map id (files oneRowDB))) as Hnd by (apply NoDup_singleton).
  assert (forall r, r ∈ files oneRowDB -> exists f, db.scanRow r = inr f)
    as Hscan.
  { intros r Hr. cbn in Hr. apply list_elem_of_singleton in Hr as ->.
    by eexists. }
  destruct (BuildIndex_twice (U:=sampleCase) sampleConfig tick tick oneRowDB staleIndex
              Hh Hnd Hscan) as (ix1 & ix2 & H1 & H2 & _ & H3 & _).
  exists ix1, ix2. split; [exact H1|]. split; [exact H2 | exact H3].
Defined.

(** * Properties of the stub files *)

Ltac in_list H :=
  repeat (apply elem_of_cons in H as [H|H];
          [try discriminate; try (injection H as <-) |]);
  try (by apply elem_of_nil in H).

(** X22. [ReplaceWithStub] removes the original only after its stub file was
    created, and only when the whole call succeeds: a removal that went
    through is of the original path, is the last call made, comes after the
    creation of [path.webloc] or [path.url], and the call returns no error.
    With a mode that is neither webloc nor shortcut the operating system
    is not called at all. *)
Theorem ReplaceWithStub_removes_only_after_stub
    (Dir : string -> string) (p url mode : string) (w w' : db.OS)
    (res : option db.StubResult.t) (err : option db.stubError) :
  db.ReplaceWithStub Dir p url mode w = (w', res, err) ->
  exists new,
    db.calls w' = db.calls w ++ new /\
    (forall q, (db.OsRemove q, None) ∈ new ->
       q = p /\ err = None /\
       exists stub,
         (stub = p +:+ ".webloc" \/ stub = p +:+ ".url") /\
         (db.OsCreate stub, None) ∈ new) /\
    (err = None -> mode <> db.StubModeNone ->
     last new = Some (db.OsRemove p, None)) /\
    (mode <> db.StubModeWebloc -> mode <> db.StubModeShortcut -> new = []).
Proof.
  unfold db.ReplaceWithStub, db.CreateStub.
  destruct (String.eqb_spec mode db.StubModeNone) as [->|Hnone].
  { intros [= <- <- <-]. exists []. rewrite app_nil_r. split; [done|].
    split; [by intros q ?%elem_of_nil|]. by split. }
  destruct (String.eqb_spec mode db.StubModeWebloc) as [->|Hweb].
  { unfold db.createWeblocFile. destruct w as [cs os].
    destruct os as [|[?|] [|[?|] [|? [|[?|] [|? [|[?|] ?]]]]]];
      simpl; intros [= <- <- <-]; simpl;
      rewrite <- ?(assoc_L (++)); simpl;
      (eexists; split; [reflexivity|]);
      (split; [intros q Hq; in_list Hq|]).
    all: try (split; [done|]; try done).
    all: try (split; [done|]; try done; eexists; split; [by left|]).
    all: by right; left. }
  destruct (String.eqb_spec mode db.StubModeShortcut) as [->|Hshort].
  { unfold db.createShortcutFile. destruct w as [cs os].
    destruct os as [|[?|] [|[?|] [|[?|] [|? [|[?|] ?]]]]];
      simpl; intros [= <- <- <-]; simpl;
      rewrite <- ?(assoc_L (++)); simpl;
      (eexists; split; [reflexivity|]);
      (split; [intros q Hq; in_list Hq|]).
    all: try (split; [done|]; try done).
    all: try (split; [done|]; try done; eexists; split; [by right|]).
    all: by right; left. }
  intros [= <- <- <-]. exists []. rewrite app_nil_r. split; [done|].
  split; [by intros q ?%elem_of_nil|]. by split.
Qed.

Lemma ReplaceWithStub_removes_only_after_stub_witness :
  exists new,
    db.calls (db.ReplaceWithStub parentDir "/u/a.txt" "https://b2/a" "shortcut"
                freshOS).1.1 = [] ++ new /\
    last new = Some (db.OsRemove "/u/a.txt", None).
Proof.
  destruct (ReplaceWithStub_removes_only_after_stub parentDir "/u/a.txt"
              "https://b2/a" "shortcut" freshOS _ _ _ eq_refl)
    as (new & Hcalls & _ & Hlast & _).
  exists new. split; [exact Hcalls|]. apply Hlast; [reflexivity | discriminate].
Defined.

Lemma stubLoop_count (Dir : string -> string) (mode : string)
    (fs : list db.FileStatus.t) :
  forall (w : db.OS) (count : nat) (firstErr : option db.stubError)
         (w' : db.OS) (n : nat) (err : option db.stubError),
  db.stubLoop Dir mode fs w count firstErr = (w', n, err) ->
  (n + errCount err
   = count + errCount firstErr
     + List.length (filter (fun f => stubCandidate f = true) fs))%nat.
Proof.
  induction fs as [|f rest IH]; intros w count firstErr w' n err Hrun;
    simpl in Hrun.
  - injection Hrun as <- <- <-. rewrite filter_nil. simpl. lia.
  - destruct (db.FileStatus.IsDir f
              || String.eqb (db.FileStatus.UploadedURL f) "") eqn:Hskip.
    + rewrite filter_cons_False
        by (unfold stubCandidate; rewrite Hskip; done).
      by eapply IH.
    + rewrite filter_cons_True
        by (unfold stubCandidate; rewrite Hskip; done).
      destruct (db.ReplaceWithStub Dir (db.FileStatus.Path f)
                  (db.FileStatus.UploadedURL f) mode w) as [[w1 res] e1].
      cbn [List.length].
      destruct e1 as [e|], firstErr as [e0|]; apply IH in Hrun;
        cbn [errCount] in *; lia.
Qed.

(** X23. The count [CreateStubsForDirectory] returns is the number of
    uploaded non-directory files it listed, less one when it returns an
    error: only the first failed replacement is left out of the count, later
    failures are counted like successes.  In mode none, or when the
    listing fails, it returns 0 and calls nothing. *)
Theorem CreateStubsForDirectory_count
    (Dir : string -> string) (d : Database) (directory mode : string)
    (w w' : db.OS) (n : nat) (err : option db.stubError) :
  db.CreateStubsForDirectory Dir d directory mode w = (w', n, err) ->
  (mode = db.StubModeNone -> w' = w /\ n = 0%nat /\ err = None) /\
  (mode <> db.StubModeNone ->
   match db.GetFilesInDirectory directory d with
   | inl e => w' = w /\ n = 0%nat /\ err = Some (db.QueryFailed e)
   | inr fs =>
       (n + errCount err
        = List.length (filter (fun f => stubCandidate f = true) fs))%nat
   end).
Proof.
  unfold db.CreateStubsForDirectory.
  destruct (String.eqb_spec mode db.StubModeNone) as [->|Hmode].
  { intros [= <- <- <-]. by split. }
  intros Hrun. split; [done|]. intros _.
  destruct (db.GetFilesInDirectory directory d) as [e|fs].
  - by injection Hrun as <- <- <-.
  - apply stubLoop_count in Hrun. cbn [errCount] in Hrun. lia.
Qed.

Lemma CreateStubsForDirectory_count_witness :
  match db.GetFilesInDirectory "/u" uploadedDirDB with
  | inl _ => False
  | inr fs =>
      (2 + 1 = List.length (filter (fun f => stubCandidate f = true) fs))%nat
  end.
Proof.
  pose proof (proj2 (CreateStubsForDirectory_count parentDir uploadedDirDB
                       "/u" "webloc" refusingOS _ 2%nat
                       (Some (db.Wrapped "failed to create directory" "a"))
                       eq_refl)) as Hcount.
  assert ("webloc"%string <> db.StubModeNone) as Hmode by discriminate.
  specialize (Hcount Hmode).
  destruct (db.GetFilesInDirectory "/u" uploadedDirDB) as [e|fs].
  - by destruct Hcount as (_ & [=] & _).
  - exact Hcount.
Defined.

(** * Properties of the size column *)

Lemma sizeLoop_spec (fuel : nat) :
  forall (n div : Z) (exp : nat),
    1 <= n -> n < 1024 ^ (Z.of_nat fuel + 1) ->
    exists k : nat,
      (k <= fuel)%nat /\
      archiver.sizeLoop fuel n div exp
      = Some (div * 1024 ^ Z.of_nat k, (exp + k)%nat) /\
      1024 ^ Z.of_nat k <= n < 1024 ^ (Z.of_nat k + 1).
Proof.
  induction fuel as [|fuel IH]; intros n div exp Hn Hmax.
  - exists 0%nat. simpl in *. destruct (Z.ltb_spec n 1024); [|lia].
    split; [lia|]. split; [f_equal; f_equal; [lia | lia]|lia].
  - simpl archiver.sizeLoop. destruct (Z.ltb_spec n 1024) as [Hlt|Hge].
    + exists 0%nat. split; [lia|]. simpl.
      split; [f_equal; f_equal; [lia | lia]|lia].
    + assert (n = 1024 * Z.quot n 1024 + Z.rem n 1024) as Hqr
        by (apply Z.quot_rem'; lia).
      assert (0 <= Z.rem n 1024 < 1024) as Hrem
        by (apply Z.rem_bound_pos; lia).
      replace (Z.of_nat (S fuel) + 1) with (Z.succ (Z.of_nat fuel + 1)) in Hmax
        by lia.
      rewrite Z.pow_succ_r in Hmax by lia.
      destruct (IH (Z.quot n 1024) (div * 1024) (S exp)) as (k & Hk & -> & Hlo & Hhi);
        [lia | lia |].
      exists (S k). split; [lia|]. split.
      * f_equal. f_equal; [|lia].
        replace (Z.of_nat (S k)) with (Z.succ (Z.of_nat k)) by lia.
        rewrite Z.pow_succ_r by lia. lia.
      * replace (Z.of_nat (S k) + 1) with (Z.succ (Z.of_nat k + 1)) by lia.
        replace (Z.of_nat (S k)) with (Z.succ (Z.of_nat k)) by lia.
        rewrite !Z.pow_succ_r by lia. lia.
Qed.

(** X24. For every int64 size the loop of [formatSize] ends within five
    rounds and the index into "KMGTPE" is in range.  A size below 1024 is
    printed as bytes; otherwise the divisor is the power of 1024 that puts
    the quotient between 1 and 1024, and the unit letter is the one of that
    power. *)
Theorem formatSize_unit_in_range (size : Z) :
  minInt64 <= size <= maxInt64 ->
  (size < 1024 ->
   archiver.formatSize 5 size
   = Some (archiver.Bytes (golib.Sprintf_d size +:+ " B"))) /\
  (1024 <= size ->
   exists (exp : nat) (unit : ascii),
     archiver.formatSize 5 size
     = Some (archiver.Scaled size (1024 ^ (Z.of_nat exp + 1)) unit) /\
     (exp <= 5)%nat /\
     String.get exp "KMGTPE" = Some unit /\
     1024 ^ (Z.of_nat exp + 1) <= size < 1024 * 1024 ^ (Z.of_nat exp + 1)).
Proof.
  intros [Hmin Hmax]. unfold archiver.formatSize. split.
  - intros Hlt. by destruct (Z.ltb_spec size 1024); [|lia].
  - intros Hge. destruct (Z.ltb_spec size 1024); [lia|].
    assert (size = 1024 * Z.quot size 1024 + Z.rem size 1024) as Hqr
      by (apply Z.quot_rem'; lia).
    assert (0 <= Z.rem size 1024 < 1024) as Hrem
      by (apply Z.rem_bound_pos; lia).
    unfold maxInt64 in Hmax.
    destruct (sizeLoop_spec 5 (Z.quot size 1024) 1024 0) as (k & Hk & -> & Hlo & Hhi).
    { lia. }
    { change (1024 ^ (Z.of_nat 5 + 1)) with 1152921504606846976. lia. }
    replace (Z.of_nat k + 1) with (Z.succ (Z.of_nat k)) in * by lia.
    rewrite Z.pow_succ_r in * by lia.
    assert (String.get k "KMGTPE" <> None) as Hget.
    { destruct k as [|[|[|[|[|[|k]]]]]]; try done. lia. }
    change (0 + k)%nat with k. cbv beta iota.
    destruct (String.get k "KMGTPE") as [c|] eqn:Hc; [|done].
    exists k, c.
    replace (Z.of_nat k + 1) with (Z.succ (Z.of_nat k)) by lia.
    rewrite Z.pow_succ_r by lia.
    split; [|split; [done|split; [done|lia]]].
    do 2 f_equal; lia.
Qed.

Lemma formatSize_unit_in_range_witness :
  exists (exp : nat) (unit : ascii),
    archiver.formatSize 5 maxInt64
    = Some (archiver.Scaled maxInt64 (1024 ^ (Z.of_nat exp + 1)) unit) /\
    String.get exp "KMGTPE" = Some unit.
Proof.
  assert (minInt64 <= maxInt64 <= maxInt64) as Hr by (vm_compute; split; discriminate).
  destruct (proj2 (formatSize_unit_in_range maxInt64 Hr)) as (exp & unit & H1 & _ & H2 & _).
  { vm_compute. discriminate. }
  exists exp, unit. split; [exact H1 | exact H2].
Defined.
